(** * JEDCO data reader: a shallow embedding of [scripts/data_reader.py]

    The script is a linear pipeline: preflight checks, read one worksheet
    with pandas, normalise the cells, wrap them in a metadata envelope and
    dump the envelope as JSON under [output/].

    The embedding follows the script function by function.  Everything the
    script obtains from its environment (installed libraries, the workbook,
    the clock, the file system) is a field of [World]; the script's
    functions are computations in a state-and-exception monad over it.
    The library calls the script makes (pathlib, pandas, json) are modelled
    from the libraries' behaviour in the modules [PyStr], [PathLib],
    [WindowsPath], [Pandas] and [Json].

    Layout: the model ([PyStr] to [Flavours]); the vocabulary of the
    properties ([Spec], [Conditions]) and some concrete worlds ([Examples],
    [Cases]); lemmas about each part of the model; the properties of the
    script ([Claims], [Properties]). *)

From Stdlib Require Import ZArith Ascii String Floats.
From stdpp Require Import base tactics option list strings pretty gmap fin_maps.

Local Open Scope Z_scope.
Set Warnings "-register-all".

(** ** Python [str] operations used by the script *)

Module PyStr.

(** [s.startswith(p)] *)
Fixpoint startswith (s p : string) {struct p} : bool :=
  match p, s with
  | EmptyString, _ => true
  | String _ _, EmptyString => false
  | String a p', String b s' => if Ascii.eqb a b then startswith s' p' else false
  end.

(** [needle in hay] on strings: some suffix of [hay] starts with [needle]. *)
Fixpoint str_in (needle hay : string) : bool :=
  startswith hay needle ||
  match hay with
  | EmptyString => false
  | String _ hay' => str_in needle hay'
  end.

(** [s.split(sep)] for a one-character separator. *)
Fixpoint split (sep : ascii) (s : string) : list string :=
  match s with
  | EmptyString => [EmptyString]
  | String c s' =>
      if Ascii.eqb c sep then EmptyString :: split sep s'
      else match split sep s' with
           | [] => [String c EmptyString]
           | x :: xs => String c x :: xs
           end
  end.

(** [sep.join(parts)] *)
Fixpoint join (sep : string) (parts : list string) : string :=
  match parts with
  | [] => ""
  | [x] => x
  | x :: rest => x +:+ sep +:+ join sep rest
  end.

(** [s * n] *)
Fixpoint repeat (s : string) (n : nat) : string :=
  match n with
  | O => ""
  | S n' => s +:+ repeat s n'
  end.

Definition is_empty (s : string) : bool :=
  match s with EmptyString => true | _ => false end.

(** [s or d] *)
Definition or_else (s d : string) : string :=
  if is_empty s then d else s.

Definition tail1 (s : string) : string :=
  match s with EmptyString => "" | String _ s' => s' end.

End PyStr.

(** ** pathlib, POSIX flavour

    A pure path is kept in parsed form, as [PurePosixPath] does: a root
    (the empty string, [/] or [//]) and the list of its components.  The
    drive is always empty in this flavour and is left out.  (In the
    Windows flavour the separator is the backslash and a path may have a
    drive; joining behaves alike: a right operand with a root of its own
    drops the components of the left one.) *)

Module PathLib.
Import PyStr.

Record Path := mkPath { root : string; tail : list string }.

(** [posixpath.splitroot]: the root is [//] for exactly two leading
    slashes, [/] for one or for three and more, empty otherwise. *)
Definition splitroot (p : string) : string * string :=
  match p with
  | String "/" (String "/" (String "/" _)) => ("/", tail1 p)
  | String "/" (String "/" r) => ("//", r)
  | String "/" r => ("/", r)
  | _ => ("", p)
  end.

Definition keep_part (x : string) : bool :=
  negb (is_empty x) && negb (String.eqb x ".").

(** [PurePath._parse_path]: empty and [.] components are dropped. *)
Definition parse (s : string) : Path :=
  if is_empty s then mkPath "" []
  else let '(r, rel) := splitroot s in
       mkPath r (filter (fun x => keep_part x = true) (split "/" rel)).

(** [str(path)] *)
Definition str (p : Path) : string :=
  or_else (root p +:+ join "/" (tail p)) ".".

(** [path / segment]: a rooted right operand replaces the left one. *)
Definition truediv (p : Path) (seg : string) : Path :=
  let q := parse seg in
  if is_empty (root q) then mkPath (root p) (tail p ++ tail q) else q.

(** [path.parent] *)
Definition parent (p : Path) : Path :=
  match tail p with
  | [] => p
  | _ => mkPath (root p) (removelast (tail p))
  end.

(** The non-empty prefixes of a component list, shortest first. *)
Fixpoint prefixes (l : list string) : list (list string) :=
  match l with
  | [] => []
  | x :: l' => [x] :: map (cons x) (prefixes l')
  end.

(** The path's ancestors below the root, outermost first, then the path. *)
Definition lineage (p : Path) : list Path :=
  map (mkPath (root p)) (prefixes (tail p)).

(** [path.name] *)
Definition name (p : Path) : string :=
  default "" (last (tail p)).

End PathLib.

(** ** pathlib, Windows flavour

    The script names its workbook by a Windows path, so Windows is a
    platform it runs on.  There a pure path has a drive besides its root,
    both the backslash and the slash separate components, and a right
    operand of [/] replaces the left one as soon as it has a root or
    another drive.  The definitions follow [_WindowsFlavour] of pathlib
    (Python 3.11); from 3.12 on pathlib takes any character before a colon
    for a drive letter, which makes no difference to a name that has no
    colon in second place. *)

Module WindowsPath.
Import PyStr.

Definition sep : ascii := ascii_of_nat 92.
Definition altsep : ascii := "/".
Definition sep_str : string := String sep "".

Record Path := mkPath { drive : string; root : string; tail : list string }.

(** [s[:n]] and [s[n:]] *)
Fixpoint str_take (n : nat) (s : string) : string :=
  match n, s with
  | S n', String c s' => String c (str_take n' s')
  | _, _ => ""
  end.

Fixpoint str_drop (n : nat) (s : string) : string :=
  match n, s with
  | S n', String _ s' => str_drop n' s'
  | _, _ => s
  end.

(** [s.find(c, start)] for a one-character [c] *)
Fixpoint str_find (c : ascii) (start : nat) (s : string) : option nat :=
  match s with
  | EmptyString => None
  | String x s' =>
      match start with
      | O => if Ascii.eqb x c then Some O else option_map S (str_find c O s')
      | S start' => option_map S (str_find c start' s')
      end
  end.

(** [s.lstrip(c)] *)
Fixpoint str_lstrip (c : ascii) (s : string) : string :=
  match s with
  | EmptyString => ""
  | String x s' => if Ascii.eqb x c then str_lstrip c s' else s
  end.

(** [s.replace(a, b)] for one-character [a] and [b] *)
Fixpoint str_replace (a b : ascii) (s : string) : string :=
  match s with
  | EmptyString => ""
  | String x s' => String (if Ascii.eqb x a then b else x) (str_replace a b s')
  end.

(** [s[n:n+1] == c]: false where the text is too short. *)
Definition char_is (n : nat) (s : string) (c : ascii) : bool :=
  match String.get n s with
  | Some x => Ascii.eqb x c
  | None => false
  end.

(** [s[0:1] in drive_letters] *)
Definition starts_with_letter (s : string) : bool :=
  match s with
  | EmptyString => false
  | String c _ =>
      let n := nat_of_ascii c in
      ((65 <=? n)%nat && (n <=? 90)%nat) || ((97 <=? n)%nat && (n <=? 122)%nat)
  end.

(** [_split_extended_path] *)
Definition split_extended_path (s : string) : string * string :=
  if startswith s "\\?\" then
    let prefix := str_take 4 s in
    let s := str_drop 4 s in
    if startswith s "UNC\" then (prefix +:+ str_take 3 s, sep_str +:+ str_drop 3 s)
    else (prefix, s)
  else ("", s).

(** The end of [splitroot]: a drive letter with its colon, then a root. *)
Definition split_drive_root (prefix part : string) : string * string * string :=
  let '(drv, part, rooted) :=
    if char_is 1 part ":" && starts_with_letter part
    then (str_take 2 part, str_drop 2 part, char_is 2 part sep)
    else ("", part, char_is 0 part sep) in
  if rooted then (prefix +:+ drv, sep_str, str_lstrip sep part)
  else (prefix +:+ drv, "", part).

(** [_WindowsFlavour.splitroot]: drive, root and the rest of a text in
    which the slashes have been replaced. *)
Definition splitroot (part : string) : string * string * string :=
  let '(prefix, part) :=
    if char_is 1 part sep && char_is 0 part sep then split_extended_path part
    else ("", part) in
  if char_is 1 part sep && char_is 0 part sep && negb (char_is 2 part sep) then
    (* a UNC path: [\\machine\mountpoint\directory...] *)
    match str_find sep 2 part with
    | Some index =>
        let index2 := str_find sep (index + 1) part in
        if match index2 with Some i => (i =? index + 1)%nat | None => false end
        then split_drive_root prefix part
        else
          let index2 := default (String.length part) index2 in
          if negb (is_empty prefix)
          then (prefix +:+ str_drop 1 (str_take index2 part), sep_str,
                str_drop (index2 + 1) part)
          else (str_take index2 part, sep_str, str_drop (index2 + 1) part)
    | None => split_drive_root prefix part
    end
  else split_drive_root prefix part.

(** [parse_parts] of one text: empty and [.] components are dropped. *)
Definition parse (s : string) : Path :=
  if is_empty s then mkPath "" "" []
  else let '(drv, root, rel) := splitroot (str_replace altsep sep s) in
       mkPath drv root (filter (fun x => PathLib.keep_part x = true) (split sep rel)).

(** [str(path)] *)
Definition str (p : Path) : string :=
  or_else (drive p +:+ root p +:+ join sep_str (tail p)) ".".

(** [path.anchor]: drive and root together. *)
Definition anchor (p : Path) : string := drive p +:+ root p.

(** [path.parent] *)
Definition parent (p : Path) : Path :=
  match tail p with
  | [] => p
  | _ => mkPath (drive p) (root p) (removelast (tail p))
  end.

Section Flavour.

(** [str.lower], by which drives are compared.  Taken as given. *)
Variable lower : string -> string.

(** [path / key], that is [join_parsed_parts]: a key with a root, or with
    a drive other than the path's, replaces the path. *)
Definition truediv (p : Path) (key : string) : Path :=
  let q := parse key in
  if negb (is_empty (root q)) then
    if is_empty (drive q) && negb (is_empty (drive p))
    then mkPath (drive p) (root q) (tail q)
    else q
  else if negb (is_empty (drive q)) then
    if String.eqb (drive q) (drive p) || String.eqb (lower (drive q)) (lower (drive p))
    then mkPath (drive p) (root p) (tail p ++ tail q)
    else q
  else mkPath (drive p) (root p) (tail p ++ tail q).

End Flavour.

End WindowsPath.

(** ** Python values

    The values that reach the records and the export document: JSON-like
    data, plus the pandas scalars that [json] cannot encode. *)

Module Py.

(** Exceptions, by class name and message. *)
Record exn := mkExn { exn_class : string; exn_msg : string }.

Inductive obj :=
| None_
| Bool (b : bool)
| Int (z : Z)
| Float (f : float)
| Str (s : string)
| List (items : list obj)
| Dict (items : list (string * obj))
| Timestamp (ns : Z)          (* pandas.Timestamp, a datetime subclass *)
| Timedelta (ns : Z)          (* pandas.Timedelta *)
| NaT.                        (* pandas.NaT *)

(** [type(o).__name__] *)
Definition class_name (o : obj) : string :=
  match o with
  | None_ => "NoneType"
  | Bool _ => "bool"
  | Int _ => "int"
  | Float _ => "float"
  | Str _ => "str"
  | List _ => "list"
  | Dict _ => "dict"
  | Timestamp _ => "Timestamp"
  | Timedelta _ => "Timedelta"
  | NaT => "NaTType"
  end.

(** [len(l)] of a list value *)
Definition len (l : list obj) : Z := Z.of_nat (length l).

Fixpoint assoc (k : string) (items : list (string * obj)) : option obj :=
  match items with
  | [] => None
  | (k', v) :: rest => if decide (k' = k) then Some v else assoc k rest
  end.

(** [d[k]] on a dict value, if the key is there. *)
Definition dict_get (k : string) (d : obj) : option obj :=
  match d with
  | Dict items => assoc k items
  | _ => None
  end.

End Py.

(** ** The [json] encoder, as [json.dump(obj, f, ensure_ascii=False, indent=2)]
    runs it

    With an indent the pure-Python encoder is used: it yields the text in
    chunks and [dump] writes each chunk as it comes, so when a value cannot
    be encoded the chunks yielded before it are already in the file.  An
    encoding is therefore the text produced and, possibly, the exception
    that stopped it. *)

Module Json.
Import PyStr.

Definition chr (n : nat) : ascii := ascii_of_nat n.
Definition quote : string := String (chr 34) "".
Definition backslash : string := String (chr 92) "".
Definition newline : string := String (chr 10) "".

Definition hex_digit (n : nat) : ascii :=
  if (n <? 10)%nat then chr (48 + n) else chr (87 + n).

(** [ESCAPE_DCT]: the short escapes, and [\u00XX] for the other control
    characters; every other character stands for itself. *)
Definition escape_char (c : ascii) : string :=
  let n := nat_of_ascii c in
  if (n =? 92)%nat then backslash +:+ backslash
  else if (n =? 34)%nat then backslash +:+ quote
  else if (n =? 8)%nat then backslash +:+ "b"
  else if (n =? 12)%nat then backslash +:+ "f"
  else if (n =? 10)%nat then backslash +:+ "n"
  else if (n =? 13)%nat then backslash +:+ "r"
  else if (n =? 9)%nat then backslash +:+ "t"
  else if (n <? 32)%nat then
    backslash +:+ "u00" +:+ String (hex_digit (n / 16)) (String (hex_digit (n mod 16)) "")
  else String c "".

Fixpoint escape (s : string) : string :=
  match s with
  | EmptyString => ""
  | String c s' => escape_char c +:+ escape s'
  end.

(** [py_encode_basestring] *)
Definition encode_basestring (s : string) : string :=
  quote +:+ escape s +:+ quote.

(** Text written so far, and the exception that ended the encoding. *)
Definition Enc : Type := string * option Py.exn.

Definition emit (s : string) : Enc := (s, None).
Definition fail (e : Py.exn) : Enc := ("", Some e).
Definition seq (a b : Enc) : Enc :=
  match a.2 with
  | Some _ => a
  | None => (a.1 +:+ b.1, b.2)
  end.

Declare Scope enc_scope.
Delimit Scope enc_scope with enc.
Notation "a ;; b" := (seq a b) (at level 100, b at level 200, right associativity) : enc_scope.

Section Encoder.

(** [float.__repr__] on finite floats: the shortest decimal that reads
    back as the same float.  A library function, taken as given. *)
Variable float_repr : float -> string.

(** [floatstr] with [allow_nan=True] *)
Definition floatstr (f : float) : string :=
  if PrimFloat.is_nan f then "NaN"
  else if PrimFloat.eqb f infinity then "Infinity"
  else if PrimFloat.eqb f neg_infinity then "-Infinity"
  else float_repr f.

(** [JSONEncoder.default] *)
Definition not_serializable (o : Py.obj) : Py.exn :=
  Py.mkExn "TypeError"
    ("Object of type " +:+ Py.class_name o +:+ " is not JSON serializable").

(** [newline_indent] at a nesting level, for [indent=2] *)
Definition newline_indent (level : nat) : string :=
  newline +:+ repeat "  " level.

Local Open Scope enc_scope.

(** [_iterencode], [_iterencode_list] and [_iterencode_dict] *)
Fixpoint iterencode (o : Py.obj) (level : nat) : Enc :=
  match o with
  | Py.Str s => emit (encode_basestring s)
  | Py.None_ => emit "null"
  | Py.Bool true => emit "true"
  | Py.Bool false => emit "false"
  | Py.Int z => emit (pretty z)
  | Py.Float f => emit (floatstr f)
  | Py.List [] => emit "[]"
  | Py.List (x :: xs) =>
      let sep := "," +:+ newline_indent (S level) in
      emit ("[" +:+ newline_indent (S level)) ;;
      iterencode x (S level) ;;
      (fix rest (l : list Py.obj) : Enc :=
         match l with
         | [] => emit ""
         | y :: ys => emit sep ;; iterencode y (S level) ;; rest ys
         end) xs ;;
      emit (newline_indent level) ;;
      emit "]"
  | Py.Dict [] => emit "{}"
  | Py.Dict ((k, v) :: kvs) =>
      let sep := "," +:+ newline_indent (S level) in
      emit "{" ;;
      emit (newline_indent (S level)) ;;
      emit (encode_basestring k) ;; emit ": " ;; iterencode v (S level) ;;
      (fix rest (l : list (string * Py.obj)) : Enc :=
         match l with
         | [] => emit ""
         | (k', v') :: l' =>
             emit sep ;;
             emit (encode_basestring k') ;; emit ": " ;; iterencode v' (S level) ;;
             rest l'
         end) kvs ;;
      emit (newline_indent level) ;;
      emit "}"
  | Py.Timestamp _ | Py.Timedelta _ | Py.NaT => fail (not_serializable o)
  end.

(** The chunks [json.dump] writes to the file, and how it ends. *)
Definition dump (o : Py.obj) : Enc := iterencode o 0.

End Encoder.

End Json.

(** ** pandas: the part of it the script uses

    Columns are typed arrays.  A [datetime64[ns]] or [timedelta64[ns]]
    array stores signed 64-bit counts of nanoseconds and uses the smallest
    one, [iNaT], as its missing value; a [float64] array uses NaN; an
    object array holds Python values.

    The behaviour is that of pandas 1 and 2.  Where releases differ in a
    way the script can observe ([DataFrame.where] with [None]), the
    difference is a field of [lib], the installed library. *)

Module Pandas.
Import PyStr.

Definition int64_min : Z := - 2 ^ 63.
Definition int64_max : Z := 2 ^ 63 - 1.
Definition iNaT : Z := int64_min.

(** *** Calendar breakdown of a [datetime64[ns]] value
    ([pandas_datetime_to_datetimestruct], vendored from numpy) *)

Record datetimestruct := mkDts {
  year : Z; month : Z; day : Z; hour : Z; min : Z; sec : Z
}.

Definition days_per_400years : Z := 400 * 365 + 100 - 4 + 1.

(** [days_to_yearsdays]: the year of a day count since 1970-01-01 and the
    day within that year.  The C code divides with truncation. *)
Definition days_to_yearsdays (days_ : Z) : Z * Z :=
  let days := days_ - (365 * 30 + 7) in
  let '(year, days) :=
    if 0 <=? days then
      (400 * Z.quot days days_per_400years, Z.rem days days_per_400years)
    else
      let r := Z.rem days days_per_400years in
      (400 * Z.quot (days - (days_per_400years - 1)) days_per_400years,
       if r <? 0 then r + days_per_400years else r) in
  let '(year, days) :=
    if 366 <=? days then
      let year := year + 100 * Z.quot (days - 1) (100 * 365 + 25 - 1) in
      let days := Z.rem (days - 1) (100 * 365 + 25 - 1) in
      if 365 <=? days then
        let year := year + 4 * Z.quot (days + 1) (4 * 365 + 1) in
        let days := Z.rem (days + 1) (4 * 365 + 1) in
        if 366 <=? days then
          (year + Z.quot (days - 1) 365, Z.rem (days - 1) 365)
        else (year, days)
      else (year, days)
    else (year, days) in
  (year + 2000, days).

Definition is_leapyear (year : Z) : bool :=
  (Z.land year 3 =? 0) && (negb (Z.rem year 100 =? 0) || (Z.rem year 400 =? 0)).

Definition days_per_month_table (leap : bool) : list Z :=
  if leap then [31; 29; 31; 30; 31; 30; 31; 31; 30; 31; 30; 31]
  else [31; 28; 31; 30; 31; 30; 31; 31; 30; 31; 30; 31].

(** The month loop of [set_datetimestruct_days]; the loop never runs out
    for a day within a year, and [(0, 0)] stands for fields left unset. *)
Fixpoint month_and_day (month_lengths : list Z) (i : Z) (days : Z) : Z * Z :=
  match month_lengths with
  | [] => (0, 0)
  | len :: rest =>
      if days <? len then (i + 1, days + 1)
      else month_and_day rest (i + 1) (days - len)
  end.

Definition ns_per_day : Z := 24 * 60 * 60 * 1000 * 1000 * 1000.

(** [extract_unit] is floor division with a non-negative remainder. *)
Definition to_datetimestruct (dt : Z) : datetimestruct :=
  let days := dt / ns_per_day in
  let dt := dt mod ns_per_day in
  let '(y, yd) := days_to_yearsdays days in
  let '(m, d) := month_and_day (days_per_month_table (is_leapyear y)) 0 yd in
  let h := dt / (1000 * 1000 * 1000 * 60 * 60) in
  let dt := dt mod (1000 * 1000 * 1000 * 60 * 60) in
  let mi := dt / (1000 * 1000 * 1000 * 60) in
  let dt := dt mod (1000 * 1000 * 1000 * 60) in
  let s := dt / (1000 * 1000 * 1000) in
  mkDts y m d h mi s.

(** [f"{n:02d}"] *)
Definition fmt_02d (n : Z) : string :=
  let s := pretty n in
  if (String.length s <? 2)%nat then "0" +:+ s else s.

(** What [strftime('%Y-%m-%d %H:%M:%S')] produces for one value
    ([format_array_from_datetime], the branch for this very format). *)
Definition format_datetime (ns : Z) : string :=
  let dts := to_datetimestruct ns in
  (pretty (year dts) +:+ "-" +:+ fmt_02d (month dts) +:+ "-" +:+ fmt_02d (day dts) +:+ " ")
  +:+ (fmt_02d (hour dts) +:+ ":" +:+ fmt_02d (min dts) +:+ ":" +:+ fmt_02d (sec dts)).

(** *** Series and data frames *)

Inductive dtype :=
| datetime64_ns | timedelta64_ns | float64 | int64 | bool_ | object_.

Definition dtype_name (d : dtype) : string :=
  match d with
  | datetime64_ns => "datetime64[ns]"
  | timedelta64_ns => "timedelta64[ns]"
  | float64 => "float64"
  | int64 => "int64"
  | bool_ => "bool"
  | object_ => "object"
  end.

(** [dtype == 'name'] *)
Definition dtype_is (d : dtype) (n : string) : bool :=
  String.eqb (dtype_name d) n.

Inductive Series :=
| Datetime64 (values : list Z)
| Timedelta64 (values : list Z)
| Float64 (values : list float)
| Int64 (values : list Z)
| Boolean (values : list bool)
| Object (values : list Py.obj).

(** [series.dtype] *)
Definition dtype_of (s : Series) : dtype :=
  match s with
  | Datetime64 _ => datetime64_ns
  | Timedelta64 _ => timedelta64_ns
  | Float64 _ => float64
  | Int64 _ => int64
  | Boolean _ => bool_
  | Object _ => object_
  end.

(** A frame: the length of its index and its labelled columns, in
    order.  [len(df)] is the length of the index. *)
Record DataFrame := mkDF { index_len : nat; cols : list (string * Series) }.

(** [df.columns] *)
Definition columns (df : DataFrame) : list string := (cols df).*1.

(** [df[col]] for a label taken from [df.columns]: the column, when the
    label names exactly one; with a repeated label pandas hands back a
    frame, which has no [dtype] or [dt]. *)
Definition getitem (df : DataFrame) (col : string) : option Series :=
  match filter (fun c => c.1 = col) (cols df) with
  | [c] => Some c.2
  | _ => None
  end.

(** [df[col] = series] for a label of the frame: the column is replaced
    where it stands. *)
Definition setitem (df : DataFrame) (col : string) (s : Series) : DataFrame :=
  mkDF (index_len df)
       (map (fun c => if decide (c.1 = col) then (c.1, s) else c) (cols df)).

(** [series.dt.strftime('%Y-%m-%d %H:%M:%S')]: an object column of
    strings, with NaN where the value is NaT. *)
Definition dt_strftime (values : list Z) : Series :=
  Object (map (fun ns => if ns =? iNaT then Py.Float nan
                         else Py.Str (format_datetime ns)) values).

Section Library.

(** How pandas prints the durations of a [timedelta64[ns]] column (the
    layout is chosen from the whole column).  Taken as given. *)
Variable timedelta_repr : list Z -> Z -> string.

(** [series.astype(str)] on a [timedelta64[ns]] column: every value is
    turned into text, and NaT into the text [NaT]. *)
Definition timedelta_astype_str (values : list Z) : Series :=
  Object (map (fun ns => Py.Str (if ns =? iNaT then "NaT"
                                 else timedelta_repr values ns)) values).

End Library.

(** [pd.isnull] on a Python value *)
Definition isnull_obj (o : Py.obj) : bool :=
  match o with
  | Py.None_ | Py.NaT => true
  | Py.Float f => PrimFloat.is_nan f
  | _ => false
  end.

(** Iterating a column yields Python scalars. *)
Definition box_datetime (ns : Z) : Py.obj :=
  if ns =? iNaT then Py.NaT else Py.Timestamp ns.
Definition box_timedelta (ns : Z) : Py.obj :=
  if ns =? iNaT then Py.NaT else Py.Timedelta ns.

Definition to_list (s : Series) : list Py.obj :=
  match s with
  | Datetime64 v => map box_datetime v
  | Timedelta64 v => map box_timedelta v
  | Float64 v => map Py.Float v
  | Int64 v => map Py.Int v
  | Boolean v => map Py.Bool v
  | Object v => v
  end.

Definition none_if_null (o : Py.obj) : Py.obj :=
  if isnull_obj o then Py.None_ else o.

(** [df.where(pd.notnull(df), None)], column by column.  In an object
    column every missing value becomes [None].  For the other dtypes the
    outcome depends on the pandas release: from 1.3 on, a [None]
    replacement is first turned into the column's own missing value, so
    the column is left as it is ([keeps_dtype]); before, the column was
    cast to object and received [None]. *)
Definition where_notnull_none (keeps_dtype : bool) (s : Series) : Series :=
  match s with
  | Object v => Object (map none_if_null v)
  | Int64 _ | Boolean _ => s
  | _ => if keeps_dtype then s else Object (map none_if_null (to_list s))
  end.

Definition where_notnull_none_df (keeps_dtype : bool) (df : DataFrame) : DataFrame :=
  mkDF (index_len df)
       (map (fun c => (c.1, where_notnull_none keeps_dtype c.2)) (cols df)).

(** [zip] over all the column arrays at once: it stops with the shortest
    array, and yields no row when there is no array. *)
Fixpoint zip_arrays (arrays : list (list Py.obj)) : list (list Py.obj) :=
  match arrays with
  | [] => []
  | [a] => map (fun x => [x]) a
  | a :: rest => zip_with cons a (zip_arrays rest)
  end.

(** [dict(pairs)]: a later binding of a key replaces the value of the
    earlier one and keeps its place. *)
Fixpoint dict_set (k : string) (v : Py.obj) (d : list (string * Py.obj))
  : list (string * Py.obj) :=
  match d with
  | [] => [(k, v)]
  | (k', v') :: d' =>
      if decide (k' = k) then (k', v) :: d' else (k', v') :: dict_set k v d'
  end.

Definition dict_of (pairs : list (string * Py.obj)) : Py.obj :=
  Py.Dict (fold_left (fun d kv => dict_set kv.1 kv.2 d) pairs []).

(** [df.to_dict(orient='records')] *)
Definition to_dict_records (df : DataFrame) : list Py.obj :=
  map (fun row => dict_of (zip (columns df) row))
      (zip_arrays (map (fun c => to_list c.2) (cols df))).

(** The installed pandas, as far as the script can tell releases apart. *)
Record lib := mkLib { version : string; where_keeps_dtype : bool }.

End Pandas.

(** ** The script *)

Module DataReader.
Import PyStr PathLib.

(** *** The world the script runs in *)

Inductive node := File (content : string) | Dir.

(** What an f-string interpolates into a console message. *)
Inductive piece :=
| Txt (s : string)
| Num (n : Z)                 (* an integer *)
| KB (bytes : Z)              (* bytes / 1024, printed with one decimal *)
| Labels (l : list string).   (* a list of column labels *)

Definition line : Type := list piece.

Record World := mkWorld {
  w_pandas : option Pandas.lib;      (* [import pandas]; [None]: ImportError *)
  w_openpyxl : option string;        (* [import openpyxl], its version *)
  w_excel_size : option Z;           (* size of the workbook, if it exists *)
  w_read_excel : Py.exn + Pandas.DataFrame;   (* what [pd.read_excel] does *)
  w_now : string;                    (* [datetime.now().isoformat()] *)
  w_denied : string -> option Py.exn;   (* paths the system refuses to write *)
  w_fs : gmap string node;           (* files and directories, by path *)
  w_heap : gmap positive Pandas.DataFrame;   (* the frames in memory *)
  w_stdout : list line
}.

Definition set_fs (fs : gmap string node) (w : World) : World :=
  mkWorld (w_pandas w) (w_openpyxl w) (w_excel_size w) (w_read_excel w)
          (w_now w) (w_denied w) fs (w_heap w) (w_stdout w).
Definition set_heap (h : gmap positive Pandas.DataFrame) (w : World) : World :=
  mkWorld (w_pandas w) (w_openpyxl w) (w_excel_size w) (w_read_excel w)
          (w_now w) (w_denied w) (w_fs w) h (w_stdout w).
Definition set_stdout (out : list line) (w : World) : World :=
  mkWorld (w_pandas w) (w_openpyxl w) (w_excel_size w) (w_read_excel w)
          (w_now w) (w_denied w) (w_fs w) (w_heap w) out.

(** *** Computations: world passing, with exceptions *)

Inductive outcome (A : Type) :=
| Ret (a : A)
| Raise (e : Py.exn).
Arguments Ret {A} a.
Arguments Raise {A} e.

Definition M (A : Type) : Type := World -> outcome A * World.

Definition ret {A} (a : A) : M A := fun w => (Ret a, w).
Definition raise {A} (e : Py.exn) : M A := fun w => (Raise e, w).
Definition bind {A B} (m : M A) (k : A -> M B) : M B :=
  fun w => match m w with
           | (Ret a, w') => k a w'
           | (Raise e, w') => (Raise e, w')
           end.
(** [try: m except Exception as e: handler e] *)
Definition try_except {A} (m : M A) (handler : Py.exn -> M A) : M A :=
  fun w => match m w with
           | (Ret a, w') => (Ret a, w')
           | (Raise e, w') => handler e w'
           end.
Definition gets {A} (f : World -> A) : M A := fun w => (Ret (f w), w).
Definition modify (f : World -> World) : M unit := fun w => (Ret tt, f w).

Declare Scope py_scope.
Delimit Scope py_scope with py.
Notation "'let*' x ':=' m 'in' k" := (bind m (fun x => k))
  (at level 10, x name, m at level 100, k at level 200) : py_scope.
Notation "m ;; k" := (bind m (fun _ => k))
  (at level 100, k at level 200, right associativity) : py_scope.
Local Open Scope py_scope.

(** [for x in xs: body x] *)
Fixpoint for_each {A} (xs : list A) (body : A -> M unit) : M unit :=
  match xs with
  | [] => ret tt
  | x :: xs' => body x ;; for_each xs' body
  end.

(** [print(...)] *)
Definition print (l : line) : M unit :=
  modify (fun w => set_stdout (w_stdout w ++ [l]) w).

(** *** The file system *)

Definition exists_ (p : Path) : M bool :=
  gets (fun w => bool_decide (is_Some (w_fs w !! str p))).

(** The root and the current directory are always there. *)
Definition is_dir (fs : gmap string node) (p : Path) : bool :=
  match tail p with
  | [] => true
  | _ => match fs !! str p with Some Dir => true | _ => false end
  end.

Definition OSError (cls : string) (p : Path) : Py.exn := Py.mkExn cls (str p).

(** [path.mkdir(parents=True)] on a path that does not exist: the missing
    ancestors are created first. *)
Definition mkdir_parents (p : Path) : M unit :=
  for_each (lineage p)
    (fun q =>
       let* fs := gets w_fs in
       match fs !! str q with
       | Some Dir => ret tt
       | Some (File _) => raise (OSError "NotADirectoryError" q)
       | None =>
           let* denied := gets (fun w => w_denied w (str q)) in
           match denied with
           | Some e => raise e
           | None => modify (fun w => set_fs (<[str q := Dir]> (w_fs w)) w)
           end
       end).

(** [open(path, 'w', encoding='utf-8')]: the file is created or emptied. *)
Definition open_w (p : Path) : M unit :=
  let* denied := gets (fun w => w_denied w (str p)) in
  let* fs := gets w_fs in
  match denied with
  | Some e => raise e
  | None =>
      match fs !! str p with
      | Some Dir => raise (OSError "IsADirectoryError" p)
      | _ =>
          if is_dir fs (parent p)
          then modify (fun w => set_fs (<[str p := File ""]> (w_fs w)) w)
          else raise (OSError "FileNotFoundError" p)
      end
  end.

(** Writing to the open file and closing it. *)
Definition write (p : Path) (text : string) : M unit :=
  modify (fun w => set_fs (<[str p := File text]> (w_fs w)) w).

(** [path.stat().st_size], in bytes *)
Definition st_size (p : Path) : M Z :=
  let* fs := gets w_fs in
  match fs !! str p with
  | Some (File content) => ret (Z.of_nat (String.length content))
  | Some Dir => ret 4096
  | None => raise (OSError "FileNotFoundError" p)
  end.

(** *** Frames in memory *)

Definition loc : Type := positive.

Definition new_frame (df : Pandas.DataFrame) : M loc :=
  let* h := gets w_heap in
  let l := fresh (dom h) in
  modify (fun w => set_heap (<[l := df]> (w_heap w)) w) ;;
  ret l.

Definition read_frame (l : loc) : M Pandas.DataFrame :=
  let* h := gets w_heap in
  match h !! l with
  | Some df => ret df
  | None => raise (Py.mkExn "ReferenceError" "no such frame")
  end.

Definition update_frame (l : loc) (f : Pandas.DataFrame -> Pandas.DataFrame) : M unit :=
  let* df := read_frame l in
  modify (fun w => set_heap (<[l := f df]> (w_heap w)) w).

(** [df.copy()]: a new frame with the same content. *)
Definition copy (df : loc) : M loc :=
  let* d := read_frame df in new_frame d.

(** [df[col]] where a column is expected *)
Definition getitem (df : loc) (col : string) : M Pandas.Series :=
  let* d := read_frame df in
  match Pandas.getitem d col with
  | Some s => ret s
  | None => raise (Py.mkExn "AttributeError" "'DataFrame' object has no such attribute")
  end.

(** [df[col] = series] *)
Definition setitem (df : loc) (col : string) (s : Pandas.Series) : M unit :=
  update_frame df (fun d => Pandas.setitem d col s).

(** *** Settings and constants *)

(** The workbook.  In the POSIX flavour a backslash is an ordinary
    character, so this path has a single component, which is its name. *)
Definition EXCEL_PATH : Path :=
  parse "C:\Users\pcpz1\Desktop\JEDCO_Fail_HT\JEDCO_Tabel_Record\JEDCO_HT.xlsx".
Definition SHEET_NAME : string := "التسجيل".
Definition HEADER_ROW : Z := 4.
Definition REQUIRED_COLUMNS : list Z := seqZ 0 16.

Definition EXPECTED_COLUMNS : list string := [
  "م";
  "رقم اللوحة";
  "الناقل البري";
  "رقم الرحلة";
  "عدد الرحلات";
  "عدد الركاب";
  "نوع التأشيرة";
  "وقت الإقلاع";
  "وقت وصول الحافلة";
  "شركة العمرة";
  "حالة الرحلة";
  "وضع الرحلة";
  "حالة الحجز";
  "الجنسية";
  "الوجهة";
  "الإجراء المتخذ"
].

Section Script.

(** [__file__], the path of the script itself. *)
Variable file__ : string.
(** Library functions taken as given. *)
Variable float_repr : float -> string.
Variable timedelta_repr : list Z -> Z -> string.

Definition SCRIPT_DIR : Path := parent (parse file__).
Definition PROJECT_DIR : Path := parent SCRIPT_DIR.
Definition OUTPUT_DIR : Path := truediv PROJECT_DIR "output".

(** *** Helpers *)

Definition icons : list (string * string) := [
  ("info", "ℹ️");
  ("success", "✅");
  ("warning", "⚠️");
  ("error", "❌");
  ("step", "📌")
].

(** [icons.get(msg_type, "•")] *)
Definition icon_of (msg_type : string) : string :=
  match list_find (fun kv => kv.1 = msg_type) icons with
  | Some (_, (_, icon)) => icon
  | None => "•"
  end.

Definition print_msg (msg : line) (msg_type : string) : M unit :=
  print (Txt (icon_of msg_type) :: Txt " " :: msg).

Definition check_dependencies : M bool :=
  print_msg [Txt "التحقق من المكتبات المطلوبة..."] "step" ;;
  let missing := [] in
  let* pandas := gets w_pandas in
  let* missing :=
    match pandas with
    | Some pd =>
        print_msg [Txt "pandas: "; Txt (Pandas.version pd)] "success" ;;
        ret missing
    | None => ret (missing ++ ["pandas"])
    end in
  let* openpyxl := gets w_openpyxl in
  let* missing :=
    match openpyxl with
    | Some version =>
        print_msg [Txt "openpyxl: "; Txt version] "success" ;;
        ret missing
    | None => ret (missing ++ ["openpyxl"])
    end in
  match missing with
  | _ :: _ =>
      print_msg [Txt "مكتبات مفقودة: "; Txt (join ", " missing)] "error" ;;
      print_msg [Txt ("قم بتثبيتها: pip install " +:+ join " " missing)] "info" ;;
      ret false
  | [] => ret true
  end.

Definition check_file_exists : M bool :=
  print_msg [Txt "التحقق من وجود الملف..."] "step" ;;
  let* size := gets w_excel_size in
  match size with
  | None =>
      print_msg [Txt "الملف غير موجود: "; Txt (str EXCEL_PATH)] "error" ;;
      ret false
  | Some st_size =>
      print_msg [Txt "الملف موجود: "; Txt (name EXCEL_PATH); Txt " (";
                 KB st_size; Txt " KB)"] "success" ;;
      ret true
  end.

Definition ensure_output_dir : M bool :=
  let* there := exists_ OUTPUT_DIR in
  (if negb there then
     mkdir_parents OUTPUT_DIR ;;
     print_msg [Txt "تم إنشاء مجلد: "; Txt (str OUTPUT_DIR)] "info"
   else ret tt) ;;
  ret true.

(** *** Main functions *)

(** [import pandas as pd] *)
Definition import_pandas : M Pandas.lib :=
  let* pandas := gets w_pandas in
  match pandas with
  | Some pd => ret pd
  | None => raise (Py.mkExn "ModuleNotFoundError" "No module named 'pandas'")
  end.

(** [len(df)] and [len(df.columns)] *)
Definition len_df (df : loc) : M Z :=
  let* d := read_frame df in ret (Z.of_nat (Pandas.index_len d)).
Definition len_columns (df : loc) : M Z :=
  let* d := read_frame df in ret (Z.of_nat (length (Pandas.columns d))).

(** The frame, or [None] when reading failed. *)
Definition read_excel_data : M (option loc) :=
  let* pd := import_pandas in
  print_msg [Txt "قراءة البيانات من Excel..."] "step" ;;
  try_except
    (let* result := gets w_read_excel in
     let* df := match result with
                | inr d => new_frame d
                | inl e => raise e
                end in
     let* n := len_df df in
     let* c := len_columns df in
     print_msg [Txt "تم قراءة "; Num n; Txt " صف و "; Num c; Txt " عمود"] "success" ;;
     ret (Some df))
    (fun e =>
       print_msg [Txt "خطأ في قراءة الملف: "; Txt (Py.exn_msg e)] "error" ;;
       ret None).

Definition validate_columns (df : loc) : M bool :=
  print_msg [Txt "التحقق من الأعمدة..."] "step" ;;
  let* d := read_frame df in
  let* first_col :=
    match Pandas.columns d with
    | c :: _ => ret c
    | [] => raise (Py.mkExn "IndexError" "index 0 is out of bounds for axis 0 with size 0")
    end in
  (if negb (String.eqb first_col "م") then
     print_msg [Txt "العمود الأول ليس 'م'، بل: '"; Txt first_col; Txt "'"] "warning"
   else
     print_msg [Txt "عمود 'م' موجود"] "success") ;;
  print_msg [Txt "الأعمدة ("; Num (Z.of_nat (length (Pandas.columns d))); Txt "): ";
             Labels (Pandas.columns d)] "info" ;;
  ret true.

(** [series.dt.strftime('%Y-%m-%d %H:%M:%S')] *)
Definition dt_strftime (s : Pandas.Series) : M Pandas.Series :=
  match s with
  | Pandas.Datetime64 v => ret (Pandas.dt_strftime v)
  | _ => raise (Py.mkExn "AttributeError" "Can only use .dt accessor with datetimelike values")
  end.

(** [series.astype(str)], for the one dtype the script applies it to. *)
Definition astype_str (s : Pandas.Series) : M Pandas.Series :=
  match s with
  | Pandas.Timedelta64 v => ret (Pandas.timedelta_astype_str timedelta_repr v)
  | _ => raise (Py.mkExn "NotImplementedError" "astype(str) on this dtype")
  end.

Definition convert_to_json_safe (df : loc) : M (list Py.obj) :=
  let* pd := import_pandas in
  let* df_copy := copy df in
  let* cols := (let* d := read_frame df_copy in ret (Pandas.columns d)) in
  for_each cols (fun col =>
    let* s := getitem df_copy col in
    if Pandas.dtype_is (Pandas.dtype_of s) "datetime64[ns]" then
      let* s := getitem df_copy col in
      let* t := dt_strftime s in
      setitem df_copy col t
    else
      let* s := getitem df_copy col in
      if Pandas.dtype_is (Pandas.dtype_of s) "timedelta64[ns]" then
        let* s := getitem df_copy col in
        let* t := astype_str s in
        setitem df_copy col t
      else ret tt) ;;
  let* d := read_frame df_copy in
  let* df_copy := new_frame (Pandas.where_notnull_none_df (Pandas.where_keeps_dtype pd) d) in
  let* d := read_frame df_copy in
  let records := Pandas.to_dict_records d in
  ret records.

(** The envelope [save_to_json] builds. *)
Definition output_data (now : string) (data : list Py.obj) : Py.obj :=
  Py.Dict [
    ("metadata", Py.Dict [
       ("source", Py.Str (name EXCEL_PATH));
       ("sheet", Py.Str SHEET_NAME);
       ("exported_at", Py.Str now);
       ("total_records", Py.Int (Py.len data));
       ("columns", Py.List (map Py.Str EXPECTED_COLUMNS))
     ]);
    ("data", Py.List data)
  ].

(** [with open(path, 'w') as f: json.dump(obj, f, ...)]: what was
    encoded before an exception stays in the file. *)
Definition json_dump_to (obj : Py.obj) (p : Path) : M unit :=
  open_w p ;;
  let enc := Json.dump float_repr obj in
  write p enc.1 ;;
  match enc.2 with
  | Some e => raise e
  | None => ret tt
  end.

Definition save_to_json (data : list Py.obj) (filename : string) : M bool :=
  print_msg [Txt "حفظ البيانات..."] "step" ;;
  let output_path := truediv OUTPUT_DIR filename in
  if negb (str_in "output" (str output_path)) then
    print_msg [Txt "خطأ: محاولة الحفظ خارج مجلد output!"] "error" ;;
    ret false
  else
    try_except
      (let* now := gets w_now in
       let output_data := output_data now data in
       json_dump_to output_data output_path ;;
       let* file_size := st_size output_path in
       print_msg [Txt "تم الحفظ: "; Txt (str output_path); Txt " (";
                  KB file_size; Txt " KB)"] "success" ;;
       ret true)
      (fun e =>
         print_msg [Txt "خطأ في الحفظ: "; Txt (Py.exn_msg e)] "error" ;;
         ret false).

(** *** Entry point *)

Definition main : M Z :=
  print [Txt (repeat "=" 50)] ;;
  print [Txt "   JEDCO Data Reader - قارئ بيانات JEDCO"] ;;
  print [Txt (repeat "=" 50)] ;;
  print [] ;;
  let* ok := check_dependencies in
  if negb ok then ret 1 else
  print [] ;;
  let* ok := check_file_exists in
  if negb ok then ret 1 else
  print [] ;;
  ensure_output_dir ;;
  print [] ;;
  let* df := read_excel_data in
  match df with
  | None => ret 1
  | Some df =>
      print [] ;;
      validate_columns df ;;
      print [] ;;
      let* n := len_df df in
      (if n =? 0 then
         print_msg [Txt "الملف فارغ - لا توجد بيانات للتصدير"] "warning" ;;
         save_to_json [] "raw_data.json" ;;
         ret tt
       else
         let* records := convert_to_json_safe df in
         save_to_json records "raw_data.json" ;;
         ret tt) ;;
      print [] ;;
      print [Txt (repeat "=" 50)] ;;
      print_msg [Txt "اكتملت العملية بنجاح!"] "success" ;;
      print [Txt (repeat "=" 50)] ;;
      ret 0
  end.

(** [sys.exit(main())]: the exit status of the process.  An exception
    that nothing catches ends the interpreter with status 1. *)
Definition exit_status (w : World) : Z * World :=
  match main w with
  | (Ret code, w') => (code, w')
  | (Raise e, w') => (1, w')
  end.

End Script.

End DataReader.

(** ** The script's paths on Windows, and the guard in either flavour *)

Module OnWindows.

Section Script.

(** [str.lower] and [__file__] *)
Variable lower : string -> string.
Variable file__ : string.

Definition SCRIPT_DIR : WindowsPath.Path := WindowsPath.parent (WindowsPath.parse file__).
Definition PROJECT_DIR : WindowsPath.Path := WindowsPath.parent SCRIPT_DIR.
Definition OUTPUT_DIR : WindowsPath.Path := WindowsPath.truediv lower PROJECT_DIR "output".

End Script.

End OnWindows.

Module Flavours.
Import PyStr.

Inductive flavour := posix | windows.

Section Script.

Variable lower : string -> string.
Variable file__ : string.

(** [str(OUTPUT_DIR / filename)], the text [save_to_json] looks at. *)
Definition output_path_text (fl : flavour) (filename : string) : string :=
  match fl with
  | posix => PathLib.str (PathLib.truediv (DataReader.OUTPUT_DIR file__) filename)
  | windows =>
      WindowsPath.str (WindowsPath.truediv lower (OnWindows.OUTPUT_DIR lower file__) filename)
  end.

(** The guard of [save_to_json]: [if "output" not in str(output_path)] *)
Definition guard_refuses (fl : flavour) (filename : string) : bool :=
  negb (str_in "output" (output_path_text fl filename)).

End Script.

(** A file name without an anchor of its own: on POSIX it does not begin
    with a slash; on Windows it begins with neither a backslash nor a
    slash, so it has no root, and has no colon in second place, so it has
    no drive. *)
Definition unanchored (fl : flavour) (filename : string) : bool :=
  match fl with
  | posix => negb (startswith filename "/")
  | windows =>
      negb (WindowsPath.char_is 0 filename WindowsPath.sep)
      && negb (WindowsPath.char_is 0 filename WindowsPath.altsep)
      && negb (WindowsPath.char_is 1 filename ":")
  end.

End Flavours.


(** * Vocabulary of the properties

    What the statements below speak about: the shape of a formatted
    timestamp, well-formed frames, the pure function the normaliser
    computes, the ways a run can go, and a few concrete worlds. *)

Module Spec.
Import PyStr PathLib DataReader.

(** ** Text shapes *)

Definition is_digit (c : ascii) : bool :=
  let n := nat_of_ascii c in (48 <=? n)%nat && (n <=? 57)%nat.

Definition is_letter (c : ascii) : bool :=
  let n := nat_of_ascii c in (65 <=? n)%nat && (n <=? 90)%nat.

(** A text matches a template when it has the template's length, a digit
    wherever the template has a capital letter, and the template's own
    character everywhere else. *)
Fixpoint matches_template (tpl s : string) : bool :=
  match tpl, s with
  | EmptyString, EmptyString => true
  | String t tpl', String c s' =>
      (if is_letter t then is_digit c else Ascii.eqb t c) && matches_template tpl' s'
  | _, _ => false
  end.

(** A value that is a text of the form [YYYY-MM-DD HH:MM:SS]. *)
Definition formatted_value (o : Py.obj) : bool :=
  match o with
  | Py.Str s => matches_template "YYYY-MM-DD HH:MM:SS" s
  | _ => false
  end.

(** [P] holds of the [n] integers from [lo] on. *)
Fixpoint all_from (P : Z -> bool) (lo : Z) (n : nat) : bool :=
  match n with
  | O => true
  | S n' => if P lo then all_from P (lo + 1) n' else false
  end.

(** ** Calendar *)

Definition year_length (y : Z) : Z := if Pandas.is_leapyear y then 366 else 365.

Ltac split_ifs :=
  repeat match goal with
  | |- context [if ?b then _ else _] =>
      let E := fresh "E" in destruct b eqn:E;
      [ first [apply Z.leb_le in E | apply Z.ltb_lt in E | apply Z.eqb_eq in E]
      | first [apply Z.leb_gt in E | apply Z.ltb_ge in E | apply Z.eqb_neq in E] ]
  end.

(** ** Frames *)

(** What pandas guarantees of a frame it builds: the labels differ, and
    every column is as long as the index. *)
Definition wf_frame (d : Pandas.DataFrame) : Prop :=
  NoDup (Pandas.columns d) /\
  Forall (fun c => length (Pandas.to_list c.2) = Pandas.index_len d) (Pandas.cols d).

Definition no_column : Py.exn :=
  Py.mkExn "AttributeError" "'DataFrame' object has no such attribute".

Definition index_error : Py.exn :=
  Py.mkExn "IndexError" "index 0 is out of bounds for axis 0 with size 0".

Definition outcome_of (e : option Py.exn) : outcome unit :=
  match e with None => Ret tt | Some e => Raise e end.

(** ** Worlds *)

(** The world [w] with other files, frames and console output. *)
Definition upd (fs : gmap string node) (h : gmap positive Pandas.DataFrame)
    (out : list line) (w : World) : World :=
  mkWorld (w_pandas w) (w_openpyxl w) (w_excel_size w) (w_read_excel w)
          (w_now w) (w_denied w) fs h out.

Definition deps_ok (w : World) : bool :=
  match w_pandas w, w_openpyxl w with
  | Some _, Some _ => true
  | _, _ => false
  end.

Definition file_ok (w : World) : bool :=
  match w_excel_size w with Some _ => true | None => false end.

(** [fs'] is [fs] with some directories added. *)
Definition dirs_added (fs fs' : gmap string node) : Prop :=
  forall k, fs' !! k = fs !! k \/ (fs !! k = None /\ fs' !! k = Some Dir).

(** [open(p, 'w')] succeeds in [w]. *)
Definition writable (w : World) (p : Path) : bool :=
  match w_denied w (str p), w_fs w !! str p with
  | None, Some Dir => false
  | None, _ => is_dir (w_fs w) (parent p)
  | Some _, _ => false
  end.

(** The directory [q] is there or can be made. *)
Definition can_make (w : World) (q : Path) : bool :=
  match w_fs w !! str q with
  | Some Dir => true
  | Some (File _) => false
  | None => match w_denied w (str q) with None => true | Some _ => false end
  end.

(** The directory is there, or it and its missing ancestors can be made. *)
Definition dir_ready (w : World) (p : Path) : bool := forallb (can_make w) (lineage p).

#[global] Instance piece_eq_dec : EqDecision piece.
Proof. solve_decision. Defined.

(** The line is on the console. *)
Definition printed (l : line) (w : World) : bool := bool_decide (l ∈ w_stdout w).

(** The encoding ran to its end. *)
Definition succeeded (enc : Json.Enc) : bool :=
  match enc.2 with None => true | Some _ => false end.

(** One turn of the loop of [mkdir_parents]. *)
Definition mkdir_step (q : Path) : M unit :=
  (let* fs := gets w_fs in
   match fs !! str q with
   | Some Dir => ret tt
   | Some (File _) => raise (OSError "NotADirectoryError" q)
   | None =>
       let* denied := gets (fun w => w_denied w (str q)) in
       match denied with
       | Some e => raise e
       | None => modify (fun w => set_fs (<[str q := Dir]> (w_fs w)) w)
       end
   end)%py.

Section Script.

Variable file__ : string.
Variable float_repr : float -> string.
Variable timedelta_repr : list Z -> Z -> string.

(** ** The normaliser as a function of the frame *)

(** The body of the loop of [convert_to_json_safe]. *)
Definition loop_body (df_copy : loc) (col : string) : M unit :=
  (let* s := getitem df_copy col in
   if Pandas.dtype_is (Pandas.dtype_of s) "datetime64[ns]" then
     let* s := getitem df_copy col in
     let* t := dt_strftime s in
     setitem df_copy col t
   else
     let* s := getitem df_copy col in
     if Pandas.dtype_is (Pandas.dtype_of s) "timedelta64[ns]" then
       let* s := getitem df_copy col in
       let* t := astype_str timedelta_repr s in
       setitem df_copy col t
     else ret tt)%py.

(** One turn of that loop, on the frame itself: the frame it leaves and
    the exception it ends with, if any. *)
Definition stringify_column (d : Pandas.DataFrame) (col : string)
  : Pandas.DataFrame * option Py.exn :=
  match Pandas.getitem d col with
  | None => (d, Some no_column)
  | Some (Pandas.Datetime64 v) => (Pandas.setitem d col (Pandas.dt_strftime v), None)
  | Some (Pandas.Timedelta64 v) =>
      (Pandas.setitem d col (Pandas.timedelta_astype_str timedelta_repr v), None)
  | Some _ => (d, None)
  end.

Fixpoint stringify_columns (labels : list string) (d : Pandas.DataFrame)
  : Pandas.DataFrame * option Py.exn :=
  match labels with
  | [] => (d, None)
  | col :: rest =>
      match stringify_column d col with
      | (d', None) => stringify_columns rest d'
      | stopped => stopped
      end
  end.

(** What [convert_to_json_safe] computes from the frame it is given. *)
Definition normalized_records (pd : Pandas.lib) (d : Pandas.DataFrame)
  : outcome (list Py.obj) :=
  match stringify_columns (Pandas.columns d) d with
  | (d', None) =>
      Ret (Pandas.to_dict_records
             (Pandas.where_notnull_none_df (Pandas.where_keeps_dtype pd) d'))
  | (_, Some e) => Raise e
  end.

(** What the loop does to one column. *)
Definition stringify (s : Pandas.Series) : Pandas.Series :=
  match s with
  | Pandas.Datetime64 v => Pandas.dt_strftime v
  | Pandas.Timedelta64 v => Pandas.timedelta_astype_str timedelta_repr v
  | _ => s
  end.

Definition stringify_col (c : string * Pandas.Series) : string * Pandas.Series :=
  (c.1, stringify c.2).

(** What the normaliser does to one column. *)
Definition normal_col (keeps : bool) (c : string * Pandas.Series) : string * Pandas.Series :=
  (c.1, Pandas.where_notnull_none keeps (stringify c.2)).

(** ** The pipeline as a whole *)

(** The records [main] hands to the writer, from the frame read. *)
Definition pipeline_records (pd : Pandas.lib) (d : Pandas.DataFrame) : outcome (list Py.obj) :=
  match Pandas.columns d with
  | [] => Raise index_error
  | _ :: _ =>
      if Z.of_nat (Pandas.index_len d) =? 0 then Ret []
      else normalized_records pd d
  end.

(** [OUTPUT_DIR / "raw_data.json"] *)
Definition output_path : Path := truediv (OUTPUT_DIR file__) "raw_data.json".

(** The files as [save_to_json] leaves them when it is given [data]. *)
Definition written (fs : gmap string node) (now : string) (data : list Py.obj) (w : World)
  : gmap string node :=
  if writable (set_fs fs w) output_path
  then <[str output_path := File (Json.dump float_repr (output_data now data)).1]> fs
  else fs.

(** [ensure_output_dir], run after some printing, ends with [r] and leaves
    the files [fs1]. *)
Definition ensured (w : World) (r : outcome bool) (fs1 : gmap string node) : Prop :=
  exists out out1,
    ensure_output_dir file__ (set_stdout out w) = (r, upd fs1 (w_heap w) out1 w).

(** The ways a run of [main] can go: its result and the files it leaves. *)
Inductive run_result (w : World) : outcome Z -> gmap string node -> Prop :=
| run_missing_library :
    deps_ok w = false -> run_result w (Ret 1) (w_fs w)
| run_missing_workbook :
    deps_ok w = true -> file_ok w = false -> run_result w (Ret 1) (w_fs w)
| run_mkdir_failed e fs1 :
    deps_ok w = true -> file_ok w = true -> ensured w (Raise e) fs1 ->
    run_result w (Raise e) fs1
| run_read_failed e fs1 :
    deps_ok w = true -> file_ok w = true -> ensured w (Ret true) fs1 ->
    w_read_excel w = inl e ->
    run_result w (Ret 1) fs1
| run_stopped pd d e fs1 :
    deps_ok w = true -> file_ok w = true -> ensured w (Ret true) fs1 ->
    w_pandas w = Some pd -> w_read_excel w = inr d ->
    pipeline_records pd d = Raise e ->
    run_result w (Raise e) fs1
| run_saved pd d records fs1 :
    deps_ok w = true -> file_ok w = true -> ensured w (Ret true) fs1 ->
    w_pandas w = Some pd -> w_read_excel w = inr d ->
    pipeline_records pd d = Ret records ->
    run_result w (Ret 0) (written fs1 (w_now w) records w).

(** The run from [w] to [w'] left [content] in the output file, which did
    not hold it before. *)
Definition wrote (w w' : World) (content : string) : Prop :=
  w_fs w' !! str output_path = Some (File content)
  /\ w_fs w !! str output_path <> Some (File content).

(** The content of the output file after a run, if it is a file. *)
Definition exported (w : World) : string :=
  match w_fs (exit_status file__ float_repr timedelta_repr w).2 !! str output_path with
  | Some (File content) => content
  | _ => ""
  end.

(** ** The text of the envelope *)

(** The [metadata] object of the envelope, for a record count. *)
Definition metadata (now : string) (total_records : Z) : Py.obj :=
  Py.Dict [
    ("source", Py.Str (name EXCEL_PATH));
    ("sheet", Py.Str SHEET_NAME);
    ("exported_at", Py.Str now);
    ("total_records", Py.Int total_records);
    ("columns", Py.List (map Py.Str EXPECTED_COLUMNS))
  ].

(** The text of the envelope up to the value of its [data] key. *)
Definition envelope_head (now : string) (total_records : Z) : string :=
  "{" +:+ Json.newline_indent 1 +:+
  Json.encode_basestring "metadata" +:+ ": " +:+
  (Json.iterencode float_repr (metadata now total_records) 1).1 +:+
  "," +:+ Json.newline_indent 1 +:+
  Json.encode_basestring "data" +:+ ": ".

(** The encoding of the [data] array inside the envelope. *)
Definition data_encoding (data : list Py.obj) : Json.Enc :=
  Json.iterencode float_repr (Py.List data) 1.

(** The text of the envelope from the value of its [data] key on: the
    array, then the closing brace if the array could be encoded. *)
Definition envelope_rest (data : list Py.obj) : string :=
  (Json.seq (data_encoding data) (Json.emit (Json.newline +:+ "}"))).1.

End Script.

End Spec.

(** * Concrete worlds, for the examples *)

Module Examples.
Import PyStr PathLib DataReader.

Definition script_file : string := "/srv/jedco/scripts/data_reader.py".
Definition some_float_repr (f : float) : string := "0.0".
Definition some_timedelta_repr (column : list Z) (ns : Z) : string := "0 days 01:30:00".
Definition pandas_2 : Pandas.lib := Pandas.mkLib "2.2.3" true.

(** A sheet with the sixteen headers and no data row. *)
Definition empty_sheet : Pandas.DataFrame :=
  Pandas.mkDF 0 (map (fun label => (label, Pandas.Object [])) EXPECTED_COLUMNS).

(** A sheet of two rows with a date column and a duration column.  The
    first row has the date 2026-01-24 10:30:00 and no duration, the second
    no date and a duration of an hour and a half. *)
Definition timed_sheet : Pandas.DataFrame :=
  Pandas.mkDF 2 [
    ("م", Pandas.Int64 [1; 2]);
    ("وقت الإقلاع", Pandas.Datetime64 [1769250600000000000; Pandas.iNaT]);
    ("وقت وصول الحافلة", Pandas.Timedelta64 [Pandas.iNaT; 5400000000000])
  ].

(** A sheet with a number missing in a numeric column. *)
Definition counted_sheet : Pandas.DataFrame :=
  Pandas.mkDF 2 [
    ("م", Pandas.Int64 [1; 2]);
    ("عدد الركاب", Pandas.Float64 [nan; 45%float])
  ].

(** A sheet whose departure column mixes a text with a date, and so has
    dtype object. *)
Definition mixed_sheet : Pandas.DataFrame :=
  Pandas.mkDF 2 [
    ("م", Pandas.Int64 [1; 2]);
    ("وقت الإقلاع", Pandas.Object [Py.Str "غير محدد"; Py.Timestamp 1769250600000000000])
  ].

(** A world where everything is in place and the project directory holds
    an [output] directory. *)
Definition world_with (sheet : Pandas.DataFrame) (now : string) : World :=
  mkWorld (Some pandas_2) (Some "3.1.5") (Some 20480) (inr sheet) now
          (fun _ => None) {[ "/srv/jedco/output" := Dir ]} ∅ [].

(** The same, with the output file locked against writing. *)
Definition locked_world (sheet : Pandas.DataFrame) (now : string) : World :=
  mkWorld (Some pandas_2) (Some "3.1.5") (Some 20480) (inr sheet) now
          (fun p => if String.eqb p "/srv/jedco/output/raw_data.json"
                    then Some (Py.mkExn "PermissionError" "[Errno 13] Permission denied")
                    else None)
          {[ "/srv/jedco/output" := Dir ]} ∅ [].

(** A world in which a frame is in memory already, with either behaviour
    of [where]. *)
Definition world_holding (keeps_dtype : bool) (sheet : Pandas.DataFrame) : World :=
  mkWorld (Some (Pandas.mkLib "any" keeps_dtype)) (Some "3.1.5") (Some 20480) (inr sheet)
          "2026-01-24T10:00:00" (fun _ => None) ∅ {[ 1%positive := sheet ]} [].

End Examples.
(** * Further vocabulary: what a world lacks, and what [json] can encode *)

Module Conditions.
Import PyStr PathLib DataReader Spec.

(** The libraries whose import fails, in the order the script tries them. *)
Definition missing_libs (w : World) : list string :=
  (match w_pandas w with Some _ => [] | None => ["pandas"] end)
  ++ (match w_openpyxl w with Some _ => [] | None => ["openpyxl"] end).

(** The values [json] has a form for: null, booleans, numbers, text, and
    arrays and objects made of such values. *)
Fixpoint json_like (o : Py.obj) : bool :=
  match o with
  | Py.None_ | Py.Bool _ | Py.Int _ | Py.Float _ | Py.Str _ => true
  | Py.List items => forallb json_like items
  | Py.Dict items => forallb (fun '(_, v) => json_like v) items
  | Py.Timestamp _ | Py.Timedelta _ | Py.NaT => false
  end.

(** A column whose cells [json] can take once the missing ones have been
    replaced: any column of a typed array, and an object column that
    holds nothing but such values. *)
Definition exportable (s : Pandas.Series) : bool :=
  match s with
  | Pandas.Object v => forallb (fun o => json_like (Pandas.none_if_null o)) v
  | _ => true
  end.

(** The keys of a record. *)
Definition keys (rec : Py.obj) : list string :=
  match rec with
  | Py.Dict items => items.*1
  | _ => []
  end.

(** A character that [json] writes as it is. *)
Definition is_plain (c : ascii) : bool :=
  let n := nat_of_ascii c in
  (32 <=? n)%nat && negb (n =? 34)%nat && negb (n =? 92)%nat.

Fixpoint all_plain (s : string) : bool :=
  match s with
  | EmptyString => true
  | String c s' => is_plain c && all_plain s'
  end.

(** [ensure_output_dir] can do its work: something is at the place of the
    output directory already, or the directory and its missing ancestors
    can be made. *)
Definition can_ensure (file__ : string) (w : World) : bool :=
  bool_decide (is_Some (w_fs w !! str (OUTPUT_DIR file__)))
  || dir_ready w (OUTPUT_DIR file__).

End Conditions.

(** * More worlds, for the examples *)

Module Cases.
Import PyStr PathLib DataReader Spec Examples.

(** A world without pandas. *)
Definition world_without_pandas : World :=
  mkWorld None (Some "3.1.5") (Some 20480) (inr empty_sheet) "2026-01-24T10:00:00"
          (fun _ => None) {[ "/srv/jedco/output" := Dir ]} ∅ [].

(** A world in which nothing is on the disk yet. *)
Definition world_on_empty_disk (sheet : Pandas.DataFrame) : World :=
  mkWorld (Some pandas_2) (Some "3.1.5") (Some 20480) (inr sheet) "2026-01-24T10:00:00"
          (fun _ => None) ∅ ∅ [].

(** A world in which a regular file stands where the output directory
    should be. *)
Definition world_with_output_file (sheet : Pandas.DataFrame) : World :=
  mkWorld (Some pandas_2) (Some "3.1.5") (Some 20480) (inr sheet) "2026-01-24T10:00:00"
          (fun _ => None) {[ "/srv/jedco/output" := File "notes" ]} ∅ [].

(** A world in which the workbook cannot be read. *)
Definition world_with_broken_workbook : World :=
  mkWorld (Some pandas_2) (Some "3.1.5") (Some 20480)
          (inl (Py.mkExn "BadZipFile" "File is not a zip file")) "2026-01-24T10:00:00"
          (fun _ => None) {[ "/srv/jedco/output" := Dir ]} ∅ [].

(** What pandas reads from a worksheet without any cell: a frame with no
    column and no row. *)
Definition blank_sheet : Pandas.DataFrame := Pandas.mkDF 0 [].

(** A sheet whose first header is not the expected one. *)
Definition renamed_sheet : Pandas.DataFrame :=
  Pandas.mkDF 1 [("ID", Pandas.Int64 [7]); ("مؤكد", Pandas.Boolean [true])].


(** [str.lower] on ASCII text, which is all a drive letter needs. *)
Fixpoint ascii_lower (s : string) : string :=
  match s with
  | EmptyString => ""
  | String c s' =>
      let n := nat_of_ascii c in
      String (if (65 <=? n)%nat && (n <=? 90)%nat then ascii_of_nat (n + 32) else c)
             (ascii_lower s')
  end.

(** The script as it lies on a Windows disk. *)
Definition script_file_on_windows : string := "C:\jedco\scripts\data_reader.py".

End Cases.


(** * Strings and paths *)

Module PathFacts.
Import PyStr PathLib DataReader Spec.
Local Arguments String.append !_ _ / : simpl nomatch.

Lemma append_assoc (a b c : string) : (a +:+ b) +:+ c = a +:+ (b +:+ c).
Proof. induction a as [|x a IH]; simpl; [reflexivity | by rewrite IH]. Qed.

Lemma append_empty_r (a : string) : a +:+ "" = a.
Proof. induction a as [|x a IH]; simpl; [reflexivity | by rewrite IH]. Qed.

Lemma length_append (a b : string) :
  String.length (a +:+ b) = (String.length a + String.length b)%nat.
Proof. induction a as [|c a IH]; simpl; [done | by rewrite IH]. Qed.

Lemma startswith_append (p s : string) : startswith (p +:+ s) p = true.
Proof.
  induction p as [|c p IH]; simpl; [reflexivity |].
  by rewrite Ascii.eqb_refl.
Qed.

Lemma str_in_unfold (needle hay : string) :
  str_in needle hay =
  startswith hay needle || match hay with "" => false | String _ h => str_in needle h end.
Proof. destruct hay; reflexivity. Qed.

Lemma str_in_append (needle a b : string) : str_in needle (a +:+ needle +:+ b) = true.
Proof.
  induction a as [|c a IH]; simpl.
  - by rewrite str_in_unfold, startswith_append.
  - rewrite IH. apply orb_true_r.
Qed.

Lemma join_cons (sep x : string) (l : list string) :
  l <> [] -> join sep (x :: l) = x +:+ sep +:+ join sep l.
Proof. destruct l; [congruence | reflexivity]. Qed.

Lemma join_middle (sep : string) (xs : list string) (y : string) (zs : list string) :
  exists a b, join sep (xs ++ y :: zs) = a +:+ y +:+ b.
Proof.
  induction xs as [|x xs [a [b IH]]].
  - exists "". destruct zs as [|z zs].
    + exists "". simpl. by rewrite append_empty_r.
    + eexists. rewrite app_nil_l, join_cons by discriminate. reflexivity.
  - exists (x +:+ sep +:+ a), b.
    rewrite <- app_comm_cons, join_cons by (by destruct xs).
    by rewrite IH, !append_assoc.
Qed.

Lemma join_snoc (sep : string) (l : list string) (x : string) :
  l <> [] -> join sep (l ++ [x]) = join sep l +:+ sep +:+ x.
Proof.
  induction l as [|y l IH]; [done | intros _].
  destruct l as [|z l]; [reflexivity |].
  change ((y :: z :: l) ++ [x]) with (y :: ((z :: l) ++ [x])).
  rewrite (join_cons sep y ((z :: l) ++ [x])) by (intros [=]).
  rewrite IH by discriminate.
  rewrite (join_cons sep y (z :: l)) by discriminate. by rewrite !append_assoc.
Qed.

Lemma join_length_app (sep : string) (l l' : list string) :
  (String.length (join sep l) <= String.length (join sep (l ++ l')))%nat.
Proof.
  induction l as [|x l IH]; [simpl; lia |].
  destruct l as [|y l].
  - destruct l' as [|z l']; [simpl; lia |].
    change ([x] ++ z :: l') with (x :: z :: l').
    rewrite (join_cons sep x (z :: l')) by discriminate.
    simpl. rewrite length_append. lia.
  - change ((x :: y :: l) ++ l') with (x :: ((y :: l) ++ l')).
    rewrite (join_cons sep x ((y :: l) ++ l')) by (intros [=]).
    rewrite (join_cons sep x (y :: l)) by discriminate.
    rewrite !length_append. lia.
Qed.

(** The text of a path shows each of its components. *)
Lemma str_through (r : string) (xs : list string) (y : string) (zs : list string) :
  str_in y (str (mkPath r (xs ++ y :: zs))) = true.
Proof.
  unfold str; simpl.
  destruct (join_middle "/" xs y zs) as [a [b ->]].
  rewrite <- append_assoc.
  pose proof (str_in_append y (r +:+ a) b) as H.
  unfold or_else. destruct ((r +:+ a) +:+ y +:+ b); simpl; [|exact H].
  destruct y; [reflexivity | simpl in H; discriminate].
Qed.

Lemma str_length (r : string) (t : list string) :
  (String.length (str (mkPath r t))
   <= Nat.max 1 (String.length r + String.length (join "/" t)))%nat.
Proof.
  unfold str, or_else; simpl. rewrite <- length_append.
  destruct (r +:+ join "/" t); simpl; lia.
Qed.

Lemma str_child_length (r : string) (t : list string) (x : string) :
  t <> [] ->
  String.length (str (mkPath r (t ++ [x])))
  = (String.length r + String.length (join "/" t) + 1 + String.length x)%nat.
Proof.
  intros Ht. unfold str, or_else; simpl. rewrite join_snoc by done.
  assert (E : String.length (r +:+ join "/" t +:+ "/" +:+ x)
              = (String.length r + String.length (join "/" t) + 1 + String.length x)%nat)
    by (rewrite !length_append; simpl; lia).
  destruct (r +:+ join "/" t +:+ "/" +:+ x); simpl in *; lia.
Qed.

Lemma prefixes_prefix (l q : list string) : q ∈ prefixes l -> exists l', l = q ++ l'.
Proof.
  revert q. induction l as [|x l IH]; intros q; simpl; [by intros ?%elem_of_nil |].
  rewrite elem_of_cons. intros [->|Hq]; [by exists l |].
  apply list_elem_of_fmap in Hq as (q' & -> & Hq'). destruct (IH _ Hq') as [l' ->].
  by exists l'.
Qed.

Lemma prefixes_self (l : list string) : l <> [] -> l ∈ prefixes l.
Proof.
  induction l as [|x l IH]; [done | intros _]. simpl.
  destruct l as [|y l]; [left |]. right.
  apply list_elem_of_fmap. eexists. split; [reflexivity | by apply IH].
Qed.

(** A file in a directory has another path text than the directory and
    its ancestors. *)
Lemma child_not_in_lineage (p : Path) (x : string) :
  tail p <> [] -> x <> "" ->
  forall q, q ∈ lineage p -> str q <> str (mkPath (root p) (tail p ++ [x])).
Proof.
  intros Ht Hx q Hq E. apply (f_equal String.length) in E.
  rewrite str_child_length in E by done.
  unfold lineage in Hq. apply list_elem_of_fmap in Hq as (pre & -> & Hpre).
  apply prefixes_prefix in Hpre as [l' Hl'].
  pose proof (str_length (root p) pre) as H1.
  pose proof (join_length_app "/" pre l') as H2. rewrite <- Hl' in H2.
  destruct x; [done |]. simpl in E. lia.
Qed.

(** A segment that does not begin with a slash has no root. *)
Lemma parse_relative (s : string) :
  startswith s "/" = false -> root (parse s) = "".
Proof.
  destruct s as [|c s]; [reflexivity |]. intros H.
  destruct c as [[] [] [] [] [] [] [] []]; try reflexivity.
  simpl in H. discriminate.
Qed.

Section Script.
Variable file__ : string.

Lemma OUTPUT_DIR_eq :
  OUTPUT_DIR file__
  = mkPath (root (PROJECT_DIR file__)) (tail (PROJECT_DIR file__) ++ ["output"]).
Proof. reflexivity. Qed.

Lemma OUTPUT_DIR_tail : tail (OUTPUT_DIR file__) <> [].
Proof. rewrite OUTPUT_DIR_eq. simpl. by destruct (tail (PROJECT_DIR file__)). Qed.

Lemma output_path_relative (filename : string) :
  startswith filename "/" = false ->
  exists zs, truediv (OUTPUT_DIR file__) filename
             = mkPath (root (PROJECT_DIR file__))
                      (tail (PROJECT_DIR file__) ++ "output" :: zs).
Proof.
  intros H. exists (tail (parse filename)).
  unfold truediv. rewrite (parse_relative _ H). simpl.
  by rewrite <- app_assoc.
Qed.

Lemma guard_passes (filename : string) :
  startswith filename "/" = false ->
  str_in "output" (str (truediv (OUTPUT_DIR file__) filename)) = true.
Proof.
  intros H. destruct (output_path_relative filename H) as [zs ->].
  apply str_through.
Qed.

Lemma output_path_eq :
  output_path file__
  = mkPath (root (OUTPUT_DIR file__)) (tail (OUTPUT_DIR file__) ++ ["raw_data.json"]).
Proof. reflexivity. Qed.

Lemma output_path_parent : parent (output_path file__) = OUTPUT_DIR file__.
Proof.
  rewrite output_path_eq. unfold parent. cbn [tail root].
  destruct (tail (OUTPUT_DIR file__) ++ ["raw_data.json"]) as [|a l] eqn:E.
  - by destruct (tail (OUTPUT_DIR file__)).
  - rewrite <- E, removelast_last. by destruct (OUTPUT_DIR file__).
Qed.

End Script.
End PathFacts.

(** * The calendar breakdown and the timestamp format *)

Module CalendarFacts.
Import PyStr Pandas Spec.
Local Arguments String.append !_ _ / : simpl nomatch.

(** The days a [datetime64[ns]] value can fall on lie in the years 1677 to
    2262. *)
Lemma days_to_yearsdays_bounds (days : Z) :
  -106752 <= days <= 106751 ->
  1677 <= (days_to_yearsdays days).1 <= 2262 /\ 0 <= (days_to_yearsdays days).2 <= 365.
Proof.
  intros H. unfold days_to_yearsdays, days_per_400years.
  split_ifs; cbn [fst snd]; Z.to_euclidean_division_equations; lia.
Qed.

Lemma land_3 (y : Z) : Z.land y 3 = y mod 4.
Proof. change 3 with (Z.ones 2). rewrite Z.land_ones by lia. reflexivity. Qed.

(** The day within the year is a day of that year. *)
Lemma days_to_yearsdays_within (days : Z) :
  -106752 <= days <= 106751 ->
  (days_to_yearsdays days).2 < year_length (days_to_yearsdays days).1.
Proof.
  intros H. unfold year_length, is_leapyear. rewrite land_3.
  unfold days_to_yearsdays, days_per_400years.
  split_ifs; cbn [fst snd];
    repeat match goal with
    | |- context [Z.eqb ?a ?b] => destruct (Z.eqb_spec a b)
    end; cbn [andb orb negb];
    Z.to_euclidean_division_equations; lia.
Qed.

Lemma month_and_day_bounds (y yd : Z) :
  0 <= yd < year_length y ->
  let md := month_and_day (days_per_month_table (is_leapyear y)) 0 yd in
  1 <= md.1 <= 12 /\ 1 <= md.2 <= 31.
Proof.
  unfold year_length. destruct (is_leapyear y); intros H; cbn -[Z.ltb Z.add Z.sub];
    split_ifs; cbn [fst snd]; lia.
Qed.

Lemma all_from_spec (P : Z -> bool) (n : nat) (lo : Z) :
  all_from P lo n = true -> forall z, lo <= z < lo + Z.of_nat n -> P z = true.
Proof.
  revert lo. induction n as [|n IH]; intros lo H z Hz; [lia |].
  simpl in H. destruct (P lo) eqn:E; [|discriminate].
  destruct (decide (z = lo)) as [->|]; [exact E |].
  apply (IH (lo + 1) H). lia.
Qed.

Lemma matches_template_app (t1 t2 s1 s2 : string) :
  matches_template t1 s1 = true -> matches_template t2 s2 = true ->
  matches_template (t1 +:+ t2) (s1 +:+ s2) = true.
Proof.
  revert s1. induction t1 as [|t t1 IH]; intros [|c s1]; simpl; try discriminate; [auto |].
  intros [-> ?]%andb_prop ?. simpl. auto.
Qed.

Lemma fmt_02d_shape (n : Z) : 0 <= n <= 99 -> matches_template "DD" (fmt_02d n) = true.
Proof.
  intros H.
  apply (all_from_spec (fun n => matches_template "DD" (fmt_02d n)) 100 0); [|lia].
  vm_compute. reflexivity.
Qed.

Lemma year_shape (y : Z) : 1677 <= y <= 2262 -> matches_template "YYYY" (pretty y) = true.
Proof.
  intros H.
  apply (all_from_spec (fun y => matches_template "YYYY" (pretty y)) 586 1677); [|lia].
  vm_compute. reflexivity.
Qed.

(** Every value of a [datetime64[ns]] array is printed with four digits of
    year and two digits in each other field. *)
Lemma format_datetime_shape (ns : Z) :
  int64_min <= ns <= int64_max ->
  matches_template "YYYY-MM-DD HH:MM:SS" (format_datetime ns) = true.
Proof.
  intros H. unfold format_datetime, to_datetimestruct.
  assert (Hd : -106752 <= ns / ns_per_day <= 106751).
  { unfold int64_min, int64_max, ns_per_day in *. Z.to_euclidean_division_equations; lia. }
  pose proof (days_to_yearsdays_bounds _ Hd) as [Hy Hyd].
  pose proof (days_to_yearsdays_within _ Hd) as Hw.
  destruct (days_to_yearsdays (ns / ns_per_day)) as [y yd]; cbn [fst snd] in *.
  pose proof (month_and_day_bounds y yd ltac:(lia)) as [Hm Hdd].
  destruct (month_and_day _ 0 yd) as [m d]; cbn [fst snd year month day hour min sec] in *.
  set (r := ns mod ns_per_day).
  assert (Hr : 0 <= r < ns_per_day) by (apply Z.mod_pos_bound; reflexivity).
  unfold ns_per_day in Hr.
  change "YYYY-MM-DD HH:MM:SS" with ("YYYY-MM-DD " +:+ "HH:MM:SS").
  apply matches_template_app.
  - change "YYYY-MM-DD " with ("YYYY" +:+ "-" +:+ "MM" +:+ "-" +:+ "DD" +:+ " ").
    repeat apply matches_template_app; try reflexivity;
      [apply year_shape | apply fmt_02d_shape | apply fmt_02d_shape]; lia.
  - change "HH:MM:SS" with ("HH" +:+ ":" +:+ "MM" +:+ ":" +:+ "SS").
    repeat apply matches_template_app; try reflexivity; apply fmt_02d_shape;
      Z.to_euclidean_division_equations; lia.
Qed.

End CalendarFacts.

(** * The normaliser *)

Module NormalizerFacts.
Import PyStr PathLib DataReader Spec.

Lemma set_heap_same (w : World) : set_heap (w_heap w) w = w.
Proof. by destruct w. Qed.

Lemma set_heap_insert_same (w : World) (l : loc) (d : Pandas.DataFrame) :
  w_heap w !! l = Some d -> set_heap (<[l := d]> (w_heap w)) w = w.
Proof. intros H. rewrite insert_id by done. apply set_heap_same. Qed.

Lemma absent_ne (h : gmap positive Pandas.DataFrame) (l1 l : positive) (x : Pandas.DataFrame) :
  h !! l1 = None -> h !! l = Some x -> l1 <> l.
Proof. intros H1 H2 ->. rewrite H1 in H2. discriminate. Qed.

Section Script.
Variable timedelta_repr : list Z -> Z -> string.

(** One turn of the loop changes the copy as [stringify_column] says and
    nothing else. *)
Lemma loop_body_spec (l : loc) (col : string) (d : Pandas.DataFrame) (w : World) :
  w_heap w !! l = Some d ->
  loop_body timedelta_repr l col w =
  (outcome_of (stringify_column timedelta_repr d col).2,
   set_heap (<[l := (stringify_column timedelta_repr d col).1]> (w_heap w)) w).
Proof.
  intros H. unfold loop_body, stringify_column, getitem, setitem, update_frame,
    read_frame, bind, gets, modify, ret, raise. simpl. rewrite H. simpl.
  destruct (Pandas.getitem d col) as [[v|v|v|v|v|v]|] eqn:G; simpl;
    repeat (rewrite ?H, ?G; simpl); try reflexivity; by rewrite set_heap_insert_same.
Qed.

Lemma loop_spec (l : loc) (labels : list string) (d : Pandas.DataFrame) (w : World) :
  w_heap w !! l = Some d ->
  for_each labels (loop_body timedelta_repr l) w =
  (outcome_of (stringify_columns timedelta_repr labels d).2,
   set_heap (<[l := (stringify_columns timedelta_repr labels d).1]> (w_heap w)) w).
Proof.
  revert d w. induction labels as [|col rest IH]; intros d w H; simpl.
  - unfold ret. by rewrite set_heap_insert_same.
  - unfold bind. rewrite (loop_body_spec l col d w H).
    destruct (stringify_column timedelta_repr d col) as [d' [e|]]; simpl; [reflexivity |].
    rewrite (IH d') by (simpl; apply lookup_insert_eq).
    simpl. by rewrite insert_insert_eq.
Qed.

(** [convert_to_json_safe] returns what [normalized_records] computes from
    the frame, and leaves every frame that was in memory as it was. *)
Lemma convert_spec (df : loc) (d : Pandas.DataFrame) (pd : Pandas.lib) (w : World) :
  w_heap w !! df = Some d -> w_pandas w = Some pd ->
  exists h, convert_to_json_safe timedelta_repr df w
            = (normalized_records timedelta_repr pd d, set_heap h w)
            /\ forall l, is_Some (w_heap w !! l) -> h !! l = w_heap w !! l.
Proof.
  intros Hd Hp. unfold convert_to_json_safe, normalized_records.
  fold (loop_body timedelta_repr). unfold bind at 1, import_pandas. unfold bind at 1.
  unfold gets at 1. rewrite Hp. simpl. unfold ret at 1.
  unfold bind at 1, copy, new_frame, read_frame, bind, gets, modify, ret.
  simpl. rewrite Hd. simpl.
  set (l1 := fresh (dom (w_heap w))).
  assert (Hl1 : w_heap w !! l1 = None) by (apply not_elem_of_dom, is_fresh).
  clearbody l1.
  rewrite lookup_insert_eq. simpl.
  match goal with |- context [for_each _ _ ?w1] => set (w1' := w1) end.
  rewrite (loop_spec l1 _ d w1') by (subst w1'; simpl; apply lookup_insert_eq).
  destruct (stringify_columns timedelta_repr (Pandas.columns d) d) as [d1 [e|]]; simpl.
  - eexists. split; [reflexivity |].
    intros l [x Hx]. rewrite insert_insert_eq, lookup_insert_ne; [done | by eapply absent_ne].
  - rewrite lookup_insert_eq. simpl. rewrite insert_insert_eq.
    set (h1 := <[l1 := d1]> (w_heap w)).
    set (l2 := fresh (dom h1)). rewrite lookup_insert_eq. simpl.
    eexists. split; [reflexivity |].
    assert (Hl2 : h1 !! l2 = None) by (apply not_elem_of_dom, is_fresh).
    clearbody l2. intros l [x Hx].
    assert (Hx1 : h1 !! l = Some x)
      by (subst h1; rewrite lookup_insert_ne; [done | by eapply absent_ne]).
    rewrite lookup_insert_ne by (by eapply absent_ne). by rewrite Hx1.
Qed.

(** *** Frames with distinct labels *)

Lemma filter_label_absent (k : string) (l : list (string * Pandas.Series)) :
  k ∉ l.*1 -> filter (fun c => c.1 = k) l = [].
Proof.
  induction l as [|c l IH]; [done |]. rewrite fmap_cons, not_elem_of_cons. intros [? ?].
  rewrite filter_cons_False by (simpl; congruence). auto.
Qed.

Lemma getitem_nodup (n : nat) (l1 l2 : list (string * Pandas.Series))
    (c : string * Pandas.Series) :
  NoDup (l1 ++ c :: l2).*1 ->
  Pandas.getitem (Pandas.mkDF n (l1 ++ c :: l2)) c.1 = Some c.2.
Proof.
  rewrite fmap_app, fmap_cons. intros H.
  apply NoDup_app in H as (_ & H1 & H2). apply NoDup_cons in H2 as [H2 _].
  unfold Pandas.getitem; simpl.
  rewrite filter_app, filter_cons_True by done.
  rewrite !filter_label_absent; [done | done |].
  intros Hin. apply (H1 _ Hin). left.
Qed.

Lemma setitem_nodup (n : nat) (l1 l2 : list (string * Pandas.Series))
    (c : string * Pandas.Series) (s : Pandas.Series) :
  NoDup (l1 ++ c :: l2).*1 ->
  Pandas.setitem (Pandas.mkDF n (l1 ++ c :: l2)) c.1 s = Pandas.mkDF n (l1 ++ (c.1, s) :: l2).
Proof.
  rewrite fmap_app, fmap_cons. intros H.
  apply NoDup_app in H as (_ & H1 & H2). apply NoDup_cons in H2 as [H2 _].
  unfold Pandas.setitem; simpl. f_equal.
  rewrite map_app. simpl. rewrite decide_True by done. f_equal; [|f_equal].
  - rewrite <- (map_id l1) at 2. apply map_ext_in. intros x Hx.
    rewrite decide_False; [done |]. intros E. apply (H1 x.1).
    + apply list_elem_of_fmap. exists x. split; [done | by apply list_elem_of_In].
    + rewrite E. left.
  - rewrite <- (map_id l2) at 2. apply map_ext_in. intros x Hx.
    rewrite decide_False; [done |]. intros E. apply H2. rewrite <- E.
    apply list_elem_of_fmap. exists x. split; [done | by apply list_elem_of_In].
Qed.

Lemma stringify_columns_from (n : nat) (post pre : list (string * Pandas.Series)) :
  NoDup (pre ++ post).*1 ->
  stringify_columns timedelta_repr post.*1
    (Pandas.mkDF n (map (stringify_col timedelta_repr) pre ++ post))
  = (Pandas.mkDF n (map (stringify_col timedelta_repr) (pre ++ post)), None).
Proof.
  revert pre. induction post as [|c post IH]; intros pre H.
  - simpl. by rewrite !app_nil_r.
  - assert (H' : NoDup (map (stringify_col timedelta_repr) pre ++ c :: post).*1).
    { rewrite fmap_app, <- list_fmap_compose. rewrite fmap_app in H. exact H. }
    specialize (IH (pre ++ [c])). rewrite <- app_assoc in IH. specialize (IH H).
    rewrite map_app, <- app_assoc in IH. simpl in IH.
    rewrite fmap_cons. simpl. unfold stringify_column.
    rewrite (getitem_nodup _ _ _ _ H').
    destruct c as [k [v|v|v|v|v|v]]; simpl in *;
      rewrite ?(setitem_nodup n (map (stringify_col timedelta_repr) pre) post (k, _) _ H');
      exact IH.
Qed.

(** On a frame with distinct labels the loop runs to its end and turns
    every date and duration column into text. *)
Lemma stringify_columns_wf (d : Pandas.DataFrame) :
  NoDup (Pandas.columns d) ->
  stringify_columns timedelta_repr (Pandas.columns d) d
  = (Pandas.mkDF (Pandas.index_len d) (map (stringify_col timedelta_repr) (Pandas.cols d)),
     None).
Proof.
  intros H. destruct d as [n cs]. exact (stringify_columns_from n cs [] H).
Qed.

Lemma normalized_records_wf (pd : Pandas.lib) (d : Pandas.DataFrame) :
  NoDup (Pandas.columns d) ->
  normalized_records timedelta_repr pd d
  = Ret (Pandas.to_dict_records
           (Pandas.mkDF (Pandas.index_len d)
              (map (normal_col timedelta_repr (Pandas.where_keeps_dtype pd)) (Pandas.cols d)))).
Proof.
  intros H. unfold normalized_records. rewrite stringify_columns_wf by done.
  unfold Pandas.where_notnull_none_df. simpl. by rewrite map_map.
Qed.

Lemma to_list_stringify_length (s : Pandas.Series) :
  length (Pandas.to_list (stringify timedelta_repr s)) = length (Pandas.to_list s).
Proof. destruct s; simpl; by rewrite ?length_map. Qed.

Lemma to_list_where_length (keeps : bool) (s : Pandas.Series) :
  length (Pandas.to_list (Pandas.where_notnull_none keeps s)) = length (Pandas.to_list s).
Proof. destruct s, keeps; simpl; by rewrite ?length_map. Qed.

(** A date that is there is exported as its formatted text. *)
Lemma datetime_cell_normalized (keeps : bool) (v : list Z) (i : nat) (ns : Z) :
  v !! i = Some ns -> ns <> Pandas.iNaT ->
  Pandas.to_list (normal_col timedelta_repr keeps ("", Pandas.Datetime64 v)).2 !! i
  = Some (Py.Str (Pandas.format_datetime ns)).
Proof.
  intros Hv Hns. simpl. rewrite !list_lookup_fmap, Hv. simpl.
  destruct (Z.eqb_spec ns Pandas.iNaT); [done | reflexivity].
Qed.

(** A date that is missing is exported as [None]. *)
Lemma missing_datetime_cell_normalized (keeps : bool) (v : list Z) (i : nat) :
  v !! i = Some Pandas.iNaT ->
  Pandas.to_list (normal_col timedelta_repr keeps ("", Pandas.Datetime64 v)).2 !! i
  = Some Py.None_.
Proof. intros Hv. simpl. by rewrite !list_lookup_fmap, Hv. Qed.

(** A missing value of an object column is exported as [None]. *)
Lemma missing_object_cell_normalized (keeps : bool) (v : list Py.obj) (i : nat) (o : Py.obj) :
  v !! i = Some o -> Pandas.isnull_obj o = true ->
  Pandas.to_list (normal_col timedelta_repr keeps ("", Pandas.Object v)).2 !! i
  = Some Py.None_.
Proof.
  intros Hv Ho. simpl. rewrite list_lookup_fmap, Hv. simpl.
  unfold Pandas.none_if_null. by rewrite Ho.
Qed.

End Script.

(** *** Records *)

Lemma zip_arrays_lookup (arrays : list (list Py.obj)) (i : nat) :
  arrays <> [] ->
  Pandas.zip_arrays arrays !! i = mapM (fun a => a !! i) arrays.
Proof.
  induction arrays as [|a rest IH]; [done | intros _].
  destruct rest as [|b rest].
  - simpl. rewrite list_lookup_fmap. by destruct (a !! i).
  - change (Pandas.zip_arrays (a :: b :: rest))
      with (zip_with cons a (Pandas.zip_arrays (b :: rest))).
    rewrite lookup_zip_with, IH by done.
    change (mapM (fun a => a !! i) (a :: b :: rest))
      with (x ← a !! i; k ← mapM (fun a => a !! i) (b :: rest); mret (x :: k)).
    destruct (a !! i); [|done]. simpl. by destruct (mapM _ (b :: rest)).
Qed.

Lemma dict_set_fresh (k : string) (v : Py.obj) (acc : list (string * Py.obj)) :
  k ∉ acc.*1 -> Pandas.dict_set k v acc = acc ++ [(k, v)].
Proof.
  induction acc as [|[k' v'] acc IH]; [done |].
  rewrite fmap_cons, not_elem_of_cons. simpl. intros [? ?].
  rewrite decide_False by congruence. by rewrite IH.
Qed.

Lemma dict_of_from (pairs acc : list (string * Py.obj)) :
  NoDup (acc ++ pairs).*1 ->
  fold_left (fun d kv => Pandas.dict_set kv.1 kv.2 d) pairs acc = acc ++ pairs.
Proof.
  revert acc. induction pairs as [|[k v] pairs IH]; intros acc H; simpl.
  - by rewrite app_nil_r.
  - rewrite dict_set_fresh.
    + rewrite IH by (by rewrite <- app_assoc). by rewrite <- app_assoc.
    + rewrite fmap_app, fmap_cons in H. apply NoDup_app in H as (_ & H & _).
      intros Hin. apply (H _ Hin). left.
Qed.

Lemma dict_of_nodup (pairs : list (string * Py.obj)) :
  NoDup pairs.*1 -> Pandas.dict_of pairs = Py.Dict pairs.
Proof. intros H. unfold Pandas.dict_of. by rewrite (dict_of_from pairs []). Qed.

Lemma assoc_zip (keys : list string) (vals : list Py.obj) (j : nat) (k : string) (v : Py.obj) :
  NoDup keys -> keys !! j = Some k -> vals !! j = Some v ->
  Py.assoc k (zip keys vals) = Some v.
Proof.
  revert vals j. induction keys as [|k' keys IH]; intros [|v' vals] [|j] Hn Hk Hv;
    simplify_eq/=.
  - by rewrite decide_True.
  - apply NoDup_cons in Hn as [Hn1 Hn2].
    rewrite decide_False.
    + eapply IH; eauto.
    + intros ->. apply Hn1. eapply list_elem_of_lookup_2; eauto.
Qed.

(** Record [i] of a frame holds, under each label, cell [i] of the column. *)
Lemma to_dict_records_cell (D : Pandas.DataFrame) (i j : nat) (col : string)
    (s : Pandas.Series) (v : Py.obj) :
  NoDup (Pandas.columns D) ->
  Forall (fun c => is_Some (Pandas.to_list c.2 !! i)) (Pandas.cols D) ->
  Pandas.cols D !! j = Some (col, s) ->
  Pandas.to_list s !! i = Some v ->
  exists rec, Pandas.to_dict_records D !! i = Some rec /\ Py.dict_get col rec = Some v.
Proof.
  intros Hn Hall Hj Hv. unfold Pandas.to_dict_records.
  set (arrays := map (fun c => Pandas.to_list c.2) (Pandas.cols D)).
  assert (Hne : arrays <> []).
  { subst arrays. destruct (Pandas.cols D); [done | discriminate]. }
  assert (Hrow : exists row, mapM (fun a : list Py.obj => a !! i) arrays = Some row).
  { apply mapM_is_Some. subst arrays. apply Forall_map. exact Hall. }
  destruct Hrow as [row Hrow].
  rewrite list_lookup_fmap, (zip_arrays_lookup _ _ Hne), Hrow. simpl.
  eexists. split; [reflexivity |].
  apply mapM_Some in Hrow.
  assert (Hlen : length row = length (Pandas.columns D)).
  { apply Forall2_length in Hrow. subst arrays.
    unfold Pandas.columns. rewrite length_map in Hrow. by rewrite length_fmap. }
  rewrite dict_of_nodup by (rewrite fst_zip by lia; exact Hn).
  simpl. apply (assoc_zip _ _ j); [exact Hn | |].
  - unfold Pandas.columns. by rewrite list_lookup_fmap, Hj.
  - eapply Forall2_lookup_l in Hrow as (y & Hy & Hay).
    2: { subst arrays. rewrite list_lookup_fmap, Hj. reflexivity. }
    simpl in Hay. congruence.
Qed.

(** On a well-formed frame the normaliser returns, in record [i] under the
    label of column [j], cell [i] of that column as normalised. *)
Lemma convert_cell (timedelta_repr : list Z -> Z -> string) (w : World) (df : loc)
    (d : Pandas.DataFrame) (pd : Pandas.lib) (i j : nat) (col : string) (s : Pandas.Series)
    (v : Py.obj) :
  w_heap w !! df = Some d -> w_pandas w = Some pd -> wf_frame d ->
  Pandas.cols d !! j = Some (col, s) ->
  (i < Pandas.index_len d)%nat ->
  Pandas.to_list (normal_col timedelta_repr (Pandas.where_keeps_dtype pd) (col, s)).2 !! i
    = Some v ->
  exists records w' rec,
    convert_to_json_safe timedelta_repr df w = (Ret records, w')
    /\ records !! i = Some rec
    /\ Py.dict_get col rec = Some v.
Proof.
  intros Hd Hp [Hn Hlen] Hj Hi Hv.
  destruct (convert_spec timedelta_repr df d pd w Hd Hp) as (h & -> & _).
  rewrite normalized_records_wf by done.
  set (keeps := Pandas.where_keeps_dtype pd) in *.
  set (D := Pandas.mkDF _ _).
  destruct (to_dict_records_cell D i j col
              (normal_col timedelta_repr keeps (col, s)).2 v) as (rec & Hrec & Hget).
  - subst D. unfold Pandas.columns. simpl. rewrite <- list_fmap_compose. exact Hn.
  - subst D. simpl. apply Forall_map. eapply Forall_impl; [exact Hlen |].
    intros c Hc. simpl. apply lookup_lt_is_Some.
    by rewrite to_list_where_length, to_list_stringify_length, Hc.
  - subst D. simpl. rewrite list_lookup_fmap, Hj. reflexivity.
  - exact Hv.
  - by exists (Pandas.to_dict_records D), (set_heap h w), rec.
Qed.

End NormalizerFacts.

(** * The writer *)

Module WriterFacts.
Import PyStr PathLib DataReader Spec PathFacts.

Lemma set_fs_same (w : World) : set_fs (w_fs w) w = w.
Proof. by destruct w. Qed.

Lemma upd_same (w : World) : upd (w_fs w) (w_heap w) (w_stdout w) w = w.
Proof. by destruct w. Qed.

Section Script.
Variable file__ : string.
Variable float_repr : float -> string.

(** Where the file can be opened, it ends up holding what was encoded. *)
Lemma json_dump_to_writes (obj : Py.obj) (p : Path) (w : World) :
  writable w p = true ->
  json_dump_to float_repr obj p w =
  (match (Json.dump float_repr obj).2 with None => Ret tt | Some e => Raise e end,
   set_fs (<[str p := File (Json.dump float_repr obj).1]> (w_fs w)) w).
Proof.
  unfold json_dump_to. generalize (Json.dump float_repr obj) as enc. intros enc.
  unfold open_w, write, bind, gets, modify, writable. simpl.
  destruct (w_denied w (str p)); simpl; [discriminate |].
  destruct (w_fs w !! str p) as [[c|]|]; simpl; try discriminate;
    (destruct (is_dir (w_fs w) (parent p)); simpl; [intros _ | discriminate]);
    rewrite insert_insert_eq; by destruct (enc.2).
Qed.

(** Where it cannot, nothing is written. *)
Lemma json_dump_to_raises (obj : Py.obj) (p : Path) (w : World) :
  writable w p = false -> exists e, json_dump_to float_repr obj p w = (Raise e, w).
Proof.
  unfold json_dump_to. generalize (Json.dump float_repr obj) as enc. intros enc.
  unfold open_w, write, bind, gets, modify, writable. simpl.
  destruct (w_denied w (str p)); simpl; [eexists; reflexivity|].
  destruct (w_fs w !! str p) as [[c|]|]; simpl; try (eexists; reflexivity);
    (destruct (is_dir (w_fs w) (parent p)); simpl; [discriminate|eexists; reflexivity]).
Qed.

Local Opaque json_dump_to.

(** What [save_to_json] returns and leaves behind, case by case. *)
Lemma save_to_json_spec (data : list Py.obj) (filename : string) (w : World) :
  let p := truediv (OUTPUT_DIR file__) filename in
  let enc := Json.dump float_repr (output_data (w_now w) data) in
  exists out,
    save_to_json file__ float_repr data filename w =
    if negb (str_in "output" (str p)) then (Ret false, set_stdout out w)
    else if writable w p
         then (Ret (succeeded enc),
               set_stdout out (set_fs (<[str p := File enc.1]> (w_fs w)) w))
         else (Ret false, set_stdout out w).
Proof.
  intros p enc. unfold save_to_json, bind. simpl. fold p.
  destruct (str_in "output" (str p)); simpl; [|eexists; reflexivity].
  unfold try_except, bind, gets. simpl.
  match goal with |- context [json_dump_to _ _ _ ?w'] => set (w1 := w') end.
  destruct (writable w p) eqn:Hw.
  - rewrite json_dump_to_writes by exact Hw.
    fold enc. unfold succeeded. destruct (enc.2); simpl; [eexists; reflexivity|].
    unfold st_size, bind, gets. simpl. rewrite lookup_insert_eq. simpl.
    eexists; reflexivity.
  - destruct (json_dump_to_raises (output_data (w_now w) data) p w1 Hw) as [e ->].
    simpl. eexists; reflexivity.
Qed.

(** The same for the one call [main] makes. *)
Lemma save_raw_data (data : list Py.obj) (w : World) :
  exists out,
    save_to_json file__ float_repr data "raw_data.json" w
    = (Ret (writable w (output_path file__)
            && succeeded (Json.dump float_repr (output_data (w_now w) data))),
       set_stdout out (set_fs (written file__ float_repr (w_fs w) (w_now w) data w) w)).
Proof.
  destruct (save_to_json_spec data "raw_data.json" w) as [out ->].
  rewrite guard_passes by reflexivity. cbn [negb].
  unfold written. fold (output_path file__).
  change (writable (set_fs (w_fs w) w) (output_path file__))
    with (writable w (output_path file__)).
  destruct (writable w (output_path file__)); cbn [andb].
  - exists out. reflexivity.
  - exists out. by rewrite set_fs_same.
Qed.

End Script.
End WriterFacts.

(** * The text of the envelope *)

Module EnvelopeFacts.
Import PyStr PathLib DataReader Spec PathFacts.
Local Arguments String.append !_ _ / : simpl nomatch.

Section Script.
Variable float_repr : float -> string.

Lemma seq_emit_empty (x : Json.Enc) : Json.seq x (Json.emit "") = x.
Proof.
  destruct x as [t [e|]]; unfold Json.seq; simpl; [done |]. by rewrite append_empty_r.
Qed.

Lemma encode_envelope (meta x : Py.obj) :
  Json.iterencode float_repr (Py.Dict [("metadata", meta); ("data", x)]) 0
  = (Json.seq (Json.emit "{")
    (Json.seq (Json.emit (Json.newline_indent 1))
    (Json.seq (Json.emit (Json.encode_basestring "metadata"))
    (Json.seq (Json.emit ": ")
    (Json.seq (Json.iterencode float_repr meta 1)
    (Json.seq
       (Json.seq (Json.emit ("," +:+ Json.newline_indent 1))
       (Json.seq (Json.emit (Json.encode_basestring "data"))
       (Json.seq (Json.emit ": ")
       (Json.seq (Json.iterencode float_repr x 1) (Json.emit "")))))
    (Json.seq (Json.emit (Json.newline_indent 0)) (Json.emit "}")))))))).
Proof. reflexivity. Qed.

(** The metadata can always be encoded. *)
Lemma metadata_encodes (now : string) (n : Z) :
  (Json.iterencode float_repr (metadata now n) 1).2 = None.
Proof. reflexivity. Qed.

(** The text of the envelope is its head, which carries the metadata,
    followed by the encoding of the data; it ends as the data ends. *)
Lemma dump_output_data (now : string) (data : list Py.obj) :
  Json.dump float_repr (output_data now data)
  = (envelope_head float_repr now (Py.len data) +:+ envelope_rest float_repr data,
     (data_encoding float_repr data).2).
Proof.
  unfold Json.dump.
  change (output_data now data)
    with (Py.Dict [("metadata", metadata now (Py.len data)); ("data", Py.List data)]).
  rewrite encode_envelope, seq_emit_empty.
  unfold envelope_head, envelope_rest. fold (data_encoding float_repr data).
  pose proof (metadata_encodes now (Py.len data)) as Hm.
  destruct (Json.iterencode float_repr (metadata now (Py.len data)) 1) as [m em].
  simpl in Hm. subst em.
  destruct (data_encoding float_repr data) as [t [e|]]; unfold Json.seq, Json.emit; simpl;
    by rewrite ?append_assoc.
Qed.

Lemma envelope_rest_empty : envelope_rest float_repr [] = "[]" +:+ Json.newline +:+ "}".
Proof. reflexivity. Qed.

End Script.
End EnvelopeFacts.

(** * The stages of [main] *)

Module StageFacts.
Import PyStr PathLib DataReader Spec PathFacts WriterFacts.

Lemma dirs_added_refl (fs : gmap string node) : dirs_added fs fs.
Proof. intros k. by left. Qed.

Lemma dirs_added_trans (a b c : gmap string node) :
  dirs_added a b -> dirs_added b c -> dirs_added a c.
Proof.
  intros H1 H2 k. destruct (H1 k) as [E1|[E1 E1']], (H2 k) as [E2|[E2 E2']].
  - left. congruence.
  - right. split; congruence.
  - right. split; congruence.
  - congruence.
Qed.

Lemma dirs_added_file (fs fs' : gmap string node) (k c : string) :
  dirs_added fs fs' -> fs' !! k = Some (File c) -> fs !! k = Some (File c).
Proof. intros H E. destruct (H k) as [<-|[_ E']]; congruence. Qed.

Lemma check_dependencies_spec (w : World) :
  exists out, check_dependencies w = (Ret (deps_ok w), set_stdout out w).
Proof.
  unfold check_dependencies, deps_ok, bind, gets, print_msg, print, modify, ret. simpl.
  destruct (w_pandas w) eqn:P, (w_openpyxl w) eqn:O; simpl; rewrite ?O; simpl;
    eexists; reflexivity.
Qed.

Lemma check_file_exists_spec (w : World) :
  exists out, check_file_exists w = (Ret (file_ok w), set_stdout out w).
Proof.
  unfold check_file_exists, file_ok, bind, gets, print_msg, print, modify, ret. simpl.
  destruct (w_excel_size w); simpl; eexists; reflexivity.
Qed.

Lemma mkdir_step_spec (q : Path) (w : World) :
  exists r fs, mkdir_step q w = (r, set_fs fs w) /\ dirs_added (w_fs w) fs.
Proof.
  unfold mkdir_step, bind, gets, modify, ret, raise. simpl.
  destruct (w_fs w !! str q) as [[c|]|] eqn:E; simpl.
  - eexists _, (w_fs w). rewrite set_fs_same. split; [reflexivity | apply dirs_added_refl].
  - eexists _, (w_fs w). rewrite set_fs_same. split; [reflexivity | apply dirs_added_refl].
  - destruct (w_denied w (str q)); simpl.
    + eexists _, (w_fs w). rewrite set_fs_same. split; [reflexivity | apply dirs_added_refl].
    + do 2 eexists. split; [reflexivity |].
      intros k. destruct (decide (k = str q)) as [->|].
      * right. by rewrite lookup_insert_eq.
      * left. by rewrite lookup_insert_ne.
Qed.

Lemma mkdir_loop_spec (qs : list Path) (w : World) :
  exists r fs, for_each qs mkdir_step w = (r, set_fs fs w) /\ dirs_added (w_fs w) fs.
Proof.
  revert w. induction qs as [|q qs IH]; intros w; simpl.
  - eexists _, (w_fs w). rewrite set_fs_same. split; [reflexivity | apply dirs_added_refl].
  - unfold bind. destruct (mkdir_step_spec q w) as (r & fs & -> & H).
    destruct r as [[]|e].
    + destruct (IH (set_fs fs w)) as (r' & fs' & -> & H').
      exists r', fs'. split; [reflexivity |]. eapply dirs_added_trans; eauto.
    + exists (Raise e), fs. split; [reflexivity | done].
Qed.

Lemma mkdir_parents_spec (p : Path) (w : World) :
  exists r fs, mkdir_parents p w = (r, set_fs fs w) /\ dirs_added (w_fs w) fs.
Proof. exact (mkdir_loop_spec (lineage p) w). Qed.

Lemma can_make_mono (w : World) (fs : gmap string node) (q : Path) :
  dirs_added (w_fs w) fs -> can_make w q = true -> can_make (set_fs fs w) q = true.
Proof.
  intros H. unfold can_make. simpl.
  destruct (H (str q)) as [->|[-> ->]]; done.
Qed.

(** When every directory on the way can be made, the loop makes them all
    and touches no other path. *)
Lemma mkdir_loop_ok (qs : list Path) (w : World) :
  forallb (can_make w) qs = true ->
  exists fs, for_each qs mkdir_step w = (Ret tt, set_fs fs w)
             /\ dirs_added (w_fs w) fs
             /\ (forall q, q ∈ qs -> fs !! str q = Some Dir)
             /\ (forall k, k ∉ str <$> qs -> fs !! k = w_fs w !! k).
Proof.
  revert w. induction qs as [|q qs IH]; intros w H.
  - exists (w_fs w). rewrite set_fs_same. repeat split; try done.
    + apply dirs_added_refl.
    + by intros q ?%elem_of_nil.
  - simpl in H. apply andb_prop in H as [Hq Hqs].
    assert (Hstep : exists fs1, mkdir_step q w = (Ret tt, set_fs fs1 w)
                                /\ dirs_added (w_fs w) fs1
                                /\ fs1 !! str q = Some Dir
                                /\ (forall k, k <> str q -> fs1 !! k = w_fs w !! k)).
    { unfold can_make in Hq. unfold mkdir_step, bind, gets, modify, ret, raise. simpl.
      destruct (w_fs w !! str q) as [[c|]|] eqn:E; [done | |].
      - exists (w_fs w). rewrite set_fs_same. repeat split; try done. apply dirs_added_refl.
      - destruct (w_denied w (str q)); [done |]. simpl.
        eexists. split; [reflexivity |]. repeat split.
        + intros k. destruct (decide (k = str q)) as [->|].
          * right. by rewrite lookup_insert_eq.
          * left. by rewrite lookup_insert_ne.
        + apply lookup_insert_eq.
        + intros k Hk. by rewrite lookup_insert_ne. }
    destruct Hstep as (fs1 & E1 & Hadd1 & Hq1 & Hother1).
    destruct (IH (set_fs fs1 w)) as (fs2 & E2 & Hadd2 & Hq2 & Hother2).
    { apply forallb_forall. intros q' Hq'. apply can_make_mono; [done |].
      eapply forallb_forall in Hqs; eauto. }
    exists fs2. simpl. unfold bind. rewrite E1, E2. simpl in *.
    repeat split.
    + eapply dirs_added_trans; eauto.
    + intros q' [->|Hq']%elem_of_cons; [|by apply Hq2].
      destruct (Hadd2 (str q)) as [->|[? _]]; congruence.
    + intros k Hk. apply not_elem_of_cons in Hk as [? ?].
      rewrite Hother2 by done. by apply Hother1.
Qed.

Section Script.
Variable file__ : string.
Variable float_repr : float -> string.
Variable timedelta_repr : list Z -> Z -> string.

(** [ensure_output_dir] only adds directories. *)
Lemma ensure_output_dir_spec (w : World) :
  exists r fs out,
    ensure_output_dir file__ w = (r, upd fs (w_heap w) out w)
    /\ dirs_added (w_fs w) fs
    /\ (r = Ret true \/ exists e, r = Raise e).
Proof.
  unfold ensure_output_dir, exists_, bind, gets.
  destruct (bool_decide _); cbn [negb].
  - eexists _, (w_fs w), (w_stdout w). rewrite upd_same.
    split; [reflexivity |]. split; [apply dirs_added_refl | by left].
  - destruct (mkdir_parents_spec (OUTPUT_DIR file__) w) as (r & fs & -> & H).
    destruct r as [[]|e]; simpl; do 3 eexists;
      (split; [reflexivity |]; split; [exact H | eauto]).
Qed.

(** Where the output directory is ready, it is there afterwards, and the
    output file is as before. *)
Lemma ensure_output_dir_ok (w : World) :
  dir_ready w (OUTPUT_DIR file__) = true ->
  exists fs out,
    ensure_output_dir file__ w = (Ret true, upd fs (w_heap w) out w)
    /\ is_dir fs (OUTPUT_DIR file__) = true
    /\ fs !! str (output_path file__) = w_fs w !! str (output_path file__).
Proof.
  intros H. unfold dir_ready in H.
  assert (Hself : OUTPUT_DIR file__ ∈ lineage (OUTPUT_DIR file__)).
  { unfold lineage. apply list_elem_of_fmap. exists (tail (OUTPUT_DIR file__)).
    split; [by destruct (OUTPUT_DIR file__) | apply prefixes_self, OUTPUT_DIR_tail]. }
  unfold ensure_output_dir, exists_, bind, gets.
  destruct (bool_decide _) eqn:Hex; cbn [negb].
  - exists (w_fs w), (w_stdout w). rewrite upd_same. repeat split.
    apply bool_decide_eq_true in Hex as [x Hx].
    eapply forallb_forall in H; [| apply list_elem_of_In, Hself].
    unfold can_make in H. rewrite Hx in H. unfold is_dir. rewrite Hx.
    destruct (tail (OUTPUT_DIR file__)); [done |]. by destruct x.
  - destruct (mkdir_loop_ok _ w H) as (fs & E & _ & Hdirs & Hother).
    change (mkdir_parents (OUTPUT_DIR file__) w)
      with (for_each (lineage (OUTPUT_DIR file__)) mkdir_step w).
    rewrite E. simpl. exists fs. eexists. split; [reflexivity |]. split.
    + unfold is_dir. rewrite (Hdirs _ Hself). by destruct (tail (OUTPUT_DIR file__)).
    + apply Hother. intros (q & Hq & Hin)%list_elem_of_fmap.
      eapply (child_not_in_lineage (OUTPUT_DIR file__) "raw_data.json");
        [apply OUTPUT_DIR_tail | done | exact Hin |].
      by rewrite <- output_path_eq.
Qed.

Lemma ensured_dirs_added (w : World) (r : outcome bool) (fs1 : gmap string node) :
  ensured file__ w r fs1 -> dirs_added (w_fs w) fs1.
Proof.
  intros (out & out1 & E).
  destruct (ensure_output_dir_spec (set_stdout out w)) as (r' & fs' & o' & E' & H & _).
  rewrite E in E'. injection E' as _ -> _. exact H.
Qed.

Lemma read_excel_data_ok (pd : Pandas.lib) (d : Pandas.DataFrame) (w : World) :
  w_pandas w = Some pd -> w_read_excel w = inr d ->
  exists out, read_excel_data w
              = (Ret (Some (fresh (dom (w_heap w)))),
                 upd (w_fs w) (<[fresh (dom (w_heap w)) := d]> (w_heap w)) out w).
Proof.
  intros Hpd H. unfold read_excel_data, import_pandas, try_except, bind, gets, print_msg,
    print, modify, ret, len_df, len_columns, new_frame, read_frame, bind, gets, modify, ret.
  simpl. rewrite Hpd. simpl.
  rewrite H. simpl. repeat (rewrite lookup_insert_eq; simpl). eexists. reflexivity.
Qed.

Lemma read_excel_data_failed (pd : Pandas.lib) (e : Py.exn) (w : World) :
  w_pandas w = Some pd -> w_read_excel w = inl e ->
  exists out, read_excel_data w = (Ret None, set_stdout out w).
Proof.
  intros Hpd H. unfold read_excel_data, import_pandas, try_except, bind, gets, print_msg,
    print, modify, ret, raise. simpl. rewrite Hpd. simpl.
  rewrite H. simpl. eexists. reflexivity.
Qed.

Lemma validate_columns_spec (l : loc) (d : Pandas.DataFrame) (w : World) :
  w_heap w !! l = Some d ->
  exists out, validate_columns l w
              = (match Pandas.columns d with [] => Raise index_error | _ => Ret true end,
                 set_stdout out w).
Proof.
  intros H. unfold validate_columns, read_frame, bind, gets, print_msg, print, modify, ret,
    raise. simpl. rewrite H. simpl.
  destruct (Pandas.columns d) as [|c cs]; simpl; [eexists; reflexivity |].
  destruct (String.eqb c _); simpl; eexists; reflexivity.
Qed.

Lemma len_df_spec (l : loc) (d : Pandas.DataFrame) (w : World) :
  w_heap w !! l = Some d -> len_df l w = (Ret (Z.of_nat (Pandas.index_len d)), w).
Proof.
  intros H. unfold len_df, read_frame, bind, gets, ret. simpl. by rewrite H.
Qed.

End Script.
End StageFacts.

(** * The run as a whole *)

Module MainFacts.
Import PyStr PathLib DataReader Spec PathFacts WriterFacts NormalizerFacts StageFacts.

Section Script.
Variable file__ : string.
Variable float_repr : float -> string.
Variable timedelta_repr : list Z -> Z -> string.

Local Opaque check_dependencies check_file_exists ensure_output_dir read_excel_data
  validate_columns convert_to_json_safe save_to_json len_df PyStr.repeat.

(** Every run of [main] goes one of the ways of [run_result]. *)
Lemma main_run (w : World) :
  exists r fs h out, main file__ float_repr timedelta_repr w = (r, upd fs h out w)
                     /\ run_result file__ float_repr timedelta_repr w r fs.
Proof.
  unfold main, bind, print_msg, print, modify, ret. cbn.
  match goal with |- context [check_dependencies ?w1] =>
    destruct (check_dependencies_spec w1) as [o1 ->] end.
  change (deps_ok _) with (deps_ok w).
  destruct (deps_ok w) eqn:Hdeps; cbn.
  2: { eexists _, (w_fs w), (w_heap w), _.
       split; [reflexivity | by apply run_missing_library]. }
  match goal with |- context [check_file_exists ?w1] =>
    destruct (check_file_exists_spec w1) as [o2 ->] end.
  change (file_ok _) with (file_ok w).
  destruct (file_ok w) eqn:Hfile; cbn.
  2: { eexists _, (w_fs w), (w_heap w), _.
       split; [reflexivity | by apply run_missing_workbook]. }
  match goal with |- context [ensure_output_dir _ ?w1] =>
    pose proof (ensure_output_dir_spec file__ w1) as (r3 & fs1 & o3 & E3 & _ & Hr3);
    set (w3 := w1) in * end.
  assert (Hens : ensured file__ w r3 fs1) by (eexists _, _; exact E3).
  rewrite E3. clear E3. subst w3.
  destruct Hr3 as [-> | [e ->]]; cbn.
  2: { eexists _, fs1, (w_heap w), _. split; [reflexivity | by eapply run_mkdir_failed]. }
  destruct (w_pandas w) as [pd|] eqn:Hpd.
  2: { unfold deps_ok in Hdeps. rewrite Hpd in Hdeps. discriminate. }
  destruct (w_read_excel w) as [e|d] eqn:Hread.
  { match goal with |- context [read_excel_data ?w1] =>
      destruct (read_excel_data_failed pd e w1 Hpd Hread) as [o4 ->] end.
    eexists _, fs1, (w_heap w), _. split; [reflexivity | by eapply run_read_failed]. }
  match goal with |- context [read_excel_data ?w1] =>
    destruct (read_excel_data_ok pd d w1 Hpd Hread) as [o4 ->] end.
  cbn. set (l := fresh (dom (w_heap w))). set (h1 := <[l := d]> (w_heap w)).
  assert (Hl : h1 !! l = Some d) by apply lookup_insert_eq.
  match goal with |- context [validate_columns l ?w1] =>
    destruct (validate_columns_spec l d w1 Hl) as [o5 ->] end.
  destruct (Pandas.columns d) as [|c cs] eqn:Hcols.
  { eexists _, fs1, h1, _. split; [reflexivity |].
    eapply run_stopped; eauto. unfold pipeline_records. by rewrite Hcols. }
  cbn.
  match goal with |- context [len_df l ?w1] => rewrite (len_df_spec l d w1 Hl) end.
  destruct (Z.of_nat (Pandas.index_len d) =? 0) eqn:Hlen.
  - match goal with |- context [save_to_json _ _ _ _ ?w1] =>
      destruct (save_raw_data file__ float_repr [] w1) as [o6 ->] end.
    cbn. eexists _, (written file__ float_repr fs1 (w_now w) [] w), h1, _.
    split; [reflexivity |].
    eapply run_saved; eauto. unfold pipeline_records. by rewrite Hcols, Hlen.
  - match goal with |- context [convert_to_json_safe _ l ?w1] =>
      destruct (convert_spec timedelta_repr l d pd w1 Hl Hpd) as (h2 & -> & _) end.
    destruct (normalized_records timedelta_repr pd d) as [records|e] eqn:Hnorm.
    + match goal with |- context [save_to_json _ _ _ _ ?w1] =>
        destruct (save_raw_data file__ float_repr records w1) as [o6 ->] end.
      cbn. eexists _, (written file__ float_repr fs1 (w_now w) records w), h2, _.
      split; [reflexivity |].
      eapply run_saved; eauto. unfold pipeline_records. by rewrite Hcols, Hlen.
    + eexists _, fs1, h2, _. split; [reflexivity |].
      eapply run_stopped; eauto. unfold pipeline_records. by rewrite Hcols, Hlen.
Qed.

Lemma exit_status_main (w : World) :
  exit_status file__ float_repr timedelta_repr w
  = (match (main file__ float_repr timedelta_repr w).1 with Ret c => c | Raise _ => 1 end,
     (main file__ float_repr timedelta_repr w).2).
Proof.
  unfold exit_status. by destruct (main file__ float_repr timedelta_repr w) as [[c|e] w'].
Qed.

(** When a run puts new content in the output file, the content is the
    envelope of the records computed from the sheet. *)
Lemma run_wrote (w : World) (c : string) :
  wrote file__ w (main file__ float_repr timedelta_repr w).2 c ->
  exists pd d records,
    w_pandas w = Some pd /\ w_read_excel w = inr d
    /\ pipeline_records timedelta_repr pd d = Ret records
    /\ c = (Json.dump float_repr (output_data (w_now w) records)).1.
Proof.
  intros [Hc Hnew].
  destruct (main_run w) as (r & fs & h & out & E & Hrun).
  rewrite E in Hc. simpl in Hc.
  destruct Hrun as [| | e fs1 _ _ He | e fs1 _ _ He _ | pd d e fs1 _ _ He _ _ _
                    | pd d records fs1 _ _ He Hpd Hread Hrec]; try done;
    try (by apply ensured_dirs_added in He;
         eapply dirs_added_file in Hc; eauto).
  apply ensured_dirs_added in He. unfold written in Hc.
  destruct (writable _ _).
  - rewrite lookup_insert_eq in Hc. injection Hc as <-. by exists pd, d, records.
  - eapply dirs_added_file in Hc; eauto. done.
Qed.

(** The exit status is 0 as soon as the records reach the writer, whether
    or not the writer could write them. *)
Lemma exit_status_when_records_reach_writer (w : World) (pd : Pandas.lib)
    (d : Pandas.DataFrame) (records : list Py.obj) :
  deps_ok w = true -> file_ok w = true ->
  w_pandas w = Some pd -> w_read_excel w = inr d ->
  pipeline_records timedelta_repr pd d = Ret records ->
  dir_ready w (OUTPUT_DIR file__) = true ->
  (exit_status file__ float_repr timedelta_repr w).1 = 0.
Proof.
  intros Hdeps Hfile Hpd Hread Hrec Hready. rewrite exit_status_main. simpl.
  destruct (main_run w) as (r & fs & h & out & E & Hrun). rewrite E. simpl.
  destruct Hrun as [| | e fs1 _ _ He | e fs1 _ _ He ? | pd' d' e fs1 _ _ He ? ? ?
                    | pd' d' records' fs1 _ _ He ? ? ?]; try congruence.
  destruct He as (o & o1 & Eens).
  destruct (ensure_output_dir_ok file__ (set_stdout o w) Hready) as (fs' & o' & E' & _).
  rewrite Eens in E'. discriminate.
Qed.

End Script.
End MainFacts.
(** * What the encoder accepts *)

Module EncoderFacts.
Import PyStr PathLib DataReader Spec Conditions PathFacts.
Local Arguments String.append !_ _ / : simpl nomatch.

Lemma seq_ok (a b : Json.Enc) : (Json.seq a b).2 = None <-> a.2 = None /\ b.2 = None.
Proof. unfold Json.seq. destruct a as [t [e|]], b as [t' [e'|]]; simpl; intuition congruence. Qed.

(** Induction on values, through the lists and dicts they hold. *)
Lemma obj_nested_ind (P : Py.obj -> Prop) :
  P Py.None_ -> (forall b, P (Py.Bool b)) -> (forall z, P (Py.Int z)) ->
  (forall f, P (Py.Float f)) -> (forall s, P (Py.Str s)) ->
  (forall items, Forall P items -> P (Py.List items)) ->
  (forall items, Forall (fun kv => P kv.2) items -> P (Py.Dict items)) ->
  (forall ns, P (Py.Timestamp ns)) -> (forall ns, P (Py.Timedelta ns)) -> P Py.NaT ->
  forall o, P o.
Proof.
  intros HN HB HI HF HS HL HD HT HTd HNaT. fix IH 1. intros o.
  destruct o as [|b|z|f|s|items|items|ns|ns|].
  - exact HN.
  - apply HB.
  - apply HI.
  - apply HF.
  - apply HS.
  - apply HL. induction items as [|x xs IHxs]; constructor; [apply IH | exact IHxs].
  - apply HD. induction items as [|[k v] xs IHxs]; constructor; [apply IH | exact IHxs].
  - apply HT.
  - apply HTd.
  - exact HNaT.
Qed.

Section Encoder.
Variable float_repr : float -> string.

(** The items of an array after the first, as [_iterencode_list] goes
    through them. *)
Definition rest_of_list (level : nat) : list Py.obj -> Json.Enc :=
  fix rest (l : list Py.obj) : Json.Enc :=
    match l with
    | [] => Json.emit ""
    | y :: ys =>
        Json.seq (Json.emit ("," +:+ Json.newline_indent level))
          (Json.seq (Json.iterencode float_repr y level) (rest ys))
    end.

Definition rest_of_dict (level : nat) : list (string * Py.obj) -> Json.Enc :=
  fix rest (l : list (string * Py.obj)) : Json.Enc :=
    match l with
    | [] => Json.emit ""
    | (k, v) :: l' =>
        Json.seq (Json.emit ("," +:+ Json.newline_indent level))
          (Json.seq (Json.emit (Json.encode_basestring k))
             (Json.seq (Json.emit ": ")
                (Json.seq (Json.iterencode float_repr v level) (rest l'))))
    end.

Lemma iterencode_list (x : Py.obj) (xs : list Py.obj) (level : nat) :
  Json.iterencode float_repr (Py.List (x :: xs)) level
  = Json.seq (Json.emit ("[" +:+ Json.newline_indent (S level)))
      (Json.seq (Json.iterencode float_repr x (S level))
         (Json.seq (rest_of_list (S level) xs)
            (Json.seq (Json.emit (Json.newline_indent level)) (Json.emit "]")))).
Proof. reflexivity. Qed.

Lemma iterencode_dict (k : string) (v : Py.obj) (kvs : list (string * Py.obj)) (level : nat) :
  Json.iterencode float_repr (Py.Dict ((k, v) :: kvs)) level
  = Json.seq (Json.emit "{")
      (Json.seq (Json.emit (Json.newline_indent (S level)))
         (Json.seq (Json.emit (Json.encode_basestring k))
            (Json.seq (Json.emit ": ")
               (Json.seq (Json.iterencode float_repr v (S level))
                  (Json.seq (rest_of_dict (S level) kvs)
                     (Json.seq (Json.emit (Json.newline_indent level)) (Json.emit "}"))))))).
Proof. reflexivity. Qed.

(** A value is encoded to its end exactly when it is made of what JSON
    has. *)
Lemma iterencode_ok (o : Py.obj) :
  forall level, (Json.iterencode float_repr o level).2 = None <-> json_like o = true.
Proof.
  induction o as [| | | | |items IH|items IH| | |] using obj_nested_ind; intros level;
    try (simpl; split; (done || discriminate)).
  - destruct b; simpl; done.
  - destruct items as [|x xs]; [done |].
    rewrite iterencode_list, !seq_ok. apply Forall_cons in IH as [Hx Hxs].
    change (json_like (Py.List (x :: xs))) with (json_like x && forallb json_like xs).
    rewrite andb_true_iff, (Hx (S level)).
    enough (E : (rest_of_list (S level) xs).2 = None <-> forallb json_like xs = true)
      by (simpl; intuition).
    clear Hx. induction xs as [|y ys IHys]; [done |].
    apply Forall_cons in Hxs as [Hy Hys].
    change (rest_of_list (S level) (y :: ys))
      with (Json.seq (Json.emit ("," +:+ Json.newline_indent (S level)))
              (Json.seq (Json.iterencode float_repr y (S level)) (rest_of_list (S level) ys))).
    rewrite !seq_ok, (Hy (S level)), (IHys Hys). simpl. rewrite andb_true_iff. intuition.
  - destruct items as [|[k v] kvs]; [done |].
    rewrite iterencode_dict, !seq_ok. apply Forall_cons in IH as [Hv Hkvs]. simpl in Hv.
    change (json_like (Py.Dict ((k, v) :: kvs)))
      with (json_like v && forallb (fun '(_, v) => json_like v) kvs).
    rewrite andb_true_iff, (Hv (S level)).
    enough (E : (rest_of_dict (S level) kvs).2 = None
                <-> forallb (fun '(_, v) => json_like v) kvs = true)
      by (simpl; intuition).
    clear Hv. induction kvs as [|[k' v'] l IHl]; [done |].
    apply Forall_cons in Hkvs as [Hv' Hl]. simpl in Hv'.
    change (rest_of_dict (S level) ((k', v') :: l))
      with (Json.seq (Json.emit ("," +:+ Json.newline_indent (S level)))
              (Json.seq (Json.emit (Json.encode_basestring k'))
                 (Json.seq (Json.emit ": ")
                    (Json.seq (Json.iterencode float_repr v' (S level))
                       (rest_of_dict (S level) l))))).
    rewrite !seq_ok, (Hv' (S level)), (IHl Hl). simpl. rewrite andb_true_iff. intuition.
Qed.

(** A text without control characters, quotes and backslashes is written
    as it is. *)
Lemma escape_plain (s : string) : all_plain s = true -> Json.escape s = s.
Proof.
  induction s as [|c s IH]; [done |]. simpl. intros [Hc Hs]%andb_prop.
  rewrite (IH Hs). unfold is_plain in Hc. unfold Json.escape_char.
  apply andb_prop in Hc as [[H32 H34]%andb_prop H92].
  apply negb_true_iff in H34, H92. rewrite H34, H92.
  apply Nat.leb_le in H32.
  repeat match goal with
  | |- context [(?n =? ?m)%nat] => destruct (Nat.eqb_spec n m); [lia |]
  end.
  destruct (Nat.ltb_spec (nat_of_ascii c) 32); [lia | reflexivity].
Qed.

End Encoder.
End EncoderFacts.

(** * The records of a frame *)

Module RecordFacts.
Import PyStr PathLib DataReader Spec Conditions NormalizerFacts EncoderFacts.

Lemma forallb_Forall {A} (f : A -> bool) (l : list A) :
  forallb f l = true <-> Forall (fun x => f x = true) l.
Proof.
  induction l as [|x l IH]; simpl; [by split |].
  rewrite andb_true_iff, Forall_cons, IH. done.
Qed.

Lemma zip_arrays_length (arrays : list (list Py.obj)) (n : nat) :
  arrays <> [] -> Forall (fun a => length a = n) arrays ->
  length (Pandas.zip_arrays arrays) = n.
Proof.
  induction arrays as [|a rest IH]; [done | intros _ H].
  apply Forall_cons in H as [Ha Hrest]. destruct rest as [|b rest].
  - simpl. by rewrite length_map.
  - change (Pandas.zip_arrays (a :: b :: rest))
      with (zip_with cons a (Pandas.zip_arrays (b :: rest))).
    rewrite length_zip_with, IH by done. lia.
Qed.

(** A frame has as many records as its columns are long, and none when
    it has no column. *)
Lemma to_dict_records_length (D : Pandas.DataFrame) (n : nat) :
  Forall (fun c => length (Pandas.to_list c.2) = n) (Pandas.cols D) ->
  length (Pandas.to_dict_records D) = match Pandas.cols D with [] => 0%nat | _ => n end.
Proof.
  intros H. unfold Pandas.to_dict_records. rewrite length_map.
  destruct (Pandas.cols D) as [|c cs] eqn:E; [done |].
  apply zip_arrays_length; [done |]. by apply Forall_map.
Qed.

Lemma to_dict_records_length_cols (D : Pandas.DataFrame) (n : nat) :
  Pandas.cols D <> [] ->
  Forall (fun c => length (Pandas.to_list c.2) = n) (Pandas.cols D) ->
  length (Pandas.to_dict_records D) = n.
Proof.
  intros Hne H. rewrite (to_dict_records_length D n H). by destruct (Pandas.cols D).
Qed.

(** Record [i] binds the labels, in their order, to the cells of row [i]. *)
Lemma to_dict_records_lookup (D : Pandas.DataFrame) (i : nat) (rec : Py.obj) :
  NoDup (Pandas.columns D) ->
  Pandas.to_dict_records D !! i = Some rec ->
  exists row, Forall2 (fun c x => Pandas.to_list c.2 !! i = Some x) (Pandas.cols D) row
              /\ rec = Py.Dict (zip (Pandas.columns D) row).
Proof.
  intros Hn. unfold Pandas.to_dict_records. rewrite list_lookup_fmap.
  destruct (Pandas.cols D) as [|c cs] eqn:E; [done |]. rewrite <- E.
  rewrite zip_arrays_lookup by (rewrite E; discriminate).
  destruct (mapM _ _) as [row|] eqn:Hrow; [|done]. simpl. intros [= <-].
  apply mapM_Some in Hrow. apply Forall2_fmap_l in Hrow.
  exists row. split; [exact Hrow |].
  apply dict_of_nodup. rewrite fst_zip; [exact Hn |].
  apply Forall2_length in Hrow. unfold Pandas.columns. rewrite length_fmap. lia.
Qed.

Lemma json_like_record (labels : list string) (row : list Py.obj) :
  length labels = length row ->
  json_like (Py.Dict (zip labels row)) = forallb json_like row.
Proof.
  revert row. induction labels as [|k labels IH]; intros [|x row] H; try done.
  change (json_like (Py.Dict (zip (k :: labels) (x :: row))))
    with (json_like x && json_like (Py.Dict (zip labels row))).
  simpl in H. rewrite IH by lia. reflexivity.
Qed.

(** The records can be encoded exactly when every cell can. *)
Lemma records_json_like (D : Pandas.DataFrame) (n : nat) :
  NoDup (Pandas.columns D) ->
  Forall (fun c => length (Pandas.to_list c.2) = n) (Pandas.cols D) ->
  forallb json_like (Pandas.to_dict_records D) = true
  <-> (Pandas.cols D = [] \/
       Forall (fun c => forallb json_like (Pandas.to_list c.2) = true) (Pandas.cols D)).
Proof.
  intros Hn Hlen. rewrite forallb_Forall. split.
  - intros Hrec.
    assert (Hcase : Pandas.cols D = [] \/ Pandas.cols D <> [])
      by (destruct (Pandas.cols D); [by left | by right]).
    destruct Hcase as [E|Hne]; [by left | right].
    apply Forall_forall. intros c Hc. apply forallb_Forall, Forall_lookup.
    intros i x Hx.
    assert (Hi : (i < length (Pandas.to_dict_records D))%nat).
    { rewrite (to_dict_records_length_cols D n Hne Hlen).
      rewrite Forall_forall in Hlen. rewrite <- (Hlen c Hc). by eapply lookup_lt_Some. }
    apply lookup_lt_is_Some in Hi as [rec Hrec_i].
    destruct (to_dict_records_lookup D i rec Hn Hrec_i) as (row & Hrow & ->).
    rewrite Forall_lookup in Hrec. specialize (Hrec _ _ Hrec_i). cbv beta in Hrec.
    rewrite json_like_record in Hrec
      by (apply Forall2_length in Hrow; unfold Pandas.columns; rewrite length_fmap; lia).
    apply list_elem_of_lookup_1 in Hc as [j Hj].
    destruct (Forall2_lookup_l _ _ _ _ _ Hrow Hj) as (y & Hy & Hcy).
    rewrite Hx in Hcy. injection Hcy as <-.
    rewrite forallb_Forall, Forall_lookup in Hrec. by eapply Hrec.
  - intros Hcells. apply Forall_lookup. intros i rec Hrec_i.
    destruct (to_dict_records_lookup D i rec Hn Hrec_i) as (row & Hrow & ->).
    rewrite json_like_record
      by (apply Forall2_length in Hrow; unfold Pandas.columns; rewrite length_fmap; lia).
    destruct Hcells as [E|Hcells].
    { rewrite E in Hrow. by apply Forall2_nil_inv_l in Hrow as ->. }
    apply forallb_Forall, Forall_lookup. intros j y Hy.
    destruct (Forall2_lookup_r _ _ _ _ _ Hrow Hy) as (c & Hc & Hcy).
    rewrite Forall_lookup in Hcells. specialize (Hcells _ _ Hc). simpl in Hcells.
    rewrite forallb_Forall, Forall_lookup in Hcells. by eapply Hcells.
Qed.

Lemma cell_index_in_frame (d : Pandas.DataFrame) (j : nat) (col : string)
    (s : Pandas.Series) (i : nat) (x : Py.obj) :
  wf_frame d -> Pandas.cols d !! j = Some (col, s) -> Pandas.to_list s !! i = Some x ->
  (i < Pandas.index_len d)%nat.
Proof.
  intros [_ Hlen] Hj Hx. rewrite Forall_forall in Hlen.
  specialize (Hlen _ ltac:(eapply list_elem_of_lookup_2; exact Hj)).
  simpl in Hlen. rewrite <- Hlen. eapply lookup_lt_Some; exact Hx.
Qed.

Section Script.
Variable timedelta_repr : list Z -> Z -> string.

(** After normalisation a column can be encoded exactly when it was
    exportable. *)
Lemma normal_col_json_like (keeps : bool) (c : string * Pandas.Series) :
  forallb json_like (Pandas.to_list (normal_col timedelta_repr keeps c).2)
  = exportable c.2.
Proof.
  destruct c as [k [v|v|v|v|v|v]]; simpl.
  - induction v as [|ns v IH]; [done |]. simpl. rewrite IH.
    by destruct (ns =? Pandas.iNaT).
  - generalize v at 1. intros v0.
    induction v as [|ns v IH]; [done |]. simpl. by rewrite IH.
  - destruct keeps; simpl.
    + induction v as [|f v IH]; [done |]. simpl. by rewrite IH.
    + induction v as [|f v IH]; [done |]. simpl. rewrite IH.
      unfold Pandas.none_if_null. simpl. by destruct (PrimFloat.is_nan f).
  - induction v as [|z v IH]; [done |]. simpl. by rewrite IH.
  - induction v as [|b v IH]; [done |]. simpl. by rewrite IH.
  - induction v as [|o v IH]; [done |]. simpl. by rewrite IH.
Qed.

(** The frame the normaliser turns into records, for a well-formed frame. *)
Lemma normal_frame_wf (keeps : bool) (d : Pandas.DataFrame) :
  wf_frame d ->
  let D := Pandas.mkDF (Pandas.index_len d)
             (map (normal_col timedelta_repr keeps) (Pandas.cols d)) in
  Pandas.columns D = Pandas.columns d
  /\ Forall (fun c => length (Pandas.to_list c.2) = Pandas.index_len d) (Pandas.cols D).
Proof.
  intros [Hn Hlen]. split.
  - unfold Pandas.columns. simpl. by rewrite <- list_fmap_compose.
  - simpl. apply Forall_map. eapply Forall_impl; [exact Hlen |].
    intros c Hc. simpl. by rewrite to_list_where_length, to_list_stringify_length.
Qed.

End Script.
End RecordFacts.

(** * Making the output directory *)

Module DirectoryFacts.
Import PyStr PathLib DataReader Spec Conditions PathFacts WriterFacts StageFacts.

Lemma forallb_agree {A} (f g : A -> bool) (l : list A) :
  (forall x, f x = g x) -> forallb f l = forallb g l.
Proof. intros H. induction l as [|x l IH]; simpl; [done | by rewrite H, IH]. Qed.

(** One turn of the loop: where the directory is there or can be made it
    is there afterwards and no other path has changed; otherwise the turn
    raises and changes nothing. *)
Lemma mkdir_step_cases (q : Path) (w : World) :
  (can_make w q = true
   /\ exists fs, mkdir_step q w = (Ret tt, set_fs fs w)
                 /\ fs !! str q = Some Dir
                 /\ (forall k, k <> str q -> fs !! k = w_fs w !! k)
                 /\ dirs_added (w_fs w) fs)
  \/ (can_make w q = false /\ exists e, mkdir_step q w = (Raise e, set_fs (w_fs w) w)).
Proof.
  unfold can_make, mkdir_step, bind, gets, modify, ret, raise. simpl.
  destruct (w_fs w !! str q) as [[c|]|] eqn:E; simpl.
  - right. split; [done |]. rewrite set_fs_same. by eexists.
  - left. split; [done |]. exists (w_fs w). rewrite set_fs_same.
    repeat split; try done. apply dirs_added_refl.
  - destruct (w_denied w (str q)) as [e|]; simpl.
    + right. split; [done |]. rewrite set_fs_same. by eexists.
    + left. split; [done |]. eexists. split; [reflexivity |]. repeat split.
      * apply lookup_insert_eq.
      * intros k Hk. by rewrite lookup_insert_ne.
      * intros k. destruct (decide (k = str q)) as [->|].
        -- right. by rewrite lookup_insert_eq.
        -- left. by rewrite lookup_insert_ne.
Qed.

(** Making one directory does not change which others can be made. *)
Lemma can_make_after_step (q q' : Path) (w : World) (fs : gmap string node) :
  can_make w q = true -> fs !! str q = Some Dir ->
  (forall k, k <> str q -> fs !! k = w_fs w !! k) ->
  can_make (set_fs fs w) q' = can_make w q'.
Proof.
  intros Hq Hdir Hother. unfold can_make in *. simpl.
  destruct (decide (str q' = str q)) as [E|Hne].
  - rewrite E, Hdir. destruct (w_fs w !! str q) as [[c|]|]; done.
  - by rewrite Hother.
Qed.

(** The loop of [mkdir_parents]: it only adds directories, only at the
    paths it goes through, and it runs to its end exactly when each of
    them is there or can be made. *)
Lemma mkdir_loop_cases (qs : list Path) (w : World) :
  exists r fs,
    for_each qs mkdir_step w = (r, set_fs fs w)
    /\ dirs_added (w_fs w) fs
    /\ (forall k, k ∉ str <$> qs -> fs !! k = w_fs w !! k)
    /\ (if forallb (can_make w) qs then r = Ret tt else exists e, r = Raise e).
Proof.
  revert w. induction qs as [|q qs IH]; intros w.
  - exists (Ret tt), (w_fs w). rewrite set_fs_same. repeat split; try done.
    apply dirs_added_refl.
  - simpl. unfold bind.
    destruct (mkdir_step_cases q w) as [(Hq & fs1 & -> & Hdir & Hother & Hadd)
                                        | (Hq & e & ->)]; rewrite Hq; simpl.
    + destruct (IH (set_fs fs1 w)) as (r & fs2 & E2 & Hadd2 & Hother2 & Hr).
      exists r, fs2. rewrite E2. simpl in *. repeat split.
      * eapply dirs_added_trans; eauto.
      * intros k Hk. apply not_elem_of_cons in Hk as [? ?].
        rewrite Hother2 by done. by apply Hother.
      * rewrite (forallb_agree _ (can_make w)) in Hr; [exact Hr |].
        intros q'. by apply (can_make_after_step q).
    + exists (Raise e), (w_fs w). repeat split; try done; [apply dirs_added_refl | by eexists].
Qed.

Section Script.
Variable file__ : string.

Lemma OUTPUT_DIR_in_lineage : OUTPUT_DIR file__ ∈ lineage (OUTPUT_DIR file__).
Proof.
  unfold lineage. apply list_elem_of_fmap. exists (tail (OUTPUT_DIR file__)).
  split; [by destruct (OUTPUT_DIR file__) | apply prefixes_self, OUTPUT_DIR_tail].
Qed.

(** The output file is none of the directories on the way to it. *)
Lemma output_path_not_in_lineage :
  str (output_path file__) ∉ str <$> lineage (OUTPUT_DIR file__).
Proof.
  intros (q & Hq & Hin)%list_elem_of_fmap.
  eapply (child_not_in_lineage (OUTPUT_DIR file__) "raw_data.json");
    [apply OUTPUT_DIR_tail | done | exact Hin |].
  by rewrite <- output_path_eq.
Qed.

(** [ensure_output_dir], case by case. *)
Lemma ensure_output_dir_cases (w : World) :
  exists r fs out,
    ensure_output_dir file__ w = (r, upd fs (w_heap w) (w_stdout w ++ out) w)
    /\ dirs_added (w_fs w) fs
    /\ (forall k, k ∉ str <$> lineage (OUTPUT_DIR file__) -> fs !! k = w_fs w !! k)
    /\ (is_Some (w_fs w !! str (OUTPUT_DIR file__)) -> fs = w_fs w /\ out = [])
    /\ (if can_ensure file__ w then r = Ret true else exists e, r = Raise e).
Proof.
  unfold can_ensure, ensure_output_dir, exists_, bind, gets.
  destruct (bool_decide _) eqn:Hex; cbn [negb orb].
  - exists (Ret true), (w_fs w), []. rewrite app_nil_r, upd_same.
    repeat split; try done. apply dirs_added_refl.
  - apply bool_decide_eq_false in Hex.
    change (mkdir_parents (OUTPUT_DIR file__) w)
      with (for_each (lineage (OUTPUT_DIR file__)) mkdir_step w).
    destruct (mkdir_loop_cases (lineage (OUTPUT_DIR file__)) w)
      as (r & fs & -> & Hadd & Hother & Hr).
    fold (dir_ready w (OUTPUT_DIR file__)) in Hr.
    destruct (dir_ready w (OUTPUT_DIR file__)).
    + subst r. simpl. exists (Ret true), fs. eexists. split; [reflexivity |].
      repeat split; try done.
    + destruct Hr as [e ->]. simpl. exists (Raise e), fs, [].
      rewrite app_nil_r. repeat split; try done. by eexists.
Qed.

(** What [ensure_output_dir] does to the files does not depend on what
    is on the console. *)
Lemma ensured_cases (w : World) (r : outcome bool) (fs1 : gmap string node) :
  ensured file__ w r fs1 ->
  dirs_added (w_fs w) fs1
  /\ (forall k, k ∉ str <$> lineage (OUTPUT_DIR file__) -> fs1 !! k = w_fs w !! k)
  /\ (if can_ensure file__ w then r = Ret true else exists e, r = Raise e).
Proof.
  intros (out & out1 & E).
  destruct (ensure_output_dir_cases (set_stdout out w)) as (r' & fs' & o' & E' & H1 & H2 & _ & H3).
  rewrite E in E'. injection E' as -> -> _.
  change (can_ensure file__ (set_stdout out w)) with (can_ensure file__ w) in H3.
  done.
Qed.

End Script.
End DirectoryFacts.

(** * The writer, with what it prints *)

Module SaveFacts.
Import PyStr PathLib DataReader Spec Conditions.
Import PathFacts NormalizerFacts WriterFacts EnvelopeFacts EncoderFacts RecordFacts.

Section Script.
Variable file__ : string.
Variable float_repr : float -> string.

Local Opaque json_dump_to.

(** [save_to_json], case by case, with the lines it prints. *)
Lemma save_to_json_run (data : list Py.obj) (filename : string) (w : World) :
  exists e_open,
    save_to_json file__ float_repr data filename w =
    if negb (str_in "output" (str (truediv (OUTPUT_DIR file__) filename))) then
      (Ret false,
       set_stdout (w_stdout w ++ [[Txt "📌"; Txt " "; Txt "حفظ البيانات..."];
                                  [Txt "❌"; Txt " ";
                                   Txt "خطأ: محاولة الحفظ خارج مجلد output!"]]) w)
    else if writable w (truediv (OUTPUT_DIR file__) filename) then
      match (Json.dump float_repr (output_data (w_now w) data)).2 with
      | None =>
          (Ret true,
           set_stdout
             (w_stdout w ++ [[Txt "📌"; Txt " "; Txt "حفظ البيانات..."];
                             [Txt "✅"; Txt " "; Txt "تم الحفظ: ";
                              Txt (str (truediv (OUTPUT_DIR file__) filename)); Txt " (";
                              KB (Z.of_nat (String.length
                                    (Json.dump float_repr (output_data (w_now w) data)).1));
                              Txt " KB)"]])
             (set_fs (<[str (truediv (OUTPUT_DIR file__) filename) :=
                          File (Json.dump float_repr (output_data (w_now w) data)).1]>
                        (w_fs w)) w))
      | Some e =>
          (Ret false,
           set_stdout
             (w_stdout w ++ [[Txt "📌"; Txt " "; Txt "حفظ البيانات..."];
                             [Txt "❌"; Txt " "; Txt "خطأ في الحفظ: "; Txt (Py.exn_msg e)]])
             (set_fs (<[str (truediv (OUTPUT_DIR file__) filename) :=
                          File (Json.dump float_repr (output_data (w_now w) data)).1]>
                        (w_fs w)) w))
      end
    else
      (Ret false,
       set_stdout (w_stdout w ++ [[Txt "📌"; Txt " "; Txt "حفظ البيانات..."];
                                  [Txt "❌"; Txt " "; Txt "خطأ في الحفظ: ";
                                   Txt (Py.exn_msg e_open)]]) w).
Proof.
  set (p := truediv (OUTPUT_DIR file__) filename).
  remember (Json.dump float_repr (output_data (w_now w) data)) as enc eqn:Henc.
  unfold save_to_json, bind, print_msg, print, modify, ret. simpl. fold p.
  destruct (str_in "output" (str p)); simpl.
  2: { exists (Py.mkExn "" ""). unfold set_stdout. simpl. rewrite <- app_assoc. reflexivity. }
  unfold try_except, bind, gets. simpl.
  match goal with |- context [json_dump_to _ _ _ ?w'] => set (w1 := w') end.
  change (writable w p) with (writable w1 p).
  destruct (writable w1 p) eqn:Hw.
  - exists (Py.mkExn "" ""). rewrite json_dump_to_writes by exact Hw.
    rewrite <- Henc. destruct enc as [t [e|]]; simpl.
    + unfold set_stdout. simpl. rewrite <- app_assoc. reflexivity.
    + unfold st_size, bind, gets, ret. simpl. rewrite lookup_insert_eq. simpl.
      unfold set_stdout. simpl. rewrite <- app_assoc. reflexivity.
  - destruct (json_dump_to_raises float_repr (output_data (w_now w) data) p w1 Hw) as [e ->].
    exists e. simpl. unfold set_stdout. simpl. rewrite <- app_assoc. reflexivity.
Qed.

(** The encoding of the envelope ends as the encoding of the records
    does. *)
Lemma dump_succeeds_iff (now : string) (data : list Py.obj) :
  succeeded (Json.dump float_repr (output_data now data)) = forallb json_like data.
Proof.
  rewrite dump_output_data. unfold succeeded, data_encoding. cbn [fst snd].
  pose proof (iterencode_ok float_repr (Py.List data) 1) as H.
  change (json_like (Py.List data)) with (forallb json_like data) in H.
  destruct (Json.iterencode float_repr (Py.List data) 1).2 as [e|],
    (forallb json_like data); try reflexivity.
  - destruct H as [_ H]. by specialize (H eq_refl).
  - destruct H as [H _]. by specialize (H eq_refl).
Qed.

(** The records of a well-formed frame: there is one per row, and they
    can be encoded exactly when the columns of the frame are exportable. *)
Lemma normalized_records_exportable (timedelta_repr : list Z -> Z -> string)
    (pd : Pandas.lib) (d : Pandas.DataFrame) :
  wf_frame d ->
  exists records,
    normalized_records timedelta_repr pd d = Ret records
    /\ length records
       = match Pandas.cols d with [] => 0%nat | _ => Pandas.index_len d end
    /\ (forallb json_like records = true
        <-> Forall (fun c => exportable c.2 = true) (Pandas.cols d)).
Proof.
  intros Hwf. rewrite normalized_records_wf by apply Hwf.
  destruct (normal_frame_wf timedelta_repr (Pandas.where_keeps_dtype pd) d Hwf)
    as [Hcols Hlen].
  set (D := Pandas.mkDF _ _) in *.
  eexists. split; [reflexivity |]. split.
  - rewrite (to_dict_records_length D _ Hlen). subst D. simpl.
    by destruct (Pandas.cols d).
  - rewrite (records_json_like D (Pandas.index_len d));
      [| rewrite Hcols; apply Hwf | exact Hlen].
    subst D. simpl. rewrite Forall_map. split.
    + intros [E|H].
      * apply map_eq_nil in E. rewrite E. constructor.
      * eapply Forall_impl; [exact H |]. intros c Hc. cbv beta in Hc.
        by rewrite normal_col_json_like in Hc.
    + intros H. right. eapply Forall_impl; [exact H |]. intros c Hc. cbv beta.
      by rewrite normal_col_json_like.
Qed.

End Script.
End SaveFacts.

(** * Whole seconds *)

Module SecondsFacts.
Import Pandas.

Section Same_second.
Variables ns ns' : Z.
Hypothesis same_second : ns / 1000000000 = ns' / 1000000000.

Lemma same_day : ns / ns_per_day = ns' / ns_per_day.
Proof.
  unfold ns_per_day. revert same_second. clear. intros H.
  Z.to_euclidean_division_equations; lia.
Qed.

Lemma same_hour :
  (ns mod ns_per_day) / (1000 * 1000 * 1000 * 60 * 60)
  = (ns' mod ns_per_day) / (1000 * 1000 * 1000 * 60 * 60).
Proof.
  unfold ns_per_day. revert same_second. clear. intros H.
  Z.to_euclidean_division_equations; lia.
Qed.

Lemma same_minute :
  ((ns mod ns_per_day) mod (1000 * 1000 * 1000 * 60 * 60)) / (1000 * 1000 * 1000 * 60)
  = ((ns' mod ns_per_day) mod (1000 * 1000 * 1000 * 60 * 60)) / (1000 * 1000 * 1000 * 60).
Proof.
  unfold ns_per_day. revert same_second. clear. intros H.
  Z.to_euclidean_division_equations; lia.
Qed.

Lemma same_sec :
  (((ns mod ns_per_day) mod (1000 * 1000 * 1000 * 60 * 60)) mod (1000 * 1000 * 1000 * 60))
    / (1000 * 1000 * 1000)
  = (((ns' mod ns_per_day) mod (1000 * 1000 * 1000 * 60 * 60)) mod (1000 * 1000 * 1000 * 60))
      / (1000 * 1000 * 1000).
Proof.
  unfold ns_per_day. revert same_second. clear. intros H.
  Z.to_euclidean_division_equations; lia.
Qed.

(** The calendar breakdown looks at whole seconds only. *)
Lemma to_datetimestruct_same_second : to_datetimestruct ns = to_datetimestruct ns'.
Proof.
  unfold to_datetimestruct. cbv zeta.
  rewrite same_day, same_hour, same_minute, same_sec. reflexivity.
Qed.

End Same_second.
End SecondsFacts.

(** * The guard in either flavour *)

Module FlavourFacts.
Import PyStr PathFacts.
Local Arguments String.append !_ _ / : simpl nomatch.

(** A text that ends in joined components shows each of them. *)
Lemma str_in_joined (pre sep y : string) (xs zs : list string) :
  str_in y (or_else (pre +:+ join sep (xs ++ y :: zs)) ".") = true.
Proof.
  destruct (join_middle sep xs y zs) as [a [b ->]].
  rewrite <- append_assoc.
  pose proof (str_in_append y (pre +:+ a) b) as H.
  unfold or_else. destruct ((pre +:+ a) +:+ y +:+ b); simpl; [| exact H].
  destruct y; [reflexivity | simpl in H; discriminate].
Qed.

Lemma char_is_head (c x : ascii) (s : string) :
  WindowsPath.char_is 0 (String x s) c = Ascii.eqb x c.
Proof. reflexivity. Qed.

Lemma char_is_next (n : nat) (c x : ascii) (s : string) :
  WindowsPath.char_is (S n) (String x s) c = WindowsPath.char_is n s c.
Proof. reflexivity. Qed.

(** A name that is unanchored on Windows has neither drive nor root. *)
Lemma parse_unanchored (filename : string) :
  Flavours.unanchored Flavours.windows filename = true ->
  exists t, WindowsPath.parse filename = WindowsPath.mkPath "" "" t.
Proof.
  destruct filename as [|a s]; [by exists [] |].
  unfold Flavours.unanchored. rewrite !andb_true_iff, !negb_true_iff.
  rewrite !char_is_head, char_is_next. intros [[Hsep Halt] Hcolon].
  unfold WindowsPath.parse. cbn [is_empty WindowsPath.str_replace].
  rewrite Halt.
  set (rest := WindowsPath.str_replace WindowsPath.altsep WindowsPath.sep s).
  assert (Hrest : WindowsPath.char_is 0 rest ":" = false).
  { subst rest. destruct s as [|b s]; [reflexivity |].
    rewrite char_is_head in Hcolon. cbn [WindowsPath.str_replace]. rewrite char_is_head.
    destruct (Ascii.eqb b WindowsPath.altsep); [reflexivity | exact Hcolon]. }
  unfold WindowsPath.splitroot.
  rewrite !char_is_head, Hsep, !andb_false_r.
  rewrite !char_is_head, Hsep, !andb_false_r. cbn [andb].
  unfold WindowsPath.split_drive_root.
  rewrite char_is_next, Hrest, char_is_head, Hsep. cbn [andb].
  eexists. reflexivity.
Qed.

Section Script.
Variable lower : string -> string.
Variable file__ : string.

Lemma OUTPUT_DIR_on_windows_eq :
  OnWindows.OUTPUT_DIR lower file__
  = WindowsPath.mkPath (WindowsPath.drive (OnWindows.PROJECT_DIR file__))
      (WindowsPath.root (OnWindows.PROJECT_DIR file__))
      (WindowsPath.tail (OnWindows.PROJECT_DIR file__) ++ ["output"]).
Proof. reflexivity. Qed.

(** On Windows the text of [OUTPUT_DIR / filename] shows [output] for
    every unanchored file name. *)
Lemma guard_passes_on_windows (filename : string) :
  Flavours.unanchored Flavours.windows filename = true ->
  str_in "output"
    (WindowsPath.str (WindowsPath.truediv lower (OnWindows.OUTPUT_DIR lower file__) filename))
  = true.
Proof.
  intros H. destruct (parse_unanchored filename H) as [t Ht].
  rewrite OUTPUT_DIR_on_windows_eq. unfold WindowsPath.truediv. rewrite Ht.
  cbn [WindowsPath.root WindowsPath.drive WindowsPath.tail is_empty negb].
  unfold WindowsPath.str. cbn [WindowsPath.root WindowsPath.drive WindowsPath.tail].
  rewrite <- app_assoc, <- append_assoc. cbn [app]. apply str_in_joined.
Qed.

End Script.
End FlavourFacts.


(** * The properties of the script *)

Module Claims.
Import PyStr PathLib DataReader Spec Examples.
Import PathFacts CalendarFacts NormalizerFacts WriterFacts EnvelopeFacts StageFacts MainFacts.

(** ** The guard of the writer *)

(** C2. When the text of the output path does not contain [output],
    [save_to_json] returns [False] and leaves the files as they were. *)
Theorem save_to_json_guard_refuses (file__ : string) (float_repr : float -> string)
    (data : list Py.obj) (filename : string) (w : World) :
  str_in "output" (str (truediv (OUTPUT_DIR file__) filename)) = false ->
  exists w', save_to_json file__ float_repr data filename w = (Ret false, w')
             /\ w_fs w' = w_fs w.
Proof.
  intros H. unfold save_to_json, bind. simpl. rewrite H. simpl.
  eexists. split; reflexivity.
Qed.

Lemma save_to_json_guard_refuses_witness :
  exists w',
    save_to_json script_file some_float_repr [] "/tmp/raw_data.json"
      (world_with empty_sheet "2026-01-24T10:00:00") = (Ret false, w')
    /\ w_fs w' = w_fs (world_with empty_sheet "2026-01-24T10:00:00").
Proof.
  apply (save_to_json_guard_refuses script_file some_float_repr [] "/tmp/raw_data.json").
  vm_compute. reflexivity.
Defined.

(** C3, as stated, fails: an absolute file name replaces the output
    directory altogether, the text of the path has no [output] in it, and
    the writer refuses. *)
Lemma guard_refuses_absolute_filename :
  str (truediv (OUTPUT_DIR script_file) "/tmp/raw_data.json") = "/tmp/raw_data.json"
  /\ str_in "output" (str (truediv (OUTPUT_DIR script_file) "/tmp/raw_data.json")) = false
  /\ (save_to_json script_file some_float_repr [] "/tmp/raw_data.json"
        (world_with empty_sheet "2026-01-24T10:00:00")).1 = Ret false
  /\ ~ (forall file__ filename,
          str_in "output" (str (truediv (OUTPUT_DIR file__) filename)) = true).
Proof.
  repeat split; try (vm_compute; reflexivity).
  intros H. specialize (H script_file "/tmp/raw_data.json"). vm_compute in H. discriminate.
Qed.

(** C3, amended.  A file name without an anchor of its own passes the
    check, wherever the script lies and whatever the name holds besides,
    [..] included.  On POSIX that is a name that does not begin with a
    slash; on Windows, a name that begins with neither a backslash nor a
    slash, so that it has no root, and has no colon in second place, so
    that it has no drive.  [save_to_json] then does not refuse: the line
    of the refusal is not among the lines it prints. *)
Theorem guard_passes_relative_filename (lower : string -> string) (fl : Flavours.flavour)
    (file__ filename : string) :
  Flavours.unanchored fl filename = true ->
  Flavours.guard_refuses lower file__ fl filename = false
  /\ (fl = Flavours.posix ->
      forall (float_repr : float -> string) (data : list Py.obj) (w : World),
      exists r w' out,
        save_to_json file__ float_repr data filename w = (r, w')
        /\ w_stdout w' = w_stdout w ++ out
        /\ [Txt "❌"; Txt " "; Txt "خطأ: محاولة الحفظ خارج مجلد output!"] ∉ out).
Proof.
  intros H. split.
  - unfold Flavours.guard_refuses, Flavours.output_path_text. destruct fl.
    + rewrite guard_passes; [reflexivity |]. by apply negb_true_iff.
    + by rewrite FlavourFacts.guard_passes_on_windows.
  - intros -> float_repr data w.
    destruct (SaveFacts.save_to_json_run file__ float_repr data filename w) as [e_open E].
    rewrite guard_passes in E by (by apply negb_true_iff). cbn [negb] in E.
    rewrite E.
    destruct (writable w _); [destruct (Json.dump _ _).2 |];
      (do 3 eexists; split; [reflexivity |]; split; [reflexivity |]);
      intros Hin;
      repeat (apply elem_of_cons in Hin as [Hin|Hin]; [discriminate Hin |]);
      by apply elem_of_nil in Hin.
Qed.

Lemma guard_passes_relative_filename_witness :
  Flavours.guard_refuses Cases.ascii_lower script_file Flavours.posix
    "../../etc/raw_data.json" = false
  /\ Flavours.guard_refuses Cases.ascii_lower Cases.script_file_on_windows Flavours.windows
       "..\..\etc\raw_data.json" = false.
Proof.
  split.
  - apply (guard_passes_relative_filename Cases.ascii_lower Flavours.posix script_file
             "../../etc/raw_data.json").
    reflexivity.
  - apply (guard_passes_relative_filename Cases.ascii_lower Flavours.windows
             Cases.script_file_on_windows "..\..\etc\raw_data.json").
    reflexivity.
Defined.

(** On Windows a file name with a root or with a drive of its own
    replaces the output directory, although it need not begin with a
    slash; the text of the path then has no [output] in it, and the guard
    refuses. *)
Lemma anchored_names_are_refused_on_windows :
  Flavours.output_path_text Cases.ascii_lower Cases.script_file_on_windows Flavours.windows
    "raw_data.json" = "C:\jedco\output\raw_data.json"
  /\ Flavours.output_path_text Cases.ascii_lower Cases.script_file_on_windows
       Flavours.windows "D:raw.json" = "D:raw.json"
  /\ Flavours.output_path_text Cases.ascii_lower Cases.script_file_on_windows
       Flavours.windows "\tmp\raw.json" = "C:\tmp\raw.json"
  /\ Flavours.output_path_text Cases.ascii_lower Cases.script_file_on_windows
       Flavours.windows "C:/tmp/raw.json" = "C:\tmp\raw.json"
  /\ forallb (Flavours.guard_refuses Cases.ascii_lower Cases.script_file_on_windows
                Flavours.windows)
       ["D:raw.json"; "\tmp\raw.json"; "C:/tmp/raw.json"; "/tmp/raw.json"] = true.
Proof. repeat split; vm_compute; reflexivity. Qed.

(** ** The envelope *)

(** C4. In every export document [save_to_json] reports written, the
    [columns] field of the metadata is the fixed list of the sixteen
    expected labels, whatever the records hold. *)
Theorem written_columns_are_expected (file__ : string) (float_repr : float -> string)
    (data : list Py.obj) (filename : string) (w w' : World) :
  save_to_json file__ float_repr data filename w = (Ret true, w') ->
  exists doc meta,
    w_fs w' !! str (truediv (OUTPUT_DIR file__) filename)
      = Some (File (Json.dump float_repr doc).1)
    /\ (Json.dump float_repr doc).2 = None
    /\ Py.dict_get "metadata" doc = Some meta
    /\ Py.dict_get "columns" meta = Some (Py.List (map Py.Str EXPECTED_COLUMNS))
    /\ length EXPECTED_COLUMNS = 16%nat.
Proof.
  intros H. destruct (save_to_json_spec file__ float_repr data filename w) as [out E].
  rewrite H in E. simpl in E.
  destruct (negb _); [done |]. destruct (writable _ _); [|done].
  injection E as Hs ->. exists (output_data (w_now w) data). eexists.
  simpl. rewrite lookup_insert_eq. repeat split.
  unfold succeeded in Hs. by destruct (_.2).
Qed.

Lemma written_columns_are_expected_witness :
  exists doc meta,
    w_fs (save_to_json script_file some_float_repr [] "raw_data.json"
            (world_with empty_sheet "2026-01-24T10:00:00")).2
      !! str (truediv (OUTPUT_DIR script_file) "raw_data.json")
      = Some (File (Json.dump some_float_repr doc).1)
    /\ (Json.dump some_float_repr doc).2 = None
    /\ Py.dict_get "metadata" doc = Some meta
    /\ Py.dict_get "columns" meta = Some (Py.List (map Py.Str EXPECTED_COLUMNS))
    /\ length EXPECTED_COLUMNS = 16%nat.
Proof.
  apply (written_columns_are_expected script_file some_float_repr [] "raw_data.json"
           (world_with empty_sheet "2026-01-24T10:00:00")).
  vm_compute. reflexivity.
Defined.

(** C5. In every export document [save_to_json] reports written,
    [total_records] is the length of the [data] array, which holds the
    records the writer was given. *)
Theorem total_records_is_length_of_data (file__ : string) (float_repr : float -> string)
    (data : list Py.obj) (filename : string) (w w' : World) :
  save_to_json file__ float_repr data filename w = (Ret true, w') ->
  exists doc meta n items,
    w_fs w' !! str (truediv (OUTPUT_DIR file__) filename)
      = Some (File (Json.dump float_repr doc).1)
    /\ (Json.dump float_repr doc).2 = None
    /\ Py.dict_get "metadata" doc = Some meta
    /\ Py.dict_get "total_records" meta = Some (Py.Int n)
    /\ Py.dict_get "data" doc = Some (Py.List items)
    /\ n = Py.len items /\ items = data.
Proof.
  intros H. destruct (save_to_json_spec file__ float_repr data filename w) as [out E].
  rewrite H in E. simpl in E.
  destruct (negb _); [done |]. destruct (writable _ _); [|done].
  injection E as Hs ->. exists (output_data (w_now w) data). do 3 eexists.
  simpl. rewrite lookup_insert_eq. repeat split.
  unfold succeeded in Hs. by destruct (_.2).
Qed.

Lemma total_records_is_length_of_data_witness :
  exists doc meta n items,
    w_fs (save_to_json script_file some_float_repr [Py.Dict [("م", Py.Int 1)]] "raw_data.json"
            (world_with timed_sheet "2026-01-24T10:00:00")).2
      !! str (truediv (OUTPUT_DIR script_file) "raw_data.json")
      = Some (File (Json.dump some_float_repr doc).1)
    /\ (Json.dump some_float_repr doc).2 = None
    /\ Py.dict_get "metadata" doc = Some meta
    /\ Py.dict_get "total_records" meta = Some (Py.Int n)
    /\ Py.dict_get "data" doc = Some (Py.List items)
    /\ n = Py.len items /\ items = [Py.Dict [("م", Py.Int 1)]].
Proof.
  apply (total_records_is_length_of_data script_file some_float_repr
           [Py.Dict [("م", Py.Int 1)]] "raw_data.json"
           (world_with timed_sheet "2026-01-24T10:00:00")).
  vm_compute. reflexivity.
Defined.

(** ** The normaliser *)

(** C6, as stated, fails: a missing value in a date column is exported as
    [None], which is no formatted text. *)
Lemma missing_date_is_not_formatted :
  Pandas.cols timed_sheet !! 1%nat
    = Some ("وقت الإقلاع", Pandas.Datetime64 [1769250600000000000; Pandas.iNaT])
  /\ (convert_to_json_safe some_timedelta_repr 1%positive (world_holding true timed_sheet)).1
     = Ret [Py.Dict [("م", Py.Int 1);
                     ("وقت الإقلاع", Py.Str "2026-01-24 10:30:00");
                     ("وقت وصول الحافلة", Py.Str "NaT")];
            Py.Dict [("م", Py.Int 2);
                     ("وقت الإقلاع", Py.None_);
                     ("وقت وصول الحافلة", Py.Str "0 days 01:30:00")]]
  /\ formatted_value Py.None_ = false.
Proof. repeat split; vm_compute; reflexivity. Qed.

(** C6, amended.  In a well-formed frame, every value that is not missing
    in a column of dtype [datetime64[ns]] is exported as a text of the
    form [YYYY-MM-DD HH:MM:SS]: record [i] holds it under the label of the
    column. *)
Theorem datetime_cells_are_formatted (timedelta_repr : list Z -> Z -> string) (w : World)
    (df : loc) (d : Pandas.DataFrame) (pd : Pandas.lib) (j : nat) (col : string)
    (v : list Z) (i : nat) (ns : Z) :
  w_heap w !! df = Some d -> w_pandas w = Some pd -> wf_frame d ->
  Pandas.cols d !! j = Some (col, Pandas.Datetime64 v) ->
  v !! i = Some ns -> ns <> Pandas.iNaT -> Pandas.int64_min <= ns <= Pandas.int64_max ->
  exists records w' rec value,
    convert_to_json_safe timedelta_repr df w = (Ret records, w')
    /\ records !! i = Some rec
    /\ Py.dict_get col rec = Some value
    /\ formatted_value value = true.
Proof.
  intros Hd Hp Hwf Hj Hv Hns Hr.
  destruct (convert_cell timedelta_repr w df d pd i j col (Pandas.Datetime64 v)
              (Py.Str (Pandas.format_datetime ns)) Hd Hp Hwf Hj)
    as (records & w' & rec & E & Hrec & Hget).
  - destruct Hwf as [_ Hlen]. rewrite Forall_forall in Hlen.
    specialize (Hlen _ ltac:(eapply list_elem_of_lookup_2; exact Hj)).
    simpl in Hlen. rewrite length_map in Hlen. rewrite <- Hlen.
    eapply lookup_lt_Some; exact Hv.
  - exact (datetime_cell_normalized timedelta_repr (Pandas.where_keeps_dtype pd) v i ns Hv Hns).
  - exists records, w', rec, (Py.Str (Pandas.format_datetime ns)).
    repeat split; try done. simpl. by apply format_datetime_shape.
Qed.

Lemma datetime_cells_are_formatted_witness :
  exists records w' rec value,
    convert_to_json_safe some_timedelta_repr 1%positive (world_holding true timed_sheet)
      = (Ret records, w')
    /\ records !! 0%nat = Some rec
    /\ Py.dict_get "وقت الإقلاع" rec = Some value
    /\ formatted_value value = true.
Proof.
  apply (datetime_cells_are_formatted some_timedelta_repr (world_holding true timed_sheet)
           1%positive timed_sheet (Pandas.mkLib "any" true) 1 "وقت الإقلاع"
           [1769250600000000000; Pandas.iNaT] 0 1769250600000000000).
  - reflexivity.
  - reflexivity.
  - split; [apply (bool_decide_eq_true_1 _); vm_compute; reflexivity | repeat constructor].
  - reflexivity.
  - reflexivity.
  - vm_compute. discriminate.
  - vm_compute. split; discriminate.
Defined.

(** C7 fails on the code.  A missing value in a column of dtype
    [timedelta64[ns]] is turned into the text [NaT] before missing values
    are looked for, and is exported as that text, with either behaviour of
    [where]. *)
Theorem missing_duration_is_exported_as_text (timedelta_repr : list Z -> Z -> string)
    (keeps_dtype : bool) :
  Pandas.cols timed_sheet !! 2%nat
    = Some ("وقت وصول الحافلة", Pandas.Timedelta64 [Pandas.iNaT; 5400000000000])
  /\ exists records rec,
       (convert_to_json_safe timedelta_repr 1%positive
          (world_holding keeps_dtype timed_sheet)).1 = Ret records
       /\ records !! 0%nat = Some rec
       /\ Py.dict_get "وقت وصول الحافلة" rec = Some (Py.Str "NaT").
Proof.
  split; [reflexivity |]. destruct keeps_dtype; do 2 eexists; vm_compute; repeat split.
Qed.

(** With pandas from 1.3 on, a missing number stays NaN in the records,
    and is written as [NaN] in the file. *)
Lemma missing_number_stays_nan :
  (convert_to_json_safe some_timedelta_repr 1%positive (world_holding true counted_sheet)).1
  = Ret [Py.Dict [("م", Py.Int 1); ("عدد الركاب", Py.Float nan)];
         Py.Dict [("م", Py.Int 2); ("عدد الركاب", Py.Float 45)]]
  /\ Json.floatstr some_float_repr nan = "NaN".
Proof. split; vm_compute; reflexivity. Qed.

(** What does hold of missing values: in a well-formed frame, a missing
    value of a date column or of an object column is exported as [None]. *)
Lemma missing_date_cells_are_null (timedelta_repr : list Z -> Z -> string) (w : World)
    (df : loc) (d : Pandas.DataFrame) (pd : Pandas.lib) (j : nat) (col : string)
    (v : list Z) (i : nat) :
  w_heap w !! df = Some d -> w_pandas w = Some pd -> wf_frame d ->
  Pandas.cols d !! j = Some (col, Pandas.Datetime64 v) ->
  v !! i = Some Pandas.iNaT ->
  exists records w' rec,
    convert_to_json_safe timedelta_repr df w = (Ret records, w')
    /\ records !! i = Some rec
    /\ Py.dict_get col rec = Some Py.None_.
Proof.
  intros Hd Hp Hwf Hj Hv.
  apply (convert_cell timedelta_repr w df d pd i j col (Pandas.Datetime64 v)); try done.
  - destruct Hwf as [_ Hlen]. rewrite Forall_forall in Hlen.
    specialize (Hlen _ ltac:(eapply list_elem_of_lookup_2; exact Hj)).
    simpl in Hlen. rewrite length_map in Hlen. rewrite <- Hlen.
    eapply lookup_lt_Some; exact Hv.
  - exact (missing_datetime_cell_normalized timedelta_repr (Pandas.where_keeps_dtype pd) v i Hv).
Qed.

Lemma missing_object_cells_are_null (timedelta_repr : list Z -> Z -> string) (w : World)
    (df : loc) (d : Pandas.DataFrame) (pd : Pandas.lib) (j : nat) (col : string)
    (v : list Py.obj) (i : nat) (o : Py.obj) :
  w_heap w !! df = Some d -> w_pandas w = Some pd -> wf_frame d ->
  Pandas.cols d !! j = Some (col, Pandas.Object v) ->
  v !! i = Some o -> Pandas.isnull_obj o = true ->
  exists records w' rec,
    convert_to_json_safe timedelta_repr df w = (Ret records, w')
    /\ records !! i = Some rec
    /\ Py.dict_get col rec = Some Py.None_.
Proof.
  intros Hd Hp Hwf Hj Hv Ho.
  apply (convert_cell timedelta_repr w df d pd i j col (Pandas.Object v)); try done.
  - destruct Hwf as [_ Hlen]. rewrite Forall_forall in Hlen.
    specialize (Hlen _ ltac:(eapply list_elem_of_lookup_2; exact Hj)).
    simpl in Hlen. rewrite <- Hlen.
    eapply lookup_lt_Some; exact Hv.
  - exact (missing_object_cell_normalized timedelta_repr (Pandas.where_keeps_dtype pd) v i o Hv Ho).
Qed.

(** C9. The normaliser works on a copy: the frame it was given is in
    memory afterwards exactly as before. *)
Theorem convert_leaves_source_frame (timedelta_repr : list Z -> Z -> string) (df : loc)
    (w : World) :
  w_heap (convert_to_json_safe timedelta_repr df w).2 !! df = w_heap w !! df.
Proof.
  destruct (w_pandas w) as [pd|] eqn:Hpd.
  2: { unfold convert_to_json_safe, import_pandas, bind, gets, raise. simpl.
       by rewrite Hpd. }
  destruct (w_heap w !! df) as [d|] eqn:Hd.
  - destruct (convert_spec timedelta_repr df d pd w Hd Hpd) as (h & -> & Hframe).
    simpl. rewrite Hframe by eauto. done.
  - unfold convert_to_json_safe, import_pandas, copy, read_frame, bind, gets, raise, ret.
    simpl. rewrite Hpd. simpl. by rewrite Hd.
Qed.

(** ** The run *)

(** C1 fails on the code.  With the output file locked, [save_to_json]
    returns [False] and prints its error, nothing is written, and the run
    still prints its success line and ends with status 0. *)
Theorem writer_failure_still_exits_zero :
  let w := locked_world timed_sheet "2026-01-24T10:00:00" in
  let run := exit_status script_file some_float_repr some_timedelta_repr w in
  (forall data, (save_to_json script_file some_float_repr data "raw_data.json" w).1
                = Ret false)
  /\ run.1 = 0
  /\ w_fs run.2 !! "/srv/jedco/output/raw_data.json" = None
  /\ printed [Txt "❌"; Txt " "; Txt "خطأ في الحفظ: "; Txt "[Errno 13] Permission denied"]
       run.2 = true
  /\ printed [Txt "✅"; Txt " "; Txt "اكتملت العملية بنجاح!"] run.2 = true.
Proof.
  cbv zeta. split; [| repeat split; vm_compute; reflexivity].
  intros data.
  destruct (save_raw_data script_file some_float_repr data
              (locked_world timed_sheet "2026-01-24T10:00:00")) as [out ->].
  reflexivity.
Qed.

(** The same happens when a record cannot be encoded: a date in a column
    of dtype object stays a [Timestamp], [json.dump] raises on it, the file
    is left cut short, and the run ends with status 0. *)
Lemma unencodable_record_still_exits_zero :
  let w := world_with mixed_sheet "2026-01-24T10:00:00" in
  let run := exit_status script_file some_float_repr some_timedelta_repr w in
  run.1 = 0
  /\ printed [Txt "❌"; Txt " "; Txt "خطأ في الحفظ: ";
             Txt "Object of type Timestamp is not JSON serializable"] run.2 = true
  /\ exported script_file some_float_repr some_timedelta_repr w
     = envelope_head some_float_repr "2026-01-24T10:00:00" 2
       +:+ (data_encoding some_float_repr
              [Py.Dict [("م", Py.Int 1); ("وقت الإقلاع", Py.Str "غير محدد")];
               Py.Dict [("م", Py.Int 2);
                        ("وقت الإقلاع", Py.Timestamp 1769250600000000000)]]).1
  /\ (data_encoding some_float_repr
        [Py.Dict [("م", Py.Int 1); ("وقت الإقلاع", Py.Str "غير محدد")];
         Py.Dict [("م", Py.Int 2);
                  ("وقت الإقلاع", Py.Timestamp 1769250600000000000)]]).2
     = Some (Py.mkExn "TypeError" "Object of type Timestamp is not JSON serializable").
Proof. cbv zeta. repeat split; vm_compute; reflexivity. Qed.

(** C8. A sheet with headers and no data row: when the libraries and the
    workbook are there and the output file can be written, the run ends
    with status 0 and the output file holds the whole envelope, with an
    empty [data] array and [total_records] 0. *)
Theorem empty_sheet_exports_empty_envelope (file__ : string) (float_repr : float -> string)
    (timedelta_repr : list Z -> Z -> string) (w : World) (pd : Pandas.lib)
    (version : string) (size : Z) (d : Pandas.DataFrame) :
  w_pandas w = Some pd -> w_openpyxl w = Some version -> w_excel_size w = Some size ->
  w_read_excel w = inr d ->
  Pandas.index_len d = 0%nat -> Pandas.columns d <> [] ->
  dir_ready w (OUTPUT_DIR file__) = true ->
  w_denied w (str (output_path file__)) = None ->
  w_fs w !! str (output_path file__) <> Some Dir ->
  exists w',
    exit_status file__ float_repr timedelta_repr w = (0, w')
    /\ w_fs w' !! str (output_path file__)
       = Some (File (envelope_head float_repr (w_now w) 0 +:+ "[]" +:+ Json.newline +:+ "}"))
    /\ Json.dump float_repr (output_data (w_now w) [])
       = (envelope_head float_repr (w_now w) 0 +:+ "[]" +:+ Json.newline +:+ "}", None)
    /\ Py.dict_get "data" (output_data (w_now w) []) = Some (Py.List [])
    /\ Py.dict_get "total_records" (metadata (w_now w) (Py.len [])) = Some (Py.Int 0).
Proof.
  intros Hpd Hxl Hsize Hread Hlen Hcols Hready Hden Hnodir.
  rewrite exit_status_main.
  destruct (main_run file__ float_repr timedelta_repr w) as (r & fs & h & out & E & Hrun).
  rewrite E. simpl.
  assert (Hdeps : deps_ok w = true) by (unfold deps_ok; by rewrite Hpd, Hxl).
  assert (Hfile : file_ok w = true) by (unfold file_ok; by rewrite Hsize).
  assert (Hrec : pipeline_records timedelta_repr pd d = Ret []).
  { unfold pipeline_records. destruct (Pandas.columns d); [done |]. by rewrite Hlen. }
  assert (Hens : forall r' fs1, ensured file__ w r' fs1 ->
            r' = Ret true /\ writable (set_fs fs1 w) (output_path file__) = true).
  { intros r' fs1 (o & o1 & Eens).
    destruct (ensure_output_dir_ok file__ (set_stdout o w) Hready)
      as (fs' & o' & E' & Hdir & Hsame).
    rewrite Eens in E'. injection E' as -> -> _. split; [done |].
    unfold writable. simpl. rewrite Hden, Hsame. simpl.
    rewrite output_path_parent, Hdir.
    by destruct (w_fs w !! str (output_path file__)) as [[]|]. }
  assert (Htext : Json.dump float_repr (output_data (w_now w) [])
                  = (envelope_head float_repr (w_now w) 0 +:+ "[]" +:+ Json.newline +:+ "}",
                     None))
    by (by rewrite dump_output_data).
  destruct Hrun as [? | ? ? | e fs1 _ _ He | e fs1 _ _ He ? | pd' d' e fs1 _ _ He ? ? ?
                    | pd' d' records fs1 _ _ He Hpd' Hread' Hrec']; try congruence.
  - by destruct (Hens _ _ He).
  - destruct (Hens _ _ He) as [_ Hw].
    assert (pd' = pd) as -> by congruence. assert (d' = d) as -> by congruence.
    assert (records = []) as -> by congruence.
    eexists. split; [reflexivity |]. simpl. unfold written. rewrite Hw, lookup_insert_eq.
    rewrite Htext. done.
Qed.

Lemma empty_sheet_exports_empty_envelope_witness :
  exists w',
    exit_status script_file some_float_repr some_timedelta_repr
      (world_with empty_sheet "2026-01-24T10:00:00") = (0, w')
    /\ w_fs w' !! str (output_path script_file)
       = Some (File (envelope_head some_float_repr "2026-01-24T10:00:00" 0
                     +:+ "[]" +:+ Json.newline +:+ "}"))
    /\ Json.dump some_float_repr (output_data "2026-01-24T10:00:00" [])
       = (envelope_head some_float_repr "2026-01-24T10:00:00" 0
          +:+ "[]" +:+ Json.newline +:+ "}", None)
    /\ Py.dict_get "data" (output_data "2026-01-24T10:00:00" []) = Some (Py.List [])
    /\ Py.dict_get "total_records" (metadata "2026-01-24T10:00:00" (Py.len []))
       = Some (Py.Int 0).
Proof.
  apply (empty_sheet_exports_empty_envelope script_file some_float_repr some_timedelta_repr
           (world_with empty_sheet "2026-01-24T10:00:00") pandas_2 "3.1.5" 20480 empty_sheet).
  - reflexivity.
  - reflexivity.
  - reflexivity.
  - reflexivity.
  - reflexivity.
  - vm_compute. discriminate.
  - vm_compute. reflexivity.
  - reflexivity.
  - vm_compute. discriminate.
Defined.

(** C10. Determinism in the source data: two runs over the same sheet, with
    the same pandas, that each put new content in the output file, write
    the same bytes from the [data] array on; the files differ at most in
    the head of the envelope, which carries the export time. *)
Theorem runs_agree_on_data (file__ : string) (float_repr : float -> string)
    (timedelta_repr : list Z -> Z -> string) (w1 w2 : World) (c1 c2 : string) :
  w_pandas w1 = w_pandas w2 -> w_read_excel w1 = w_read_excel w2 ->
  wrote file__ w1 (exit_status file__ float_repr timedelta_repr w1).2 c1 ->
  wrote file__ w2 (exit_status file__ float_repr timedelta_repr w2).2 c2 ->
  exists data,
    c1 = envelope_head float_repr (w_now w1) (Py.len data) +:+ envelope_rest float_repr data
    /\ c2 = envelope_head float_repr (w_now w2) (Py.len data) +:+ envelope_rest float_repr data.
Proof.
  intros Hpd Hsheet H1 H2. rewrite exit_status_main in H1, H2. simpl in H1, H2.
  apply run_wrote in H1 as (pd1 & d1 & r1 & Hp1 & Hd1 & Hr1 & ->).
  apply run_wrote in H2 as (pd2 & d2 & r2 & Hp2 & Hd2 & Hr2 & ->).
  assert (pd1 = pd2) as -> by congruence.
  assert (d1 = d2) as -> by congruence.
  assert (r1 = r2) as -> by congruence.
  exists r2. by rewrite !dump_output_data.
Qed.

Lemma runs_agree_on_data_witness :
  exists data,
    exported script_file some_float_repr some_timedelta_repr
      (world_with timed_sheet "2026-01-24T10:00:00")
    = envelope_head some_float_repr "2026-01-24T10:00:00" (Py.len data)
      +:+ envelope_rest some_float_repr data
    /\ exported script_file some_float_repr some_timedelta_repr
         (world_with timed_sheet "2026-01-25T08:15:00")
       = envelope_head some_float_repr "2026-01-25T08:15:00" (Py.len data)
         +:+ envelope_rest some_float_repr data.
Proof.
  apply (runs_agree_on_data script_file some_float_repr some_timedelta_repr
           (world_with timed_sheet "2026-01-24T10:00:00")
           (world_with timed_sheet "2026-01-25T08:15:00")).
  - reflexivity.
  - reflexivity.
  - split; [vm_compute; reflexivity | vm_compute; discriminate].
  - split; [vm_compute; reflexivity | vm_compute; discriminate].
Defined.

End Claims.

(** * Further properties of the script *)

Module Properties.
Import PyStr PathLib DataReader Spec Examples Conditions Cases.
Import PathFacts CalendarFacts NormalizerFacts WriterFacts EnvelopeFacts StageFacts MainFacts.
Import EncoderFacts RecordFacts DirectoryFacts SaveFacts SecondsFacts.

Lemma printed_last (l : line) (out : list line) (w : World) :
  printed l (set_stdout (out ++ [l]) w) = true.
Proof.
  apply bool_decide_eq_true. simpl. apply elem_of_app. right. apply list_elem_of_singleton. done.
Qed.

(** ** Console messages *)

(** X1. A message type that is none of the five known ones is printed
    with the bullet: [print_msg] appends that one line to the console and
    changes nothing else. *)
Theorem unknown_msg_type_prints_bullet (msg : line) (msg_type : string) (w : World) :
  msg_type ∉ icons.*1 ->
  print_msg msg msg_type w
  = (Ret tt, set_stdout (w_stdout w ++ [Txt "•" :: Txt " " :: msg]) w).
Proof.
  intros H. unfold print_msg, print, modify.
  assert (E : icon_of msg_type = "•"); [| by rewrite E].
  unfold icon_of.
  assert (Hnone : list_find (fun kv : string * string => kv.1 = msg_type) icons = None).
  { apply list_find_None, Forall_forall. intros kv Hkv E. apply H. rewrite <- E.
    apply list_elem_of_fmap. by exists kv. }
  by rewrite Hnone.
Qed.

Lemma unknown_msg_type_prints_bullet_witness :
  print_msg [Txt "تجربة"] "debug" (world_with empty_sheet "2026-01-24T10:00:00")
  = (Ret tt,
     set_stdout (w_stdout (world_with empty_sheet "2026-01-24T10:00:00")
                 ++ [Txt "•" :: Txt " " :: [Txt "تجربة"]])
       (world_with empty_sheet "2026-01-24T10:00:00")).
Proof.
  apply (unknown_msg_type_prints_bullet [Txt "تجربة"] "debug").
  apply (bool_decide_eq_true_1 _). vm_compute. reflexivity.
Defined.

(** ** The preflight checks *)

(** X2. [check_dependencies] tries both imports, whatever the first one
    gives: it returns [True] exactly when neither library is missing,
    prints the version of each library that is there, names the missing
    ones in its error line and in the install hint, and changes nothing
    but the console. *)
Theorem check_dependencies_reports_missing (w : World) :
  exists out,
    check_dependencies w
    = (Ret (bool_decide (missing_libs w = [])), set_stdout (w_stdout w ++ out) w)
    /\ (forall pd, w_pandas w = Some pd ->
          [Txt "✅"; Txt " "; Txt "pandas: "; Txt (Pandas.version pd)] ∈ out)
    /\ (forall version, w_openpyxl w = Some version ->
          [Txt "✅"; Txt " "; Txt "openpyxl: "; Txt version] ∈ out)
    /\ (missing_libs w <> [] ->
          [Txt "❌"; Txt " "; Txt "مكتبات مفقودة: "; Txt (join ", " (missing_libs w))] ∈ out
          /\ [Txt "ℹ️"; Txt " ";
              Txt ("قم بتثبيتها: pip install " +:+ join " " (missing_libs w))] ∈ out).
Proof.
  unfold check_dependencies, missing_libs, bind, gets, print_msg, print, modify, ret. simpl.
  destruct (w_pandas w) as [pd|] eqn:P, (w_openpyxl w) as [v|] eqn:O; simpl;
    rewrite ?O; simpl; unfold set_stdout; simpl; rewrite <- ?app_assoc; simpl;
    (eexists; split; [reflexivity |]);
    repeat split; try done; intros; simplify_eq;
    repeat (first [apply list_elem_of_here | apply list_elem_of_further]).
Qed.

(** ** The output directory *)

(** X3. [ensure_output_dir] returns [True] or raises, never [False].
    Whatever it does, it only adds directories, and only on the way to
    the output directory: every file and directory that was there is
    there unchanged, and the frames in memory are as before. *)
Theorem ensure_output_dir_only_adds_directories (file__ : string) (w : World) :
  exists r w',
    ensure_output_dir file__ w = (r, w')
    /\ (r = Ret true \/ exists e, r = Raise e)
    /\ w_heap w' = w_heap w
    /\ (forall k n, w_fs w !! k = Some n -> w_fs w' !! k = Some n)
    /\ (forall k, w_fs w !! k = None ->
          w_fs w' !! k = None
          \/ (w_fs w' !! k = Some Dir /\ k ∈ str <$> lineage (OUTPUT_DIR file__))).
Proof.
  destruct (ensure_output_dir_cases file__ w) as (r & fs & out & E & Hadd & Hother & _ & Hr).
  exists r. eexists. split; [exact E |]. simpl. repeat split.
  - destruct (can_ensure file__ w); [by left | by right].
  - intros k n Hk. destruct (Hadd k) as [->|[Hnone _]]; congruence.
  - intros k Hk. destruct (decide (k ∈ str <$> lineage (OUTPUT_DIR file__))) as [Hin|Hout].
    + destruct (Hadd k) as [->|[_ Hdir]]; [by left | by right].
    + left. by rewrite Hother.
Qed.

(** X4. [ensure_output_dir] is content with whatever stands at the place
    of the output directory, a regular file included: it returns [True],
    prints nothing and changes nothing. *)
Theorem ensure_output_dir_accepts_what_is_there (file__ : string) (w : World) (n : node) :
  w_fs w !! str (OUTPUT_DIR file__) = Some n ->
  ensure_output_dir file__ w = (Ret true, w).
Proof.
  intros H. unfold ensure_output_dir, exists_, bind, gets.
  rewrite bool_decide_eq_true_2 by (by eexists). reflexivity.
Qed.

Lemma ensure_output_dir_accepts_what_is_there_witness :
  ensure_output_dir script_file (world_with_output_file timed_sheet)
  = (Ret true, world_with_output_file timed_sheet).
Proof.
  apply (ensure_output_dir_accepts_what_is_there script_file
           (world_with_output_file timed_sheet) (File "notes")).
  vm_compute. reflexivity.
Defined.

(** X5. Where nothing stands at the place of the output directory and
    each directory on the way to it is there or can be made,
    [ensure_output_dir] makes the directory with its missing ancestors,
    says so on the console, and touches no other path. *)
Theorem ensure_output_dir_makes_missing_directories (file__ : string) (w : World) :
  w_fs w !! str (OUTPUT_DIR file__) = None ->
  dir_ready w (OUTPUT_DIR file__) = true ->
  exists fs,
    ensure_output_dir file__ w
    = (Ret true,
       upd fs (w_heap w)
         (w_stdout w ++ [[Txt "ℹ️"; Txt " "; Txt "تم إنشاء مجلد: ";
                          Txt (str (OUTPUT_DIR file__))]]) w)
    /\ (forall q, q ∈ lineage (OUTPUT_DIR file__) -> fs !! str q = Some Dir)
    /\ fs !! str (OUTPUT_DIR file__) = Some Dir
    /\ (forall k, k ∉ str <$> lineage (OUTPUT_DIR file__) -> fs !! k = w_fs w !! k).
Proof.
  intros Hnone Hready. unfold dir_ready in Hready.
  destruct (mkdir_loop_ok _ w Hready) as (fs & E & _ & Hdirs & Hother).
  exists fs. unfold ensure_output_dir, exists_, bind, gets.
  rewrite bool_decide_eq_false_2 by (rewrite Hnone; by intros [? ?]). cbn [negb].
  change (mkdir_parents (OUTPUT_DIR file__) w)
    with (for_each (lineage (OUTPUT_DIR file__)) mkdir_step w).
  rewrite E. repeat split; try done.
  apply Hdirs, OUTPUT_DIR_in_lineage.
Qed.

Lemma ensure_output_dir_makes_missing_directories_witness :
  exists fs,
    ensure_output_dir script_file (world_on_empty_disk timed_sheet)
    = (Ret true,
       upd fs (w_heap (world_on_empty_disk timed_sheet))
         (w_stdout (world_on_empty_disk timed_sheet)
          ++ [[Txt "ℹ️"; Txt " "; Txt "تم إنشاء مجلد: ";
               Txt (str (OUTPUT_DIR script_file))]])
         (world_on_empty_disk timed_sheet))
    /\ (forall q, q ∈ lineage (OUTPUT_DIR script_file) -> fs !! str q = Some Dir)
    /\ fs !! str (OUTPUT_DIR script_file) = Some Dir
    /\ (forall k, k ∉ str <$> lineage (OUTPUT_DIR script_file)
                  -> fs !! k = w_fs (world_on_empty_disk timed_sheet) !! k).
Proof.
  apply (ensure_output_dir_makes_missing_directories script_file
           (world_on_empty_disk timed_sheet)).
  - vm_compute. reflexivity.
  - vm_compute. reflexivity.
Defined.

(** ** Reading the workbook *)

(** X6. With pandas importable [read_excel_data] never raises and never
    touches a file.  An exception of [pd.read_excel] is printed with its
    message and turned into [None], with the frames in memory as before;
    otherwise the frame read is a new frame in memory, beside the ones
    that were there, and its numbers of rows and columns are printed. *)
Theorem read_excel_data_turns_failure_into_none (w : World) (pd : Pandas.lib) :
  w_pandas w = Some pd ->
  exists res w',
    read_excel_data w = (Ret res, w')
    /\ w_fs w' = w_fs w
    /\ match w_read_excel w with
       | inl e =>
           res = None /\ w_heap w' = w_heap w
           /\ printed [Txt "❌"; Txt " "; Txt "خطأ في قراءة الملف: "; Txt (Py.exn_msg e)] w'
              = true
       | inr d =>
           exists df, res = Some df /\ w_heap w !! df = None
                      /\ w_heap w' = <[df := d]> (w_heap w)
                      /\ printed [Txt "✅"; Txt " "; Txt "تم قراءة ";
                                  Num (Z.of_nat (Pandas.index_len d)); Txt " صف و ";
                                  Num (Z.of_nat (length (Pandas.columns d))); Txt " عمود"] w'
                         = true
       end.
Proof.
  intros Hpd. unfold read_excel_data, import_pandas, try_except, bind, gets, print_msg,
    print, modify, ret, raise, len_df, len_columns, new_frame, read_frame, bind, gets,
    modify, ret. simpl. rewrite Hpd. simpl.
  destruct (w_read_excel w) as [e|d]; simpl.
  - do 2 eexists. split; [reflexivity |]. repeat split. apply printed_last.
  - repeat (rewrite lookup_insert_eq; simpl).
    do 2 eexists. split; [reflexivity |]. split; [reflexivity |].
    eexists. split; [reflexivity |]. split; [apply not_elem_of_dom, is_fresh |].
    split; [reflexivity | apply printed_last].
Qed.

Lemma read_excel_data_turns_failure_into_none_witness :
  exists res w',
    read_excel_data world_with_broken_workbook = (Ret res, w')
    /\ w_fs w' = w_fs world_with_broken_workbook
    /\ res = None /\ w_heap w' = w_heap world_with_broken_workbook
    /\ printed [Txt "❌"; Txt " "; Txt "خطأ في قراءة الملف: "; Txt "File is not a zip file"] w'
       = true.
Proof.
  apply (read_excel_data_turns_failure_into_none world_with_broken_workbook pandas_2).
  reflexivity.
Defined.

(** ** Checking the columns *)

(** X7. [validate_columns] rejects no frame that has a column: whatever
    the labels are it returns [True] and changes nothing but the console.
    A first label other than the expected one only gets a warning that
    names it; the other labels are not compared with anything. *)
Theorem validate_columns_never_rejects (df : loc) (d : Pandas.DataFrame) (first : string)
    (others : list string) (w : World) :
  w_heap w !! df = Some d -> Pandas.columns d = first :: others ->
  exists w',
    validate_columns df w = (Ret true, w')
    /\ w_fs w' = w_fs w /\ w_heap w' = w_heap w
    /\ printed (if String.eqb first "م"
                then [Txt "✅"; Txt " "; Txt "عمود 'م' موجود"]
                else [Txt "⚠️"; Txt " "; Txt "العمود الأول ليس 'م'، بل: '"; Txt first;
                      Txt "'"]) w' = true
    /\ printed [Txt "ℹ️"; Txt " "; Txt "الأعمدة (";
                Num (Z.of_nat (length (first :: others))); Txt "): ";
                Labels (first :: others)] w' = true.
Proof.
  intros Hd Hcols. unfold validate_columns, read_frame, bind, gets, print_msg, print, modify,
    ret, raise. simpl. rewrite Hd. simpl. rewrite Hcols. simpl.
  destruct (String.eqb first "م"); simpl;
    (eexists; split; [reflexivity |]; repeat split; [| apply printed_last]);
    apply bool_decide_eq_true; simpl; rewrite !elem_of_app, !list_elem_of_singleton; auto.
Qed.

Lemma validate_columns_never_rejects_witness :
  exists w',
    validate_columns 1%positive (world_holding true renamed_sheet) = (Ret true, w')
    /\ w_fs w' = w_fs (world_holding true renamed_sheet)
    /\ w_heap w' = w_heap (world_holding true renamed_sheet)
    /\ printed [Txt "⚠️"; Txt " "; Txt "العمود الأول ليس 'م'، بل: '"; Txt "ID"; Txt "'"] w'
       = true
    /\ printed [Txt "ℹ️"; Txt " "; Txt "الأعمدة ("; Num 2; Txt "): ";
                Labels ["ID"; "مؤكد"]] w' = true.
Proof.
  apply (validate_columns_never_rejects 1%positive renamed_sheet "ID" ["مؤكد"]
           (world_holding true renamed_sheet)).
  - reflexivity.
  - reflexivity.
Defined.

(** X8. A frame without any column, which is what pandas hands back for
    a worksheet without cells, stops the run: [validate_columns] raises
    an IndexError on the first label, nothing catches it, the exit status
    is 1 and the output file is as it was. *)
Theorem sheet_without_columns_stops_the_run (file__ : string) (float_repr : float -> string)
    (timedelta_repr : list Z -> Z -> string) (w : World) (pd : Pandas.lib)
    (version : string) (size : Z) (d : Pandas.DataFrame) :
  w_pandas w = Some pd -> w_openpyxl w = Some version -> w_excel_size w = Some size ->
  can_ensure file__ w = true ->
  w_read_excel w = inr d -> Pandas.columns d = [] ->
  exists w',
    main file__ float_repr timedelta_repr w = (Raise index_error, w')
    /\ (exit_status file__ float_repr timedelta_repr w).1 = 1
    /\ w_fs w' !! str (output_path file__) = w_fs w !! str (output_path file__).
Proof.
  intros Hpd Hxl Hsize Hcan Hread Hcols.
  destruct (main_run file__ float_repr timedelta_repr w) as (r & fs & h & out & E & Hrun).
  rewrite exit_status_main, E. simpl.
  assert (Hdeps : deps_ok w = true) by (unfold deps_ok; by rewrite Hpd, Hxl).
  assert (Hfile : file_ok w = true) by (unfold file_ok; by rewrite Hsize).
  destruct Hrun as [? | ? ? | e fs1 _ _ He | e fs1 _ _ He ? | pd' d' e fs1 _ _ He ? ? Hrec
                    | pd' d' records fs1 _ _ He ? ? Hrec]; try congruence.
  - apply ensured_cases in He as (_ & _ & Hr). rewrite Hcan in Hr. discriminate.
  - assert (d' = d) as -> by congruence.
    unfold pipeline_records in Hrec. rewrite Hcols in Hrec. injection Hrec as <-.
    eexists. split; [reflexivity |]. split; [done |]. simpl.
    apply ensured_cases in He as (_ & Hother & _).
    apply Hother, output_path_not_in_lineage.
  - assert (d' = d) as -> by congruence.
    unfold pipeline_records in Hrec. rewrite Hcols in Hrec. discriminate.
Qed.

Lemma sheet_without_columns_stops_the_run_witness :
  exists w',
    main script_file some_float_repr some_timedelta_repr
      (world_with blank_sheet "2026-01-24T10:00:00") = (Raise index_error, w')
    /\ (exit_status script_file some_float_repr some_timedelta_repr
          (world_with blank_sheet "2026-01-24T10:00:00")).1 = 1
    /\ w_fs w' !! str (output_path script_file)
       = w_fs (world_with blank_sheet "2026-01-24T10:00:00") !! str (output_path script_file).
Proof.
  apply (sheet_without_columns_stops_the_run script_file some_float_repr some_timedelta_repr
           (world_with blank_sheet "2026-01-24T10:00:00") pandas_2 "3.1.5" 20480 blank_sheet).
  - reflexivity.
  - reflexivity.
  - reflexivity.
  - vm_compute. reflexivity.
  - reflexivity.
  - reflexivity.
Defined.

(** ** The records *)

(** X9. For a well-formed frame the normaliser returns one record per
    row (and none when the frame has no column), and the keys of every
    record are the labels of the frame, in their order: the headers read
    from the sheet, whatever the expected ones are. *)
Theorem records_follow_the_sheet (timedelta_repr : list Z -> Z -> string) (w : World)
    (df : loc) (d : Pandas.DataFrame) (pd : Pandas.lib) :
  w_heap w !! df = Some d -> w_pandas w = Some pd -> wf_frame d ->
  exists records w',
    convert_to_json_safe timedelta_repr df w = (Ret records, w')
    /\ length records
       = match Pandas.cols d with [] => 0%nat | _ => Pandas.index_len d end
    /\ Forall (fun rec => keys rec = Pandas.columns d) records.
Proof.
  intros Hd Hp Hwf.
  destruct (convert_spec timedelta_repr df d pd w Hd Hp) as (h & -> & _).
  rewrite normalized_records_wf by apply Hwf.
  destruct (normal_frame_wf timedelta_repr (Pandas.where_keeps_dtype pd) d Hwf)
    as [Hcols Hlen].
  set (D := Pandas.mkDF _ _) in *.
  do 2 eexists. split; [reflexivity |]. split.
  - rewrite (to_dict_records_length D _ Hlen). subst D. simpl.
    by destruct (Pandas.cols d).
  - apply Forall_lookup. intros i rec Hrec.
    destruct (to_dict_records_lookup D i rec) as (row & Hrow & ->);
      [rewrite Hcols; apply Hwf | exact Hrec |].
    simpl. rewrite fst_zip; [exact Hcols |].
    apply Forall2_length in Hrow. unfold Pandas.columns. rewrite length_fmap. lia.
Qed.

Lemma records_follow_the_sheet_witness :
  exists records w',
    convert_to_json_safe some_timedelta_repr 1%positive (world_holding true renamed_sheet)
    = (Ret records, w')
    /\ length records = 1%nat
    /\ Forall (fun rec => keys rec = ["ID"; "مؤكد"]) records.
Proof.
  apply (records_follow_the_sheet some_timedelta_repr (world_holding true renamed_sheet)
           1%positive renamed_sheet (Pandas.mkLib "any" true)).
  - reflexivity.
  - reflexivity.
  - split; [apply (bool_decide_eq_true_1 _); vm_compute; reflexivity | repeat constructor].
Defined.

(** X10. In a well-formed frame, a cell of a column of dtype [int64] or
    [bool] is exported as the very integer or boolean: record [i] holds
    it under the label of the column. *)
Theorem integer_and_boolean_cells_are_exported_as_they_are
    (timedelta_repr : list Z -> Z -> string) (w : World) (df : loc) (d : Pandas.DataFrame)
    (pd : Pandas.lib) (j : nat) (col : string) (s : Pandas.Series) (i : nat) (x : Py.obj) :
  w_heap w !! df = Some d -> w_pandas w = Some pd -> wf_frame d ->
  Pandas.cols d !! j = Some (col, s) ->
  Pandas.dtype_of s = Pandas.int64 \/ Pandas.dtype_of s = Pandas.bool_ ->
  Pandas.to_list s !! i = Some x ->
  exists records w' rec,
    convert_to_json_safe timedelta_repr df w = (Ret records, w')
    /\ records !! i = Some rec
    /\ Py.dict_get col rec = Some x.
Proof.
  intros Hd Hp Hwf Hj Hs Hx.
  apply (convert_cell timedelta_repr w df d pd i j col s); try done.
  - by eapply cell_index_in_frame.
  - destruct s; destruct Hs as [Hs|Hs]; try discriminate; exact Hx.
Qed.

Lemma integer_and_boolean_cells_are_exported_as_they_are_witness :
  exists records w' rec,
    convert_to_json_safe some_timedelta_repr 1%positive (world_holding true renamed_sheet)
    = (Ret records, w')
    /\ records !! 0%nat = Some rec
    /\ Py.dict_get "مؤكد" rec = Some (Py.Bool true).
Proof.
  apply (integer_and_boolean_cells_are_exported_as_they_are some_timedelta_repr
           (world_holding true renamed_sheet) 1%positive renamed_sheet
           (Pandas.mkLib "any" true) 1 "مؤكد" (Pandas.Boolean [true]) 0 (Py.Bool true)).
  - reflexivity.
  - reflexivity.
  - split; [apply (bool_decide_eq_true_1 _); vm_compute; reflexivity | repeat constructor].
  - reflexivity.
  - right. reflexivity.
  - reflexivity.
Defined.

(** X11. What becomes of a cell of a [float64] column depends on the
    pandas release.  Where [where] keeps the dtype (pandas 1.3 and later)
    the number is exported as it is, NaN included; where it does not, NaN
    is exported as [None] and every other number as it is. *)
Theorem number_cells_follow_the_pandas_release (timedelta_repr : list Z -> Z -> string)
    (w : World) (df : loc) (d : Pandas.DataFrame) (pd : Pandas.lib) (j : nat) (col : string)
    (v : list float) (i : nat) (f : float) :
  w_heap w !! df = Some d -> w_pandas w = Some pd -> wf_frame d ->
  Pandas.cols d !! j = Some (col, Pandas.Float64 v) ->
  v !! i = Some f ->
  exists records w' rec,
    convert_to_json_safe timedelta_repr df w = (Ret records, w')
    /\ records !! i = Some rec
    /\ Py.dict_get col rec
       = Some (if Pandas.where_keeps_dtype pd then Py.Float f
               else if PrimFloat.is_nan f then Py.None_ else Py.Float f).
Proof.
  intros Hd Hp Hwf Hj Hv.
  apply (convert_cell timedelta_repr w df d pd i j col (Pandas.Float64 v)); try done.
  - eapply cell_index_in_frame; [done | exact Hj |]. simpl. by rewrite list_lookup_fmap, Hv.
  - simpl. destruct (Pandas.where_keeps_dtype pd); simpl.
    + by rewrite list_lookup_fmap, Hv.
    + by rewrite !list_lookup_fmap, Hv.
Qed.

Lemma number_cells_follow_the_pandas_release_witness :
  exists records w' rec,
    convert_to_json_safe some_timedelta_repr 1%positive (world_holding true counted_sheet)
    = (Ret records, w')
    /\ records !! 0%nat = Some rec
    /\ Py.dict_get "عدد الركاب" rec = Some (Py.Float nan).
Proof.
  apply (number_cells_follow_the_pandas_release some_timedelta_repr
           (world_holding true counted_sheet) 1%positive counted_sheet
           (Pandas.mkLib "any" true) 1 "عدد الركاب" [nan; 45%float] 0 nan).
  - reflexivity.
  - reflexivity.
  - split; [apply (bool_decide_eq_true_1 _); vm_compute; reflexivity | repeat constructor].
  - reflexivity.
  - reflexivity.
Defined.

(** X12. In a well-formed frame, a cell of an object column is exported
    as [None] when it is missing (None, NaN or NaT) and as the value it
    holds otherwise, whatever that value is: a date in such a column
    stays a [Timestamp]. *)
Theorem object_cells_keep_their_value (timedelta_repr : list Z -> Z -> string) (w : World)
    (df : loc) (d : Pandas.DataFrame) (pd : Pandas.lib) (j : nat) (col : string)
    (v : list Py.obj) (i : nat) (o : Py.obj) :
  w_heap w !! df = Some d -> w_pandas w = Some pd -> wf_frame d ->
  Pandas.cols d !! j = Some (col, Pandas.Object v) ->
  v !! i = Some o ->
  exists records w' rec,
    convert_to_json_safe timedelta_repr df w = (Ret records, w')
    /\ records !! i = Some rec
    /\ Py.dict_get col rec = Some (if Pandas.isnull_obj o then Py.None_ else o).
Proof.
  intros Hd Hp Hwf Hj Hv.
  apply (convert_cell timedelta_repr w df d pd i j col (Pandas.Object v)); try done.
  - by eapply cell_index_in_frame.
  - simpl. by rewrite list_lookup_fmap, Hv.
Qed.

Lemma object_cells_keep_their_value_witness :
  exists records w' rec,
    convert_to_json_safe some_timedelta_repr 1%positive (world_holding true mixed_sheet)
    = (Ret records, w')
    /\ records !! 1%nat = Some rec
    /\ Py.dict_get "وقت الإقلاع" rec = Some (Py.Timestamp 1769250600000000000).
Proof.
  apply (object_cells_keep_their_value some_timedelta_repr (world_holding true mixed_sheet)
           1%positive mixed_sheet (Pandas.mkLib "any" true) 1 "وقت الإقلاع"
           [Py.Str "غير محدد"; Py.Timestamp 1769250600000000000] 1
           (Py.Timestamp 1769250600000000000)).
  - reflexivity.
  - reflexivity.
  - split; [apply (bool_decide_eq_true_1 _); vm_compute; reflexivity | repeat constructor].
  - reflexivity.
  - reflexivity.
Defined.

(** X13. In a well-formed frame, every cell of a column of dtype
    [timedelta64[ns]] is exported as a text: the duration as pandas prints
    it, and the text [NaT] for a missing one.  No cell of such a column is
    exported as [None]. *)
Theorem duration_cells_are_exported_as_text (timedelta_repr : list Z -> Z -> string)
    (w : World) (df : loc) (d : Pandas.DataFrame) (pd : Pandas.lib) (j : nat) (col : string)
    (v : list Z) (i : nat) (ns : Z) :
  w_heap w !! df = Some d -> w_pandas w = Some pd -> wf_frame d ->
  Pandas.cols d !! j = Some (col, Pandas.Timedelta64 v) ->
  v !! i = Some ns ->
  exists records w' rec,
    convert_to_json_safe timedelta_repr df w = (Ret records, w')
    /\ records !! i = Some rec
    /\ Py.dict_get col rec
       = Some (Py.Str (if ns =? Pandas.iNaT then "NaT" else timedelta_repr v ns)).
Proof.
  intros Hd Hp Hwf Hj Hv.
  apply (convert_cell timedelta_repr w df d pd i j col (Pandas.Timedelta64 v)); try done.
  - eapply cell_index_in_frame; [done | exact Hj |]. simpl. by rewrite list_lookup_fmap, Hv.
  - simpl. by rewrite !list_lookup_fmap, Hv.
Qed.

Lemma duration_cells_are_exported_as_text_witness :
  exists records w' rec,
    convert_to_json_safe some_timedelta_repr 1%positive (world_holding false timed_sheet)
    = (Ret records, w')
    /\ records !! 1%nat = Some rec
    /\ Py.dict_get "وقت وصول الحافلة" rec = Some (Py.Str "0 days 01:30:00").
Proof.
  apply (duration_cells_are_exported_as_text some_timedelta_repr
           (world_holding false timed_sheet) 1%positive timed_sheet
           (Pandas.mkLib "any" false) 2 "وقت وصول الحافلة"
           [Pandas.iNaT; 5400000000000] 1 5400000000000).
  - reflexivity.
  - reflexivity.
  - split; [apply (bool_decide_eq_true_1 _); vm_compute; reflexivity | repeat constructor].
  - reflexivity.
  - reflexivity.
Defined.

(** X14. In a well-formed frame, a cell of a column of dtype
    [datetime64[ns]] is exported as [None] when it is missing and as the
    text [strftime] gives for it otherwise. *)
Theorem date_cells_are_formatted_or_null (timedelta_repr : list Z -> Z -> string) (w : World)
    (df : loc) (d : Pandas.DataFrame) (pd : Pandas.lib) (j : nat) (col : string)
    (v : list Z) (i : nat) (ns : Z) :
  w_heap w !! df = Some d -> w_pandas w = Some pd -> wf_frame d ->
  Pandas.cols d !! j = Some (col, Pandas.Datetime64 v) ->
  v !! i = Some ns ->
  exists records w' rec,
    convert_to_json_safe timedelta_repr df w = (Ret records, w')
    /\ records !! i = Some rec
    /\ Py.dict_get col rec
       = Some (if ns =? Pandas.iNaT then Py.None_ else Py.Str (Pandas.format_datetime ns)).
Proof.
  intros Hd Hp Hwf Hj Hv.
  apply (convert_cell timedelta_repr w df d pd i j col (Pandas.Datetime64 v)); try done.
  - eapply cell_index_in_frame; [done | exact Hj |]. simpl. by rewrite list_lookup_fmap, Hv.
  - destruct (Z.eqb_spec ns Pandas.iNaT) as [->|Hns].
    + exact (missing_datetime_cell_normalized timedelta_repr (Pandas.where_keeps_dtype pd)
               v i Hv).
    + exact (datetime_cell_normalized timedelta_repr (Pandas.where_keeps_dtype pd)
               v i ns Hv Hns).
Qed.

Lemma date_cells_are_formatted_or_null_witness :
  exists records w' rec,
    convert_to_json_safe some_timedelta_repr 1%positive (world_holding false timed_sheet)
    = (Ret records, w')
    /\ records !! 1%nat = Some rec
    /\ Py.dict_get "وقت الإقلاع" rec = Some Py.None_.
Proof.
  apply (date_cells_are_formatted_or_null some_timedelta_repr
           (world_holding false timed_sheet) 1%positive timed_sheet
           (Pandas.mkLib "any" false) 1 "وقت الإقلاع"
           [1769250600000000000; Pandas.iNaT] 1 Pandas.iNaT).
  - reflexivity.
  - reflexivity.
  - split; [apply (bool_decide_eq_true_1 _); vm_compute; reflexivity | repeat constructor].
  - reflexivity.
  - reflexivity.
Defined.

(** X15. The text of a date keeps whole seconds only: two values of a
    [datetime64[ns]] column that lie in the same second are exported as
    the same text. *)
Theorem dates_are_exported_to_the_second (ns ns' : Z) :
  ns / 1000000000 = ns' / 1000000000 ->
  Pandas.format_datetime ns = Pandas.format_datetime ns'.
Proof.
  intros H. unfold Pandas.format_datetime.
  by rewrite (to_datetimestruct_same_second ns ns' H).
Qed.

Lemma dates_are_exported_to_the_second_witness :
  Pandas.format_datetime 1769250600000000000 = Pandas.format_datetime 1769250600999999999.
Proof.
  apply (dates_are_exported_to_the_second 1769250600000000000 1769250600999999999).
  reflexivity.
Defined.

(** ** The writer *)


(** X17. The call [main] makes, [save_to_json(..., "raw_data.json")],
    changes no path of the file system other than that of the output
    file. *)
Theorem save_to_json_touches_one_path (file__ : string) (float_repr : float -> string)
    (data : list Py.obj) (w : World) (k : string) :
  k <> str (output_path file__) ->
  w_fs (save_to_json file__ float_repr data "raw_data.json" w).2 !! k = w_fs w !! k.
Proof.
  intros Hk. destruct (save_raw_data file__ float_repr data w) as [out E].
  rewrite E. simpl. unfold written.
  destruct (writable _ _); [| reflexivity]. by rewrite lookup_insert_ne.
Qed.

Lemma save_to_json_touches_one_path_witness :
  w_fs (save_to_json script_file some_float_repr [] "raw_data.json"
          (world_with empty_sheet "2026-01-24T10:00:00")).2 !! "/srv/jedco/output"
  = w_fs (world_with empty_sheet "2026-01-24T10:00:00") !! "/srv/jedco/output".
Proof.
  apply (save_to_json_touches_one_path script_file some_float_repr []
           (world_with empty_sheet "2026-01-24T10:00:00") "/srv/jedco/output").
  vm_compute. discriminate.
Defined.



(** X19. [save_to_json] does not make the output directory: when no
    directory stands at its place (nothing, or a regular file), the call
    [main] makes returns [False] and leaves the files as they were. *)
Theorem save_needs_the_output_directory (file__ : string) (float_repr : float -> string)
    (data : list Py.obj) (w : World) :
  is_dir (w_fs w) (OUTPUT_DIR file__) = false ->
  exists w',
    save_to_json file__ float_repr data "raw_data.json" w = (Ret false, w')
    /\ w_fs w' = w_fs w.
Proof.
  intros H. destruct (save_raw_data file__ float_repr data w) as [out E].
  assert (Hw : writable w (output_path file__) = false).
  { unfold writable. rewrite output_path_parent, H.
    destruct (w_denied w _); [done |]. by destruct (w_fs w !! _) as [[c|]|]. }
  rewrite Hw in E. unfold written in E.
  change (writable (set_fs (w_fs w) w) (output_path file__))
    with (writable w (output_path file__)) in E.
  rewrite Hw in E. eexists. split; [exact E | reflexivity].
Qed.

Lemma save_needs_the_output_directory_witness :
  exists w',
    save_to_json script_file some_float_repr [] "raw_data.json"
      (world_with_output_file empty_sheet) = (Ret false, w')
    /\ w_fs w' = w_fs (world_with_output_file empty_sheet).
Proof.
  apply (save_needs_the_output_directory script_file some_float_repr []
           (world_with_output_file empty_sheet)).
  vm_compute. reflexivity.
Defined.



(** X21. With [ensure_ascii=False], a text without control characters,
    double quotes and backslashes is written between double quotes as it
    is: text outside ASCII is not escaped. *)
Theorem plain_text_is_written_as_it_is (float_repr : float -> string) (s : string)
    (level : nat) :
  all_plain s = true ->
  Json.iterencode float_repr (Py.Str s) level = (Json.quote +:+ s +:+ Json.quote, None).
Proof.
  intros H. simpl. unfold Json.emit, Json.encode_basestring. by rewrite escape_plain.
Qed.

Lemma plain_text_is_written_as_it_is_witness :
  Json.iterencode some_float_repr (Py.Str SHEET_NAME) 2
  = (Json.quote +:+ SHEET_NAME +:+ Json.quote, None).
Proof.
  apply (plain_text_is_written_as_it_is some_float_repr SHEET_NAME 2).
  vm_compute. reflexivity.
Defined.

(** ** The paths *)

(** X22. Wherever the script lies, the output directory is the entry
    [output] of the project directory, and the file [main] writes is the
    entry [raw_data.json] of the output directory. *)
Theorem output_file_lies_in_output_directory (file__ : string) :
  name (OUTPUT_DIR file__) = "output"
  /\ parent (OUTPUT_DIR file__) = PROJECT_DIR file__
  /\ name (output_path file__) = "raw_data.json"
  /\ parent (output_path file__) = OUTPUT_DIR file__
  /\ str (output_path file__) ∉ str <$> lineage (OUTPUT_DIR file__).
Proof.
  repeat split.
  - rewrite OUTPUT_DIR_eq. unfold name. simpl. by rewrite last_snoc.
  - rewrite OUTPUT_DIR_eq. unfold parent. cbn [tail root].
    destruct (tail (PROJECT_DIR file__) ++ ["output"]) as [|a l] eqn:E.
    + by destruct (tail (PROJECT_DIR file__)).
    + rewrite <- E, removelast_last. by destruct (PROJECT_DIR file__).
  - rewrite output_path_eq. unfold name. simpl. by rewrite last_snoc.
  - apply output_path_parent.
  - apply output_path_not_in_lineage.
Qed.

(** ** The run as a whole *)

(** X23. A run leaves what was on the disk as it was: every directory,
    and every file other than the output file, is there afterwards with
    the content it had. *)
Theorem main_keeps_what_was_on_disk (file__ : string) (float_repr : float -> string)
    (timedelta_repr : list Z -> Z -> string) (w : World) (k : string) (n : node) :
  w_fs w !! k = Some n ->
  k <> str (output_path file__) \/ n = Dir ->
  w_fs (main file__ float_repr timedelta_repr w).2 !! k = Some n.
Proof.
  intros Hk Hn.
  destruct (main_run file__ float_repr timedelta_repr w) as (r & fs & h & out & E & Hrun).
  rewrite E. simpl.
  assert (Hkeep : forall r' fs1, ensured file__ w r' fs1 -> fs1 !! k = Some n).
  { intros r' fs1 He. apply ensured_dirs_added in He.
    destruct (He k) as [->|[Hnone _]]; congruence. }
  destruct Hrun as [? | ? ? | e fs1 _ _ He | e fs1 _ _ He ? | pd d e fs1 _ _ He ? ? ?
                    | pd d records fs1 _ _ He ? ? ?]; eauto.
  specialize (Hkeep _ _ He). unfold written.
  destruct (writable _ _) eqn:Hw; [| exact Hkeep].
  destruct Hn as [Hne| ->]; [by rewrite lookup_insert_ne |].
  destruct (decide (k = str (output_path file__))) as [->|Hne];
    [| by rewrite lookup_insert_ne].
  unfold writable in Hw. simpl in Hw. rewrite Hkeep in Hw.
  by destruct (w_denied w _).
Qed.

Lemma main_keeps_what_was_on_disk_witness :
  w_fs (main script_file some_float_repr some_timedelta_repr
          (world_with_output_file timed_sheet)).2 !! "/srv/jedco/output"
  = Some (File "notes").
Proof.
  apply (main_keeps_what_was_on_disk script_file some_float_repr some_timedelta_repr
           (world_with_output_file timed_sheet) "/srv/jedco/output" (File "notes")).
  - reflexivity.
  - left. vm_compute. discriminate.
Defined.

(** X24. All a run adds to the disk are directories on the way to the
    output directory, and the output file. *)
Theorem main_adds_only_the_output (file__ : string) (float_repr : float -> string)
    (timedelta_repr : list Z -> Z -> string) (w : World) (k : string) (n : node) :
  w_fs w !! k = None ->
  w_fs (main file__ float_repr timedelta_repr w).2 !! k = Some n ->
  (n = Dir /\ k ∈ str <$> lineage (OUTPUT_DIR file__))
  \/ (k = str (output_path file__) /\ exists content, n = File content).
Proof.
  intros Hk Hn.
  destruct (main_run file__ float_repr timedelta_repr w) as (r & fs & h & out & E & Hrun).
  rewrite E in Hn. simpl in Hn.
  assert (Hdirs : forall r' fs1, ensured file__ w r' fs1 -> fs1 !! k = Some n ->
            n = Dir /\ k ∈ str <$> lineage (OUTPUT_DIR file__)).
  { intros r' fs1 He Hfs1. apply ensured_cases in He as (Hadd & Hother & _).
    destruct (decide (k ∈ str <$> lineage (OUTPUT_DIR file__))) as [Hin|Hout].
    - split; [| exact Hin]. destruct (Hadd k) as [E1|[_ E1]]; congruence.
    - rewrite Hother in Hfs1 by done. congruence. }
  destruct Hrun as [? | ? ? | e fs1 _ _ He | e fs1 _ _ He ? | pd d e fs1 _ _ He ? ? ?
                    | pd d records fs1 _ _ He ? ? ?]; try congruence; eauto.
  unfold written in Hn. destruct (writable _ _); [| eauto].
  destruct (decide (k = str (output_path file__))) as [->|Hne].
  - right. rewrite lookup_insert_eq in Hn. injection Hn as <-. eauto.
  - rewrite lookup_insert_ne in Hn by done. eauto.
Qed.

Lemma main_adds_only_the_output_witness :
  (Dir = Dir /\ "/srv/jedco" ∈ str <$> lineage (OUTPUT_DIR script_file))
  \/ ("/srv/jedco" = str (output_path script_file) /\ exists content, Dir = File content).
Proof.
  apply (main_adds_only_the_output script_file some_float_repr some_timedelta_repr
           (world_on_empty_disk timed_sheet) "/srv/jedco" Dir).
  - reflexivity.
  - vm_compute. reflexivity.
Defined.

(** X25. The exit status is 0 exactly when the records reached the
    writer: both libraries import, the workbook is there, something
    stands at the place of the output directory or the directory can be
    made, the workbook is read into a frame, and the frame has a column
    and can be normalised.  Whether the writer wrote the file plays no
    part; in every other run the status is 1. *)
Theorem exit_status_is_zero_iff_records_reach_the_writer (file__ : string)
    (float_repr : float -> string) (timedelta_repr : list Z -> Z -> string) (w : World) :
  ((exit_status file__ float_repr timedelta_repr w).1 = 0
   <-> deps_ok w = true /\ file_ok w = true /\ can_ensure file__ w = true
       /\ exists pd d records,
            w_pandas w = Some pd /\ w_read_excel w = inr d
            /\ pipeline_records timedelta_repr pd d = Ret records)
  /\ ((exit_status file__ float_repr timedelta_repr w).1 = 0
      \/ (exit_status file__ float_repr timedelta_repr w).1 = 1).
Proof.
  rewrite exit_status_main.
  destruct (main_run file__ float_repr timedelta_repr w) as (r & fs & h & out & E & Hrun).
  rewrite E. simpl. split; [split |].
  - intros Hz.
    destruct Hrun as [Hdeps | Hdeps Hfile | e fs1 Hdeps Hfile He | e fs1 Hdeps Hfile He Hread
                      | pd d e fs1 Hdeps Hfile He Hpd Hread Hrec
                      | pd d records fs1 Hdeps Hfile He Hpd Hread Hrec]; try discriminate.
    repeat split; try done.
    + apply ensured_cases in He as (_ & _ & Hr).
      destruct (can_ensure file__ w); [done |]. by destruct Hr.
    + by exists pd, d, records.
  - intros (Hdeps & Hfile & Hcan & pd & d & records & Hpd & Hread & Hrec).
    destruct Hrun as [? | ? ? | e fs1 _ _ He | e fs1 _ _ He ? | pd' d' e fs1 _ _ He ? ? ?
                      | pd' d' records' fs1 _ _ He ? ? ?]; try congruence.
    apply ensured_cases in He as (_ & _ & Hr). rewrite Hcan in Hr. discriminate.
  - destruct Hrun; auto.
Qed.

(** X26. When a library or the workbook is missing the run ends with
    status 1 before it has touched the disk: no directory is made and no
    file is written. *)
Theorem failed_preflight_changes_no_file (file__ : string) (float_repr : float -> string)
    (timedelta_repr : list Z -> Z -> string) (w : World) :
  deps_ok w && file_ok w = false ->
  exists w',
    exit_status file__ float_repr timedelta_repr w = (1, w') /\ w_fs w' = w_fs w.
Proof.
  intros H. rewrite exit_status_main.
  destruct (main_run file__ float_repr timedelta_repr w) as (r & fs & h & out & E & Hrun).
  rewrite E. simpl.
  destruct Hrun as [Hdeps | Hdeps Hfile | e fs1 Hdeps Hfile He | e fs1 Hdeps Hfile He Hread
                    | pd d e fs1 Hdeps Hfile He Hpd Hread Hrec
                    | pd d records fs1 Hdeps Hfile He Hpd Hread Hrec];
    try (rewrite Hdeps, Hfile in H; discriminate);
    (eexists; split; reflexivity).
Qed.

Lemma failed_preflight_changes_no_file_witness :
  exists w',
    exit_status script_file some_float_repr some_timedelta_repr world_without_pandas = (1, w')
    /\ w_fs w' = w_fs world_without_pandas.
Proof.
  apply (failed_preflight_changes_no_file script_file some_float_repr some_timedelta_repr
           world_without_pandas).
  reflexivity.
Defined.

(** X27. When the workbook cannot be read the run ends with status 1
    and exports nothing: [read_excel_data] has turned the exception into
    [None], the output file is as it was, and all that may have changed
    on the disk are directories made for the output. *)
Theorem failed_read_exports_nothing (file__ : string) (float_repr : float -> string)
    (timedelta_repr : list Z -> Z -> string) (w : World) (e : Py.exn) :
  deps_ok w = true -> file_ok w = true -> can_ensure file__ w = true ->
  w_read_excel w = inl e ->
  exists w',
    exit_status file__ float_repr timedelta_repr w = (1, w')
    /\ w_fs w' !! str (output_path file__) = w_fs w !! str (output_path file__)
    /\ dirs_added (w_fs w) (w_fs w').
Proof.
  intros Hdeps Hfile Hcan Hread. rewrite exit_status_main.
  destruct (main_run file__ float_repr timedelta_repr w) as (r & fs & h & out & E & Hrun).
  rewrite E. simpl.
  destruct Hrun as [? | ? ? | e' fs1 _ _ He | e' fs1 _ _ He _
                    | pd d e' fs1 _ _ He ? ? ? | pd d records fs1 _ _ He ? ? ?];
    try congruence.
  - apply ensured_cases in He as (_ & _ & Hr). rewrite Hcan in Hr. discriminate.
  - apply ensured_cases in He as (Hadd & Hother & _).
    eexists. split; [reflexivity |]. simpl. split; [| exact Hadd].
    apply Hother, output_path_not_in_lineage.
Qed.

Lemma failed_read_exports_nothing_witness :
  exists w',
    exit_status script_file some_float_repr some_timedelta_repr world_with_broken_workbook
    = (1, w')
    /\ w_fs w' !! str (output_path script_file)
       = w_fs world_with_broken_workbook !! str (output_path script_file)
    /\ dirs_added (w_fs world_with_broken_workbook) (w_fs w').
Proof.
  apply (failed_read_exports_nothing script_file some_float_repr some_timedelta_repr
           world_with_broken_workbook
           (Py.mkExn "BadZipFile" "File is not a zip file")).
  - reflexivity.
  - reflexivity.
  - vm_compute. reflexivity.
  - reflexivity.
Defined.

(** X28. The run that succeeds.  When both libraries import, the
    workbook is read into a well-formed frame with at least one column
    and one row whose columns are exportable, the output directory is
    there or can be made, and the output file can be opened, the exit
    status is 0 and the output file holds the whole envelope of the
    records of the frame, one per row. *)
Theorem exportable_sheet_is_exported (file__ : string) (float_repr : float -> string)
    (timedelta_repr : list Z -> Z -> string) (w : World) (pd : Pandas.lib)
    (version : string) (size : Z) (d : Pandas.DataFrame) :
  w_pandas w = Some pd -> w_openpyxl w = Some version -> w_excel_size w = Some size ->
  w_read_excel w = inr d ->
  wf_frame d -> Pandas.columns d <> [] -> Pandas.index_len d <> 0%nat ->
  Forall (fun c => exportable c.2 = true) (Pandas.cols d) ->
  dir_ready w (OUTPUT_DIR file__) = true ->
  w_denied w (str (output_path file__)) = None ->
  w_fs w !! str (output_path file__) <> Some Dir ->
  exists records w',
    exit_status file__ float_repr timedelta_repr w = (0, w')
    /\ normalized_records timedelta_repr pd d = Ret records
    /\ length records = Pandas.index_len d
    /\ Json.dump float_repr (output_data (w_now w) records)
       = (envelope_head float_repr (w_now w) (Py.len records)
          +:+ envelope_rest float_repr records, None)
    /\ w_fs w' !! str (output_path file__)
       = Some (File (envelope_head float_repr (w_now w) (Py.len records)
                     +:+ envelope_rest float_repr records)).
Proof.
  intros Hpd Hxl Hsize Hread Hwf Hcols Hrows Hexp Hready Hden Hnodir.
  destruct (normalized_records_exportable timedelta_repr pd d Hwf)
    as (records & Hnorm & Hlen & Hjson).
  exists records. rewrite exit_status_main.
  destruct (main_run file__ float_repr timedelta_repr w) as (r & fs & h & out & E & Hrun).
  rewrite E. simpl.
  assert (Hdeps : deps_ok w = true) by (unfold deps_ok; by rewrite Hpd, Hxl).
  assert (Hfile : file_ok w = true) by (unfold file_ok; by rewrite Hsize).
  assert (Hrec : pipeline_records timedelta_repr pd d = Ret records).
  { unfold pipeline_records. destruct (Pandas.columns d); [done |].
    destruct (Z.eqb_spec (Z.of_nat (Pandas.index_len d)) 0); [lia | exact Hnorm]. }
  assert (Hens : forall r' fs1, ensured file__ w r' fs1 ->
            r' = Ret true /\ writable (set_fs fs1 w) (output_path file__) = true).
  { intros r' fs1 (o & o1 & Eens).
    destruct (ensure_output_dir_ok file__ (set_stdout o w) Hready)
      as (fs' & o' & E' & Hdir & Hsame).
    rewrite Eens in E'. injection E' as -> -> _. split; [done |].
    unfold writable. simpl. rewrite Hden, Hsame. simpl.
    rewrite output_path_parent, Hdir.
    by destruct (w_fs w !! str (output_path file__)) as [[]|]. }
  assert (Htext : Json.dump float_repr (output_data (w_now w) records)
                  = (envelope_head float_repr (w_now w) (Py.len records)
                     +:+ envelope_rest float_repr records, None)).
  { pose proof (dump_succeeds_iff float_repr (w_now w) records) as Hs.
    rewrite (proj2 Hjson Hexp) in Hs. unfold succeeded in Hs.
    rewrite dump_output_data in Hs |- *. cbn [fst snd] in Hs.
    by destruct (data_encoding float_repr records).2. }
  destruct Hrun as [? | ? ? | e fs1 _ _ He | e fs1 _ _ He ? | pd' d' e fs1 _ _ He ? ? ?
                    | pd' d' records' fs1 _ _ He Hpd' Hread' Hrec']; try congruence.
  - by destruct (Hens _ _ He).
  - destruct (Hens _ _ He) as [_ Hw].
    assert (pd' = pd) as -> by congruence. assert (d' = d) as -> by congruence.
    assert (records' = records) as -> by congruence.
    eexists. split; [reflexivity |]. split; [done |]. split.
    { rewrite Hlen. destruct (Pandas.cols d) eqn:Ec; [| done].
      unfold Pandas.columns in Hcols. by rewrite Ec in Hcols. }
    split; [exact Htext |].
    simpl. unfold written. rewrite Hw, lookup_insert_eq. by rewrite Htext.
Qed.

Lemma exportable_sheet_is_exported_witness :
  exists records w',
    exit_status script_file some_float_repr some_timedelta_repr
      (world_with timed_sheet "2026-01-24T10:00:00") = (0, w')
    /\ normalized_records some_timedelta_repr pandas_2 timed_sheet = Ret records
    /\ length records = 2%nat
    /\ Json.dump some_float_repr (output_data "2026-01-24T10:00:00" records)
       = (envelope_head some_float_repr "2026-01-24T10:00:00" (Py.len records)
          +:+ envelope_rest some_float_repr records, None)
    /\ w_fs w' !! str (output_path script_file)
       = Some (File (envelope_head some_float_repr "2026-01-24T10:00:00" (Py.len records)
                     +:+ envelope_rest some_float_repr records)).
Proof.
  apply (exportable_sheet_is_exported script_file some_float_repr some_timedelta_repr
           (world_with timed_sheet "2026-01-24T10:00:00") pandas_2 "3.1.5" 20480 timed_sheet).
  - reflexivity.
  - reflexivity.
  - reflexivity.
  - reflexivity.
  - split; [apply (bool_decide_eq_true_1 _); vm_compute; reflexivity | repeat constructor].
  - vm_compute. discriminate.
  - vm_compute. discriminate.
  - repeat constructor.
  - vm_compute. reflexivity.
  - reflexivity.
  - vm_compute. discriminate.
Defined.

End Properties.
